(** * KNX IoT example device: button-driven reset and programming mode,
      LED feedback tasklets and the sleep arbiter.

    Shallow embedding of [EXAMPLE/knx_iot_example_dev.c] and of the
    sleep path of [EXAMPLE/knx_iot_sleepy_main.c].

    The C code is a set of callbacks that mutate a handful of globals and
    call into collaborators that live outside the repository (the KNX
    stack, OpenThread, the Cascoda tasklet scheduler and the devboard
    LED/button driver).  The embedding threads one [World] value through
    every function: the globals of the C files, the part of the
    collaborators' state the code reads back, and a log of every
    side-effecting collaborator call, in call order. *)

From Stdlib Require Import ZArith List Bool String Lia.
Import ListNotations.
Open Scope Z_scope.

(** ** Machine integers *)

Definition u8 (x : Z) : Z := x mod 2 ^ 8.
Definition u32 (x : Z) : Z := x mod 2 ^ 32.
Definition UINT32_MAX : Z := 2 ^ 32 - 1.

(** C's [!x] on an integer. *)
Definition lnot (x : Z) : Z := if x =? 0 then 1 else 0.

(** ** Types of the collaborators' interfaces *)

(** [dvbd_led_btn] of devboard_btn.h: the four LED/button positions. *)
Inductive dvbd_led_btn : Type :=
| DEV_SWITCH_1 | DEV_SWITCH_2 | DEV_SWITCH_3 | DEV_SWITCH_4.

Definition dvbd_led_btn_eqb (a b : dvbd_led_btn) : bool :=
  match a, b with
  | DEV_SWITCH_1, DEV_SWITCH_1 | DEV_SWITCH_2, DEV_SWITCH_2
  | DEV_SWITCH_3, DEV_SWITCH_3 | DEV_SWITCH_4, DEV_SWITCH_4 => true
  | _, _ => false
  end.

Inductive dvbd_jumper_pos : Type := JUMPER_POS_1 | JUMPER_POS_2.

Inductive dvbd_short_press_mode : Type :=
| BTN_SHORTPRESS_PRESSED | BTN_SHORTPRESS_RELEASED.

Inductive otDeviceRole : Type :=
| OT_DEVICE_ROLE_DISABLED | OT_DEVICE_ROLE_DETACHED | OT_DEVICE_ROLE_CHILD
| OT_DEVICE_ROLE_ROUTER | OT_DEVICE_ROLE_LEADER.

Definition otDeviceRole_eqb (a b : otDeviceRole) : bool :=
  match a, b with
  | OT_DEVICE_ROLE_DISABLED, OT_DEVICE_ROLE_DISABLED
  | OT_DEVICE_ROLE_DETACHED, OT_DEVICE_ROLE_DETACHED
  | OT_DEVICE_ROLE_CHILD, OT_DEVICE_ROLE_CHILD
  | OT_DEVICE_ROLE_ROUTER, OT_DEVICE_ROLE_ROUTER
  | OT_DEVICE_ROLE_LEADER, OT_DEVICE_ROLE_LEADER => true
  | _, _ => false
  end.

(** The [ca_tasklet] objects.  Three are owned by the example; the
    scheduler is shared with the SDK, whose own tasklets are [sdk_tasklet]. *)
Inductive tasklet : Type :=
| g_programming_mode_handler
| g_reset_done_indicator
| g_sed_poll_tasklet
| sdk_tasklet (n : nat).

Definition tasklet_eqb (a b : tasklet) : bool :=
  match a, b with
  | g_programming_mode_handler, g_programming_mode_handler
  | g_reset_done_indicator, g_reset_done_indicator
  | g_sed_poll_tasklet, g_sed_poll_tasklet => true
  | sdk_tasklet n, sdk_tasklet m => Nat.eqb n m
  | _, _ => false
  end.

(** The tasklet callbacks (function pointers handed to [TASKLET_Init]). *)
Inductive tasklet_fn : Type :=
| fn_reset_done_feedback | fn_programming_mode_handler | fn_sed_poll_handler.

(** The button callbacks (function pointers handed to the devboard driver). *)
Inductive button_fn : Type :=
| fn_lssb_button_pressed
| fn_reset_hold_cb | fn_reset_long_press_cb | fn_prog_mode_short_press_cb.

(** The [void *context] values the example passes around: [NULL], or the
    address of the function-static [state_snapshot] of [reset_hold_cb]. *)
Inductive context : Type := NULL | addr_state_snapshot.

(** ** enum ImplementationDefinedParameters *)

Definition LSSB_BUTTON : dvbd_led_btn := DEV_SWITCH_1.
Definition LSAB_LED : dvbd_led_btn := DEV_SWITCH_2.
Definition PROGRAMMING_MODE_INDICATOR : dvbd_led_btn := DEV_SWITCH_3.
Definition TRIGGER_FOR_PROGRAMMING_MODE_AND_RESET : dvbd_led_btn := DEV_SWITCH_4.
Definition RESET_HOLD_AND_LONG_PRESS_THRESHOLD_MS : Z := 3000.
Definition PROGRAMMING_MODE_INDICATOR_FLASHING_PERIOD_MS : Z := 1000.
Definition RESET_VALUE : Z := 2.
Definition RESET_INDICATOR_FLICKER_COUNT : Z := 5.
Definition RESET_KNX_INDICATOR_FLICKER_PERIOD_MS : Z := 300.
Definition RESET_THREAD_INDICATOR_FLICKER_PERIOD_MS : Z := 600.

(** ** enum reset_button_state

    The C code increments the enum variable with [++], so it is kept as
    the integer it is. *)
Definition KNX_RESET : Z := 0.
Definition THREAD_RESET : Z := 1.
Definition IGNORE_FURTHER_ACTION : Z := 2.

Definition SCHEDULE_NOW : Z := 0.
Definition THIS_DEVICE : Z := 0.

(** ** The log of collaborator calls *)

Inductive Event : Type :=
| EvTaskletInit (t : tasklet) (f : tasklet_fn)
| EvTaskletSchedule (t : tasklet) (delta : Z) (c : context)
| EvTaskletCancel (t : tasklet)
| EvSetLED (p : dvbd_led_btn) (level : Z)
| EvRegisterButtonInput (p : dvbd_led_btn) (j : dvbd_jumper_pos)
| EvRegisterButtonIRQInput (p : dvbd_led_btn) (j : dvbd_jumper_pos)
| EvRegisterLEDOutput (p : dvbd_led_btn) (j : dvbd_jumper_pos)
| EvSetButtonShortPressCallback (p : dvbd_led_btn) (f : button_fn)
                                (m : dvbd_short_press_mode)
| EvSetButtonHoldCallback (p : dvbd_led_btn) (f : button_fn) (threshold : Z)
| EvSetButtonLongPressCallback (p : dvbd_led_btn) (f : button_fn) (threshold : Z)
| EvSetProgrammingMode (device_index : Z) (mode : bool)
| EvPublishService
| EvResetDevice (device_index : Z) (value : Z)
| EvEraseJoinerCredentials
| EvSystemReset
| EvSetLinkMode (rx_on_when_idle : bool)
| EvSendDataRequest
| EvDevboardSleep (ms : Z)
| EvSetRestartCb
| EvSetPutCb
| EvDevBtnToggle (url : string).

(** ** The state threaded through the code *)

Inductive pin_role : Type := ButtonInput | ButtonIRQInput | LEDOutput.

(** What the devboard driver holds for one LED/button position. *)
Record Pin : Type := mkPin {
  role : option pin_role;
  level : Z;
  short_press_cb : option (button_fn * dvbd_short_press_mode);
  hold_cb : option (button_fn * Z);
  long_press_cb : option (button_fn * Z)
}.

(** A queued tasklet: which one, when it is due, and its context. *)
Record Queued : Type := mkQueued {
  q_tasklet : tasklet;
  q_due : Z;
  q_context : context
}.

Record World : Type := mkWorld {
  (* globals and function-statics of knx_iot_example_dev.c *)
  g_reset_state : Z;
  state_snapshot : Z;          (* static in reset_hold_cb *)
  count : Z;                   (* static uint8_t in reset_done_feedback *)
  g_time_of_last_wake : Z;
  (* KNX stack: the programming-mode flag of each device index *)
  programming_mode : Z -> bool;
  (* tasklet scheduler *)
  queue : list Queued;
  callback : tasklet -> option tasklet_fn;
  (* devboard driver *)
  pins : dvbd_led_btn -> Pin;
  dvbd_can_sleep : bool;
  (* time: the monotonic clock in ms, and the time until the next wake
     source other than the sleep timer, if any *)
  clock : Z;
  next_wake_source : option Z;
  (* OpenThread *)
  device_role : otDeviceRole;
  platform_can_sleep : bool;
  rx_on_when_idle : bool;
  (* every side-effecting collaborator call so far, oldest first *)
  log : list Event
}.

Definition set_g_reset_state (v : Z) (w : World) : World :=
  mkWorld v (state_snapshot w) (count w) (g_time_of_last_wake w)
    (programming_mode w) (queue w) (callback w) (pins w) (dvbd_can_sleep w)
    (clock w) (next_wake_source w) (device_role w) (platform_can_sleep w)
    (rx_on_when_idle w) (log w).

Definition set_state_snapshot (v : Z) (w : World) : World :=
  mkWorld (g_reset_state w) v (count w) (g_time_of_last_wake w)
    (programming_mode w) (queue w) (callback w) (pins w) (dvbd_can_sleep w)
    (clock w) (next_wake_source w) (device_role w) (platform_can_sleep w)
    (rx_on_when_idle w) (log w).

Definition set_count (v : Z) (w : World) : World :=
  mkWorld (g_reset_state w) (state_snapshot w) v (g_time_of_last_wake w)
    (programming_mode w) (queue w) (callback w) (pins w) (dvbd_can_sleep w)
    (clock w) (next_wake_source w) (device_role w) (platform_can_sleep w)
    (rx_on_when_idle w) (log w).

Definition set_g_time_of_last_wake (v : Z) (w : World) : World :=
  mkWorld (g_reset_state w) (state_snapshot w) (count w) v
    (programming_mode w) (queue w) (callback w) (pins w) (dvbd_can_sleep w)
    (clock w) (next_wake_source w) (device_role w) (platform_can_sleep w)
    (rx_on_when_idle w) (log w).

Definition set_programming_mode (v : Z -> bool) (w : World) : World :=
  mkWorld (g_reset_state w) (state_snapshot w) (count w) (g_time_of_last_wake w)
    v (queue w) (callback w) (pins w) (dvbd_can_sleep w)
    (clock w) (next_wake_source w) (device_role w) (platform_can_sleep w)
    (rx_on_when_idle w) (log w).

Definition set_queue (v : list Queued) (w : World) : World :=
  mkWorld (g_reset_state w) (state_snapshot w) (count w) (g_time_of_last_wake w)
    (programming_mode w) v (callback w) (pins w) (dvbd_can_sleep w)
    (clock w) (next_wake_source w) (device_role w) (platform_can_sleep w)
    (rx_on_when_idle w) (log w).

Definition set_callback (v : tasklet -> option tasklet_fn) (w : World) : World :=
  mkWorld (g_reset_state w) (state_snapshot w) (count w) (g_time_of_last_wake w)
    (programming_mode w) (queue w) v (pins w) (dvbd_can_sleep w)
    (clock w) (next_wake_source w) (device_role w) (platform_can_sleep w)
    (rx_on_when_idle w) (log w).

Definition set_pins (v : dvbd_led_btn -> Pin) (w : World) : World :=
  mkWorld (g_reset_state w) (state_snapshot w) (count w) (g_time_of_last_wake w)
    (programming_mode w) (queue w) (callback w) v (dvbd_can_sleep w)
    (clock w) (next_wake_source w) (device_role w) (platform_can_sleep w)
    (rx_on_when_idle w) (log w).

Definition set_time (c : Z) (n : option Z) (w : World) : World :=
  mkWorld (g_reset_state w) (state_snapshot w) (count w) (g_time_of_last_wake w)
    (programming_mode w) (queue w) (callback w) (pins w) (dvbd_can_sleep w)
    c n (device_role w) (platform_can_sleep w)
    (rx_on_when_idle w) (log w).

Definition set_rx_on_when_idle (v : bool) (w : World) : World :=
  mkWorld (g_reset_state w) (state_snapshot w) (count w) (g_time_of_last_wake w)
    (programming_mode w) (queue w) (callback w) (pins w) (dvbd_can_sleep w)
    (clock w) (next_wake_source w) (device_role w) (platform_can_sleep w)
    v (log w).

Definition set_environment (r : otDeviceRole) (stack board : bool)
           (wake : option Z) (w : World) : World :=
  mkWorld (g_reset_state w) (state_snapshot w) (count w) (g_time_of_last_wake w)
    (programming_mode w) (queue w) (callback w) (pins w) board
    (clock w) wake r stack
    (rx_on_when_idle w) (log w).

Definition emit (e : Event) (w : World) : World :=
  mkWorld (g_reset_state w) (state_snapshot w) (count w) (g_time_of_last_wake w)
    (programming_mode w) (queue w) (callback w) (pins w) (dvbd_can_sleep w)
    (clock w) (next_wake_source w) (device_role w) (platform_can_sleep w)
    (rx_on_when_idle w) (log w ++ [e]).

(** ** A state monad with failure

    [None] stands for undefined behaviour of the C code (the only source
    in this file is dereferencing a [NULL] context). *)

Definition M (A : Type) : Type := World -> option (A * World).

Definition ret {A} (a : A) : M A := fun w => Some (a, w).

Definition bind {A B} (m : M A) (k : A -> M B) : M B :=
  fun w => match m w with
           | Some (a, w') => k a w'
           | None => None
           end.

Definition undefined {A} : M A := fun _ => None.

Definition read {A} (f : World -> A) : M A := fun w => Some (f w, w).

Definition modify (f : World -> World) : M unit := fun w => Some (tt, f w).

Declare Scope m_scope.
Delimit Scope m_scope with m.
Notation "x <- m ;; k" := (bind m (fun x => k))
  (at level 61, m at next level, right associativity) : m_scope.
Notation "m ;; k" := (bind m (fun _ => k))
  (at level 61, right associativity) : m_scope.
Open Scope m_scope.

(** [if (c) stmt;] *)
Definition when (c : bool) (m : M unit) : M unit := if c then m else ret tt.

(** The world after running [m], when it is defined. *)
Definition exec {A} (m : M A) (w : World) : option World :=
  match m w with Some (_, w') => Some w' | None => None end.

(** ** Build configuration

    The preprocessor switches the two files test, and the constants they
    take from headers that are not part of the example
    (knx_iot_sleepy_main_extern.h, devboard_btn.h). *)
Record Config : Type := mkConfig {
  DEMO_MODE : bool;            (* #ifdef DEMO_MODE *)
  SLEEPY : bool;               (* #ifdef SLEEPY *)
  SLEEPY_USE_LED : bool;       (* #ifdef SLEEPY_USE_LED *)
  SED_POLL_PERIOD : Z;         (* ms between keep-alive data polls *)
  SED_MIN_AWAKE_TIME : Z;      (* ms to stay awake after a wake-up *)
  LED_ON : Z;                  (* the level that turns an LED on *)
  LED_OFF : Z                  (* the level that turns an LED off *)
}.

(** ** Collaborators *)

Module Tasklet.

(** Modelled from the spec: the deferred-task scheduler
    (cascoda-util/cascoda_tasklet.h) is not part of the sources.
    Each tasklet holds at most one outstanding entry; scheduling an
    armed tasklet replaces its due time and context. *)
Definition remove (t : tasklet) (q : list Queued) : list Queued :=
  filter (fun e => negb (tasklet_eqb (q_tasklet e) t)) q.

Definition find (t : tasklet) (q : list Queued) : option Queued :=
  List.find (fun e => tasklet_eqb (q_tasklet e) t) q.

(** Modelled from the spec: the duration until one entry fires, as the
    API's 32-bit millisecond count; an overdue entry fires at the next
    tick (duration 0). *)
Definition time_left (now : Z) (e : Queued) : Z :=
  Z.min UINT32_MAX (Z.max 0 (q_due e - now)).

(** Modelled from the spec: [time_to_next] is the duration until the
    nearest armed entry fires across the whole scheduler, or no pending
    work ([None]) if none is armed. *)
Fixpoint time_to_next (now : Z) (q : list Queued) : option Z :=
  match q with
  | [] => None
  | e :: q' =>
      match time_to_next now q' with
      | None => Some (time_left now e)
      | Some d => Some (Z.min (time_left now e) d)
      end
  end.

End Tasklet.

Arguments Tasklet.remove : simpl never.
Arguments Tasklet.find : simpl never.

(** Modelled from the spec: [TASKLET_Init] binds a callback to a tasklet. *)
Definition TASKLET_Init (t : tasklet) (f : tasklet_fn) : M unit :=
  modify (fun w =>
    emit (EvTaskletInit t f)
      (set_callback (fun t' => if tasklet_eqb t' t then Some f else callback w t') w)).

(** Modelled from the spec: [schedule] arms or re-arms the tasklet to fire
    once [delta] ms have elapsed from the call. *)
Definition TASKLET_ScheduleDelta (t : tasklet) (delta : Z) (c : context) : M unit :=
  modify (fun w =>
    emit (EvTaskletSchedule t delta c)
      (set_queue (mkQueued t (clock w + delta) c :: Tasklet.remove t (queue w)) w)).

(** Modelled from the spec: [cancel] disarms a tasklet; idempotent. *)
Definition TASKLET_Cancel (t : tasklet) : M unit :=
  modify (fun w =>
    emit (EvTaskletCancel t) (set_queue (Tasklet.remove t (queue w)) w)).

(** Modelled from the spec: whether the tasklet is armed. *)
Definition TASKLET_IsQueued (t : tasklet) : M bool :=
  read (fun w => match Tasklet.find t (queue w) with Some _ => true | None => false end).

(** Modelled from the spec: [TASKLET_GetTimeToNext(&d)] reports
    [time_to_next]; the result is the new value of [d], [None] when there
    is no pending work and [d] is left as it was. *)
Definition TASKLET_GetTimeToNext : M (option Z) :=
  read (fun w => Tasklet.time_to_next (clock w) (queue w)).

(** Modelled from the spec: the monotonic clock, read as the 32-bit
    millisecond tick counter. *)
Definition TIME_ReadAbsoluteTime : M Z := read (fun w => u32 (clock w)).

(** Modelled from the spec: [TIME_Cmp] (cascoda-util/cascoda_time.h) is not
    part of the sources; the spec reads [TIME_Cmp(now, t) >= 0] as the time
    [t] has elapsed.  On the wrapping tick counter that is the sign of the
    32-bit difference. *)
Definition TIME_Cmp (t1 t2 : Z) : Z :=
  let d := u32 (t1 - t2) in
  if d <? 2 ^ 31 then d else d - 2 ^ 32.

(** Modelled from the spec: the KNX stack keeps [programming_mode: bool]
    per device; these two read and write it. *)
Definition oc_knx_device_in_programming_mode (device_index : Z) : M bool :=
  read (fun w => programming_mode w device_index).

Definition oc_knx_device_set_programming_mode (device_index : Z) (mode : bool) : M unit :=
  modify (fun w =>
    emit (EvSetProgrammingMode device_index mode)
      (set_programming_mode
         (fun i => if i =? device_index then mode else programming_mode w i) w)).

(** Modelled from the spec: [oc_core_get_device_info(0)] followed by
    [knx_publish_service(...)] is the republication of the discovery
    record; only the call is recorded. *)
Definition knx_publish_service : M unit := modify (emit EvPublishService).

(** Modelled from the spec: [reset(level)], the network-layer reset of
    the KNX stack; only the call is recorded, as for
    [erase_join_credentials()] and [system_restart()] below. *)
Definition oc_reset_device (device_index value : Z) : M unit :=
  modify (emit (EvResetDevice device_index value)).

Definition PlatformEraseJoinerCredentials : M unit :=
  modify (emit EvEraseJoinerCredentials).

(** Modelled from the spec: the network stack's [can_sleep() -> bool] and
    its current role are answers of the environment. *)
Definition PlatformCanSleep : M bool := read platform_can_sleep.

Definition otThreadGetDeviceRole : M otDeviceRole := read device_role.

Definition otThreadSetLinkMode (mRxOnWhenIdle : bool) : M unit :=
  modify (fun w => emit (EvSetLinkMode mRxOnWhenIdle) (set_rx_on_when_idle mRxOnWhenIdle w)).

Definition otLinkSendDataRequest : M unit := modify (emit EvSendDataRequest).

Definition BSP_SystemReset : M unit := modify (emit EvSystemReset).

(** Modelled from the spec: the devboard driver ([set_led(id, state)],
    [sense_led(id) -> state], [register_button(id)]) keeps, per position,
    the registered role, the level last set and the callbacks last
    installed; it is not part of the sources. *)
Definition update_pin (p : dvbd_led_btn) (f : Pin -> Pin) (w : World) : World :=
  set_pins (fun p' => if dvbd_led_btn_eqb p' p then f (pins w p') else pins w p') w.

Definition DVBD_Sense (p : dvbd_led_btn) : M Z := read (fun w => level (pins w p)).

Definition DVBD_SetLED (p : dvbd_led_btn) (v : Z) : M unit :=
  modify (fun w =>
    emit (EvSetLED p v)
      (update_pin p (fun x => mkPin (role x) v (short_press_cb x) (hold_cb x) (long_press_cb x)) w)).

Definition register_as (r : pin_role) (x : Pin) : Pin :=
  mkPin (Some r) (level x) (short_press_cb x) (hold_cb x) (long_press_cb x).

Definition DVBD_RegisterButtonInput (p : dvbd_led_btn) (j : dvbd_jumper_pos) : M unit :=
  modify (fun w => emit (EvRegisterButtonInput p j) (update_pin p (register_as ButtonInput) w)).

Definition DVBD_RegisterButtonIRQInput (p : dvbd_led_btn) (j : dvbd_jumper_pos) : M unit :=
  modify (fun w => emit (EvRegisterButtonIRQInput p j) (update_pin p (register_as ButtonIRQInput) w)).

Definition DVBD_RegisterLEDOutput (p : dvbd_led_btn) (j : dvbd_jumper_pos) : M unit :=
  modify (fun w => emit (EvRegisterLEDOutput p j) (update_pin p (register_as LEDOutput) w)).

Definition DVBD_SetButtonShortPressCallback
           (p : dvbd_led_btn) (f : button_fn) (m : dvbd_short_press_mode) : M unit :=
  modify (fun w =>
    emit (EvSetButtonShortPressCallback p f m)
      (update_pin p (fun x => mkPin (role x) (level x) (Some (f, m)) (hold_cb x) (long_press_cb x)) w)).

Definition DVBD_SetButtonHoldCallback (p : dvbd_led_btn) (f : button_fn) (threshold : Z) : M unit :=
  modify (fun w =>
    emit (EvSetButtonHoldCallback p f threshold)
      (update_pin p (fun x => mkPin (role x) (level x) (short_press_cb x) (Some (f, threshold)) (long_press_cb x)) w)).

Definition DVBD_SetButtonLongPressCallback (p : dvbd_led_btn) (f : button_fn) (threshold : Z) : M unit :=
  modify (fun w =>
    emit (EvSetButtonLongPressCallback p f threshold)
      (update_pin p (fun x => mkPin (role x) (level x) (short_press_cb x) (hold_cb x) (Some (f, threshold))) w)).

Definition DVBD_CanSleep : M bool := read dvbd_can_sleep.

(** Modelled from the spec: [DVBD_DevboardSleep(ms, dev)] suspends the
    device until the sleep timer expires or another wake source (radio
    interrupt, external event) fires, whichever comes first. *)
Definition DVBD_DevboardSleep (ms : Z) : M unit :=
  modify (fun w =>
    emit (EvDevboardSleep ms)
      match next_wake_source w with
      | None => set_time (clock w + ms) None w
      | Some i =>
          if i <=? ms then set_time (clock w + Z.max 0 i) None w
          else set_time (clock w + ms) (Some (i - ms)) w
      end).

Definition oc_set_restart_cb : M unit := modify (emit EvSetRestartCb).

(** [app_set_put_cb] and [dev_btn_toggle_cb] belong to the data-point glue
    of knx_iot_example.c; only the call is recorded. *)
Definition app_set_put_cb : M unit := modify (emit EvSetPutCb).
Definition dev_btn_toggle_cb (url : string) : M unit := modify (emit (EvDevBtnToggle url)).
Definition URL_PB_1 : string := "/p/o_2_2".

(** ** knx_iot_example_dev.c *)

Section Device.

Variable cfg : Config.

(** [*((enum reset_button_state * )context)]; dereferencing [NULL] is
    undefined. *)
Definition deref (c : context) : M Z :=
  match c with
  | NULL => undefined
  | addr_state_snapshot => read state_snapshot
  end.

Definition lssb_button_pressed (c : context) : M unit :=
  dev_btn_toggle_cb URL_PB_1.

Definition exit_programming_mode (device_index : Z) : M unit :=
  when (SLEEPY cfg) (otThreadSetLinkMode false) ;;
  oc_knx_device_set_programming_mode device_index false ;;
  TASKLET_Cancel g_programming_mode_handler ;;
  DVBD_SetLED PROGRAMMING_MODE_INDICATOR (LED_OFF cfg) ;;
  knx_publish_service.

Definition enter_programming_mode (device_index : Z) : M unit :=
  when (SLEEPY cfg) (otThreadSetLinkMode true) ;;
  oc_knx_device_set_programming_mode device_index true ;;
  TASKLET_ScheduleDelta g_programming_mode_handler SCHEDULE_NOW NULL ;;
  knx_publish_service.

(** [++g_reset_state] on the enum's unsigned 32-bit representation. *)
Definition incr_g_reset_state : M unit :=
  modify (fun w => set_g_reset_state (u32 (g_reset_state w + 1)) w).

Definition reset_hold_cb (c : context) : M unit :=
  if DEMO_MODE cfg then ret tt
  else
    s <- read g_reset_state ;;
    if s =? KNX_RESET then
      in_pm <- oc_knx_device_in_programming_mode THIS_DEVICE ;;
      when in_pm (exit_programming_mode THIS_DEVICE) ;;
      oc_reset_device THIS_DEVICE RESET_VALUE ;;
      modify (set_state_snapshot KNX_RESET) ;;
      TASKLET_ScheduleDelta g_reset_done_indicator SCHEDULE_NOW addr_state_snapshot ;;
      knx_publish_service ;;
      incr_g_reset_state
    else if s =? THREAD_RESET then
      PlatformEraseJoinerCredentials ;;
      modify (set_state_snapshot THREAD_RESET) ;;
      TASKLET_ScheduleDelta g_reset_done_indicator SCHEDULE_NOW addr_state_snapshot ;;
      incr_g_reset_state
    else if s =? IGNORE_FURTHER_ACTION then
      ret tt
    else
      incr_g_reset_state.

Definition reset_long_press_cb (c : context) : M unit :=
  modify (set_g_reset_state KNX_RESET).

Definition reset_init (reset_button : dvbd_led_btn) : M unit :=
  TASKLET_Init g_reset_done_indicator fn_reset_done_feedback ;;
  DVBD_SetButtonHoldCallback reset_button fn_reset_hold_cb
    RESET_HOLD_AND_LONG_PRESS_THRESHOLD_MS ;;
  DVBD_SetButtonLongPressCallback reset_button fn_reset_long_press_cb
    RESET_HOLD_AND_LONG_PRESS_THRESHOLD_MS.

(** Declared to return [ca_error] but has no [return] statement; the
    value is never used by the example. *)
Definition reset_done_feedback (c : context) : M unit :=
  reset_type <- deref c ;;
  old <- read count ;;
  modify (set_count (u8 (old + 1))) ;;
  if old <? RESET_INDICATOR_FLICKER_COUNT then
    led_state <- DVBD_Sense PROGRAMMING_MODE_INDICATOR ;;
    DVBD_SetLED PROGRAMMING_MODE_INDICATOR (lnot led_state) ;;
    if reset_type =? KNX_RESET then
      TASKLET_ScheduleDelta g_reset_done_indicator
        (RESET_KNX_INDICATOR_FLICKER_PERIOD_MS / 2) c
    else if reset_type =? THREAD_RESET then
      TASKLET_ScheduleDelta g_reset_done_indicator
        (RESET_THREAD_INDICATOR_FLICKER_PERIOD_MS / 2) c
    else ret tt
  else
    modify (set_count 0) ;;
    DVBD_SetLED PROGRAMMING_MODE_INDICATOR (LED_OFF cfg) ;;
    when (reset_type =? THREAD_RESET) BSP_SystemReset.

Definition programming_mode_handler (c : context) : M unit :=
  led_state <- DVBD_Sense PROGRAMMING_MODE_INDICATOR ;;
  DVBD_SetLED PROGRAMMING_MODE_INDICATOR (lnot led_state) ;;
  TASKLET_ScheduleDelta g_programming_mode_handler
    (PROGRAMMING_MODE_INDICATOR_FLASHING_PERIOD_MS / 2) NULL.

Definition prog_mode_short_press_cb (c : context) : M unit :=
  in_pm <- oc_knx_device_in_programming_mode THIS_DEVICE ;;
  if in_pm then exit_programming_mode THIS_DEVICE
  else enter_programming_mode THIS_DEVICE.

Definition programming_mode_embedded (device_index : Z) (mode : bool) : M unit :=
  current <- oc_knx_device_in_programming_mode device_index ;;
  if Bool.eqb mode current then ret tt
  else if mode then enter_programming_mode device_index
  else exit_programming_mode device_index.

(** Calls [reset_done_feedback(NULL)], whose first statement dereferences
    its argument. *)
Definition reset_embedded (device_index reset_value : Z) : M unit :=
  reset_done_feedback NULL ;;
  exit_programming_mode THIS_DEVICE.

Definition programming_mode_init (flashing_led program_mode_button : dvbd_led_btn) : M unit :=
  if dvbd_led_btn_eqb flashing_led program_mode_button then ret tt
  else
    TASKLET_Init g_programming_mode_handler fn_programming_mode_handler ;;
    (if SLEEPY cfg
     then DVBD_RegisterButtonIRQInput program_mode_button JUMPER_POS_1
     else DVBD_RegisterButtonInput program_mode_button JUMPER_POS_1) ;;
    DVBD_RegisterLEDOutput flashing_led JUMPER_POS_1 ;;
    DVBD_SetButtonShortPressCallback program_mode_button
      fn_prog_mode_short_press_cb BTN_SHORTPRESS_RELEASED.

Definition restart_cb (device_index : Z) : M unit :=
  exit_programming_mode device_index.

Definition knx_specific_init : M unit :=
  programming_mode_init PROGRAMMING_MODE_INDICATOR TRIGGER_FOR_PROGRAMMING_MODE_AND_RESET ;;
  reset_init TRIGGER_FOR_PROGRAMMING_MODE_AND_RESET ;;
  oc_set_restart_cb.

(** Compiled only with SLEEPY, so the inner [#ifdef SLEEPY] always takes
    its first branch.  [&&] evaluates its right operand only if the left
    one holds. *)
Definition hardware_can_sleep : M bool :=
  can <- DVBD_CanSleep ;;
  if can then
    in_pm <- oc_knx_device_in_programming_mode THIS_DEVICE ;;
    ret (negb in_pm)
  else ret false.

(** Compiled only with SLEEPY.  [pDeviceRef] is only handed on to
    [DVBD_DevboardSleep] and is left out. *)
Definition hardware_sleep (nextAppEvent : Z) : M unit :=
  let taskletTimeLeft := u32 (SED_POLL_PERIOD cfg) in
  queued <- TASKLET_IsQueued g_sed_poll_tasklet ;;
  when (negb queued)
    (TASKLET_ScheduleDelta g_sed_poll_tasklet (u32 (SED_POLL_PERIOD cfg)) NULL) ;;
  next <- TASKLET_GetTimeToNext ;;
  let taskletTimeLeft :=
    match next with Some d => d | None => taskletTimeLeft end in
  let taskletTimeLeft :=
    if taskletTimeLeft >? nextAppEvent then nextAppEvent else taskletTimeLeft in
  now <- TIME_ReadAbsoluteTime ;;
  last <- read g_time_of_last_wake ;;
  let has_min_awake_time_passed :=
    TIME_Cmp now (u32 (last + SED_MIN_AWAKE_TIME cfg)) >=? 0 in
  (* [||] asks for the role only when the time has not passed; the call
     has no effect, so it is made unconditionally here *)
  r <- otThreadGetDeviceRole ;;
  let sleep_after_joining :=
    has_min_awake_time_passed
    || negb (otDeviceRole_eqb r OT_DEVICE_ROLE_DETACHED) in
  if (taskletTimeLeft >? 100) && sleep_after_joining then
    DVBD_DevboardSleep taskletTimeLeft ;;
    t <- TIME_ReadAbsoluteTime ;;
    modify (set_g_time_of_last_wake t)
  else ret tt.

Definition hardware_init : M unit :=
  app_set_put_cb ;;
  when (SLEEPY cfg)
    (TASKLET_Init g_sed_poll_tasklet fn_sed_poll_handler ;;
     t <- TIME_ReadAbsoluteTime ;;
     modify (set_g_time_of_last_wake t) ;;
     when (SLEEPY_USE_LED cfg)
       (DVBD_RegisterLEDOutput PROGRAMMING_MODE_INDICATOR JUMPER_POS_1 ;;
        DVBD_SetLED PROGRAMMING_MODE_INDICATOR (LED_ON cfg))) ;;
  knx_specific_init ;;
  DVBD_RegisterLEDOutput LSAB_LED JUMPER_POS_1 ;;
  DVBD_RegisterButtonInput LSSB_BUTTON JUMPER_POS_1 ;;
  DVBD_SetButtonShortPressCallback LSSB_BUTTON fn_lssb_button_pressed
    BTN_SHORTPRESS_PRESSED.

(** ** knx_iot_sleepy_main.c *)

Definition prog_mode_cb (device_index : Z) (mode : bool) : M unit :=
  programming_mode_embedded device_index mode.

Definition reset_cb (device_index reset_value : Z) : M unit :=
  reset_embedded device_index reset_value.

(** [timeToNextAppEvent] is an [oc_clock_time_t], a 64-bit unsigned;
    [pDeviceRef] is left out as in [hardware_sleep]. *)
Definition sleep_if_possible (timeToNextAppEvent : Z) : M unit :=
  let nextAppEvent := u32 timeToNextAppEvent in
  let nextAppEvent :=
    if (timeToNextAppEvent >? 2147483647) || (timeToNextAppEvent =? 0)
    then 2147483647 else nextAppEvent in
  can <- PlatformCanSleep ;;
  if negb can then ret tt
  else
    can <- hardware_can_sleep ;;
    if negb can then ret tt
    else hardware_sleep nextAppEvent.

Definition sed_poll_handler (c : context) : M unit :=
  otLinkSendDataRequest.

End Device.

(** ** The device as a reactive system

    The callbacks above are invoked by the collaborators: the button
    classifier, the tasklet scheduler, the KNX stack and the main loop. *)

Definition run_tasklet_fn (cfg : Config) (f : tasklet_fn) (c : context) : M unit :=
  match f with
  | fn_reset_done_feedback => reset_done_feedback cfg c
  | fn_programming_mode_handler => programming_mode_handler c
  | fn_sed_poll_handler => sed_poll_handler c
  end.

Definition run_button_fn (cfg : Config) (f : button_fn) (c : context) : M unit :=
  match f with
  | fn_lssb_button_pressed => lssb_button_pressed c
  | fn_reset_hold_cb => reset_hold_cb cfg c
  | fn_reset_long_press_cb => reset_long_press_cb c
  | fn_prog_mode_short_press_cb => prog_mode_short_press_cb cfg c
  end.

(** Modelled from the spec: the scheduler tick ([run_due]) fires a tasklet
    whose due time has elapsed, marking it disarmed before invoking its
    callback with the context it was scheduled with. *)
Definition fire (cfg : Config) (t : tasklet) : M unit :=
  fun w =>
    match Tasklet.find t (queue w) with
    | None => Some (tt, w)
    | Some e =>
        match callback w t with
        | None => Some (tt, set_queue (Tasklet.remove t (queue w)) w)
        | Some f =>
            run_tasklet_fn cfg f (q_context e)
              (set_queue (Tasklet.remove t (queue w)) w)
        end
    end.

Definition run_due (cfg : Config) (t : tasklet) : M unit :=
  fun w =>
    match Tasklet.find t (queue w) with
    | None => Some (tt, w)
    | Some e => if q_due e <=? clock w then fire cfg t w else Some (tt, w)
    end.

(** The clock reaches the due time of [t] (if it lies ahead), then the
    scheduler fires [t]. *)
Definition wait_and_fire (cfg : Config) (t : tasklet) : M unit :=
  fun w =>
    match Tasklet.find t (queue w) with
    | None => Some (tt, w)
    | Some e =>
        fire cfg t (set_time (Z.max (clock w) (q_due e)) (next_wake_source w) w)
    end.

Fixpoint repeat_m (n : nat) (m : M unit) : M unit :=
  match n with
  | O => ret tt
  | S n' => m ;; repeat_m n' m
  end.

(** Modelled from the spec: the button classifier delivers a press event
    to the callback registered for that event on that button, with the
    [NULL] context the example registers. *)
Definition deliver (cfg : Config) (reg : option button_fn) : M unit :=
  match reg with
  | Some f => run_button_fn cfg f NULL
  | None => ret tt
  end.

Inductive Input : Type :=
| Elapse (ms : Z)
| SchedulerTick (t : tasklet)
| ButtonShortPress (p : dvbd_led_btn)
| ButtonHold (p : dvbd_led_btn)
| ButtonLongPress (p : dvbd_led_btn)
| ProgModeCb (device_index : Z) (mode : bool)
| ResetCb (device_index : Z) (reset_value : Z)
| RestartCb (device_index : Z)
| MainLoopSleep (timeToNextAppEvent : Z)
| Environment (r : otDeviceRole) (stack_can_sleep board_can_sleep : bool)
              (wake_source : option Z).

(** The button callback an input reaches, if it is a button event and a
    callback is registered for it. *)
Definition registered (i : Input) (w : World) : option button_fn :=
  match i with
  | ButtonShortPress p => option_map fst (short_press_cb (pins w p))
  | ButtonHold p => option_map fst (hold_cb (pins w p))
  | ButtonLongPress p => option_map fst (long_press_cb (pins w p))
  | _ => None
  end.

Definition handle (cfg : Config) (i : Input) : M unit :=
  match i with
  | Elapse ms =>
      modify (fun w => set_time (clock w + Z.max 0 ms) (next_wake_source w) w)
  | SchedulerTick t => run_due cfg t
  | ButtonShortPress _ | ButtonHold _ | ButtonLongPress _ =>
      reg <- read (registered i) ;;
      deliver cfg reg
  | ProgModeCb device_index mode => prog_mode_cb cfg device_index mode
  | ResetCb device_index reset_value => reset_cb cfg device_index reset_value
  | RestartCb device_index => restart_cb cfg device_index
  | MainLoopSleep t => sleep_if_possible cfg t
  | Environment r stack board wake => modify (set_environment r stack board wake)
  end.

(** The state at power-up: zero-initialised statics, nothing registered,
    nothing queued. *)
Definition boot : World :=
  mkWorld 0 0 0 0 (fun _ => false) [] (fun _ => None)
    (fun _ => mkPin None 0 None None None) true
    0 None OT_DEVICE_ROLE_DISABLED true false [].

(** A configuration for worked examples: a sleepy build without
    DEMO_MODE, a 5 s poll period, 1 s minimum awake time, active-low LEDs. *)
Definition example_cfg : Config :=
  mkConfig false true false 5000 1000 0 1.

Definition is_queued (t : tasklet) (w : World) : bool :=
  match Tasklet.find t (queue w) with Some _ => true | None => false end.

Definition valid_reset_state (s : Z) : Prop :=
  s = KNX_RESET \/ s = THREAD_RESET \/ s = IGNORE_FURTHER_ACTION.

(** ** Reading the log *)

(** The events [w'] has logged beyond those of [w]. *)
Definition new_events (w w' : World) : list Event :=
  skipn (List.length (log w)) (log w').

(** The durations of the suspensions in a run of events. *)
Fixpoint sleep_events (l : list Event) : list Z :=
  match l with
  | [] => []
  | EvDevboardSleep ms :: l' => ms :: sleep_events l'
  | _ :: l' => sleep_events l'
  end.

(** Whether a tasklet is armed after a run of events, given whether it
    was armed before. *)
Fixpoint armed_after (t : tasklet) (l : list Event) (before : bool) : bool :=
  match l with
  | [] => before
  | EvTaskletSchedule t' _ _ :: l' =>
      armed_after t l' (if tasklet_eqb t' t then true else before)
  | EvTaskletCancel t' :: l' =>
      armed_after t l' (if tasklet_eqb t' t then false else before)
  | _ :: l' => armed_after t l' before
  end.

(** The minimum awake time has elapsed since the last wake, as
    [hardware_sleep] computes it. *)
Definition has_min_awake_time_passed (cfg : Config) (w : World) : bool :=
  TIME_Cmp (u32 (clock w)) (u32 (g_time_of_last_wake w + SED_MIN_AWAKE_TIME cfg)) >=? 0.

(** ** app_is_url_in_use *)

Inductive outcome (A : Type) : Type :=
| Returns (a : A)
| UndefinedBehaviour
| OutOfFuel.
Arguments Returns {A} a.
Arguments UndefinedBehaviour {A}.
Arguments OutOfFuel {A}.

Definition INT_MAX : Z := 2 ^ 31 - 1.

(** The group object table of the KNX stack: the url stored at each index
    ([oc_core_find_group_object_table_url_from_index] gives the empty
    string where there is none). *)
Definition group_object_table : Type := list string.

Definition oc_core_get_group_object_table_total_size (table : group_object_table) : Z :=
  Z.of_nat (List.length table).

Definition oc_core_find_group_object_table_url_from_index
           (table : group_object_table) (index : Z) : string :=
  if (0 <=? index) && (index <? Z.of_nat (List.length table))
  then nth (Z.to_nat index) table EmptyString
  else EmptyString.

(** [for (index = 0; index++; index < table_size) { ... }]: the loop
    condition is [index++], the third expression is a comparison whose
    value is discarded.  One unit of fuel per evaluation of the
    condition. *)
Fixpoint url_loop (fuel : nat) (table : group_object_table) (table_size : Z)
         (url : string) (index : Z) : outcome bool :=
  match fuel with
  | O => OutOfFuel
  | S fuel' =>
      if index =? INT_MAX then UndefinedBehaviour
      else
        let cond := index in
        let index := index + 1 in
        if cond =? 0 then Returns false
        else
          let oc_str := oc_core_find_group_object_table_url_from_index table index in
          if (0 <? Z.of_nat (String.length oc_str)) && String.eqb url oc_str
          then Returns true
          else
            let _ := index <? table_size in
            url_loop fuel' table table_size url index
  end.

Definition app_is_url_in_use (fuel : nat) (table : group_object_table)
           (url : string) : outcome bool :=
  let table_size := oc_core_get_group_object_table_total_size table in
  url_loop fuel table table_size url 0.

(** ** Expected event runs *)

(** What [exit_programming_mode] and [enter_programming_mode] log. *)
Definition exit_events (cfg : Config) (device_index : Z) : list Event :=
  (if SLEEPY cfg then [EvSetLinkMode false] else [])
  ++ [EvSetProgrammingMode device_index false;
      EvTaskletCancel g_programming_mode_handler;
      EvSetLED PROGRAMMING_MODE_INDICATOR (LED_OFF cfg);
      EvPublishService].

Definition enter_events (cfg : Config) (device_index : Z) : list Event :=
  (if SLEEPY cfg then [EvSetLinkMode true] else [])
  ++ [EvSetProgrammingMode device_index true;
      EvTaskletSchedule g_programming_mode_handler SCHEDULE_NOW NULL;
      EvPublishService].

(** What the two active stages of [reset_hold_cb] log after the optional
    exit from programming mode. *)
Definition knx_reset_events : list Event :=
  [EvResetDevice THIS_DEVICE RESET_VALUE;
   EvTaskletSchedule g_reset_done_indicator SCHEDULE_NOW addr_state_snapshot;
   EvPublishService].

Definition thread_reset_events : list Event :=
  [EvEraseJoinerCredentials;
   EvTaskletSchedule g_reset_done_indicator SCHEDULE_NOW addr_state_snapshot].

(** The NetworkReset stage of [reset_hold_cb] from the call of
    [oc_reset_device] on. *)
Definition knx_reset_from_oc_reset_device : M unit :=
  oc_reset_device THIS_DEVICE RESET_VALUE ;;
  modify (set_state_snapshot KNX_RESET) ;;
  TASKLET_ScheduleDelta g_reset_done_indicator SCHEDULE_NOW addr_state_snapshot ;;
  knx_publish_service ;;
  incr_g_reset_state.

(** The flicker tasklet is armed only while the device is in programming
    mode. *)
Definition flicker_only_in_programming_mode (w : World) : Prop :=
  is_queued g_programming_mode_handler w = true ->
  programming_mode w THIS_DEVICE = true.

(** ** Proof vocabulary *)

(** [m] leaves the component [f] of the world as it found it. *)
Definition preserves {A B} (f : World -> B) (m : M A) : Prop :=
  forall w a w', m w = Some (a, w') -> f w' = f w.

Create HintDb model.
#[local] Hint Unfold
  lssb_button_pressed exit_programming_mode enter_programming_mode
  incr_g_reset_state reset_init reset_done_feedback programming_mode_handler
  prog_mode_short_press_cb programming_mode_embedded reset_embedded
  programming_mode_init restart_cb knx_specific_init hardware_can_sleep
  hardware_sleep hardware_init prog_mode_cb reset_cb sleep_if_possible
  sed_poll_handler deref
  TASKLET_Init TASKLET_ScheduleDelta TASKLET_Cancel TASKLET_IsQueued
  TASKLET_GetTimeToNext TIME_ReadAbsoluteTime
  oc_knx_device_in_programming_mode oc_knx_device_set_programming_mode
  knx_publish_service oc_reset_device PlatformEraseJoinerCredentials
  PlatformCanSleep otThreadGetDeviceRole otThreadSetLinkMode
  otLinkSendDataRequest BSP_SystemReset DVBD_Sense DVBD_SetLED
  DVBD_RegisterButtonInput DVBD_RegisterButtonIRQInput DVBD_RegisterLEDOutput
  DVBD_SetButtonShortPressCallback DVBD_SetButtonHoldCallback
  DVBD_SetButtonLongPressCallback DVBD_CanSleep DVBD_DevboardSleep
  oc_set_restart_cb app_set_put_cb dev_btn_toggle_cb
  reset_hold_cb reset_long_press_cb run_button_fn run_tasklet_fn deliver : model.

(** ** The steps of [hardware_sleep], named *)

(** Its first statement: the keep-alive data poll is scheduled if it is
    not queued already. *)
Definition arm_keep_alive (cfg : Config) : M unit :=
  queued <- TASKLET_IsQueued g_sed_poll_tasklet ;;
  when (negb queued)
    (TASKLET_ScheduleDelta g_sed_poll_tasklet (u32 (SED_POLL_PERIOD cfg)) NULL).

(** The value of [taskletTimeLeft] after the clamp to [nextAppEvent]. *)
Definition sleep_duration (cfg : Config) (nextAppEvent : Z) (w : World) : Z :=
  let taskletTimeLeft :=
    match Tasklet.time_to_next (clock w) (queue w) with
    | Some d => d
    | None => u32 (SED_POLL_PERIOD cfg)
    end in
  if taskletTimeLeft >? nextAppEvent then nextAppEvent else taskletTimeLeft.

(** The value of [sleep_after_joining]. *)
Definition sleep_after_joining (cfg : Config) (w : World) : bool :=
  has_min_awake_time_passed cfg w
  || negb (otDeviceRole_eqb (device_role w) OT_DEVICE_ROLE_DETACHED).

(** The body of its final [if]: suspend, then record the wake time. *)
Definition suspend (ms : Z) : M unit :=
  DVBD_DevboardSleep ms ;;
  t <- TIME_ReadAbsoluteTime ;;
  modify (set_g_time_of_last_wake t).

(** The value [sleep_if_possible] passes on as [nextAppEvent]. *)
Definition next_app_event (timeToNextAppEvent : Z) : Z :=
  if (timeToNextAppEvent >? 2147483647) || (timeToNextAppEvent =? 0)
  then 2147483647 else u32 timeToNextAppEvent.

(** ** Example worlds *)

Definition world_after (m : M unit) (w : World) : World :=
  match m w with Some (_, w') => w' | None => w end.

(** After initialisation. *)
Definition initialised : World := world_after (hardware_init example_cfg) boot.

(** After initialisation and one short press of the trigger button: in
    programming mode, flicker tasklet armed. *)
Definition programming : World :=
  world_after (handle example_cfg (ButtonShortPress TRIGGER_FOR_PROGRAMMING_MODE_AND_RESET))
    initialised.

(** Attached to the network as a child, [ms] after initialisation, and the
    stack and the board allow sleeping. *)
Definition attached (ms : Z) : World :=
  let w := initialised in
  mkWorld (g_reset_state w) (state_snapshot w) (count w) (g_time_of_last_wake w)
    (programming_mode w) (queue w) (callback w) (pins w) true
    (clock w + ms) None OT_DEVICE_ROLE_CHILD true
    (rx_on_when_idle w) (log w).

(** The world [attached 0] after the main loop has found nothing to do
    and called [hardware_sleep] with the largest bound. *)
Definition slept : World :=
  world_after (hardware_sleep example_cfg 2147483647) (attached 0).

(** ** The reset feedback sequence, as logged *)

(** The delay with which [reset_done_feedback] re-schedules itself. *)
Definition half_period (reset_type : Z) : Z :=
  if reset_type =? KNX_RESET then RESET_KNX_INDICATOR_FLICKER_PERIOD_MS / 2
  else RESET_THREAD_INDICATOR_FLICKER_PERIOD_MS / 2.

(** [n] toggling iterations, starting with the indicator at [led_state]. *)
Fixpoint toggles (n : nat) (led_state : Z) (reset_type : Z) : list Event :=
  match n with
  | O => []
  | S n' =>
      EvSetLED PROGRAMMING_MODE_INDICATOR (lnot led_state)
      :: EvTaskletSchedule g_reset_done_indicator (half_period reset_type)
           addr_state_snapshot
      :: toggles n' (lnot led_state) reset_type
  end.

(** The final iteration. *)
Definition final_events (cfg : Config) (reset_type : Z) : list Event :=
  EvSetLED PROGRAMMING_MODE_INDICATOR (LED_OFF cfg)
  :: (if reset_type =? THREAD_RESET then [EvSystemReset] else []).

(** The feedback tasklet is initialised and queued with the address of
    [state_snapshot], which holds [reset_type]; the iteration counter is [n]. *)
Definition feedback_pending (reset_type : Z) (n : Z) (w : World) : Prop :=
  callback w g_reset_done_indicator = Some fn_reset_done_feedback
  /\ (exists due, Tasklet.find g_reset_done_indicator (queue w)
                  = Some (mkQueued g_reset_done_indicator due addr_state_snapshot))
  /\ state_snapshot w = reset_type
  /\ (reset_type = KNX_RESET \/ reset_type = THREAD_RESET)
  /\ count w = n.

(** After initialisation and one hold of the trigger button: network reset
    done, feedback tasklet queued. *)
Definition reset_started : World :=
  world_after (handle example_cfg (ButtonHold TRIGGER_FOR_PROGRAMMING_MODE_AND_RESET))
    initialised.

(** The thresholds the devboard driver holds for a button. *)
Definition hold_threshold (w : World) (b : dvbd_led_btn) : option Z :=
  option_map snd (hold_cb (pins w b)).

Definition long_press_threshold (w : World) (b : dvbd_led_btn) : option Z :=
  option_map snd (long_press_cb (pins w b)).

(** [programming_mode_embedded] asked to enter, to exit, to enter. *)
Definition enter_exit_enter (cfg : Config) (device_index : Z) : M unit :=
  programming_mode_embedded cfg device_index true ;;
  programming_mode_embedded cfg device_index false ;;
  programming_mode_embedded cfg device_index true.

(** ** The invariant of the running device *)

(** The flicker tasklet is armed only in programming mode, the flicker
    callback is bound to the flicker tasklet only, and the reset state is
    one of the three enumerators. *)
Definition device_invariant (w : World) : Prop :=
  flicker_only_in_programming_mode w
  /\ (forall t, callback w t = Some fn_programming_mode_handler ->
                t = g_programming_mode_handler)
  /\ valid_reset_state (g_reset_state w).

(** The KNX stack of the example serves the single device [THIS_DEVICE]. *)
Definition single_device (i : Input) : Prop :=
  match i with
  | ProgModeCb device_index _ | RestartCb device_index => device_index = THIS_DEVICE
  | _ => True
  end.

(** The worlds the device can be in: initialised from power-up, then any
    sequence of inputs. *)
Inductive reachable (cfg : Config) : World -> Prop :=
| reachable_init w :
    hardware_init cfg boot = Some (tt, w) -> reachable cfg w
| reachable_step i w w' :
    reachable cfg w -> single_device i ->
    handle cfg i w = Some (tt, w') -> reachable cfg w'.

(** [m] keeps the flicker tasklet armed only in programming mode. *)
Definition keeps_flicker {A} (m : M A) : Prop :=
  forall w a w',
    flicker_only_in_programming_mode w -> m w = Some (a, w') ->
    flicker_only_in_programming_mode w'.

(** After initialisation, a short press and then a hold of the trigger
    button: programming mode left, network reset done, feedback queued,
    indicator LED off. *)
Definition reset_from_programming : World :=
  world_after (handle example_cfg (ButtonHold TRIGGER_FOR_PROGRAMMING_MODE_AND_RESET))
    programming.

(** What a run of the feedback tasklet shows: the events it logs, the
    final level of the indicator, and the time it took. *)
Definition feedback_run (n : nat) (w : World) : option (list Event * Z * Z) :=
  option_map
    (fun w' => (new_events w w', level (pins w' PROGRAMMING_MODE_INDICATOR),
                clock w' - clock w))
    (exec (repeat_m n (wait_and_fire example_cfg g_reset_done_indicator)) w).

(** The button callbacks as [hardware_init] wires them. *)
Definition wiring (i : Input) : option button_fn :=
  match i with
  | ButtonShortPress DEV_SWITCH_1 => Some fn_lssb_button_pressed
  | ButtonShortPress DEV_SWITCH_4 => Some fn_prog_mode_short_press_cb
  | ButtonHold DEV_SWITCH_4 => Some fn_reset_hold_cb
  | ButtonLongPress DEV_SWITCH_4 => Some fn_reset_long_press_cb
  | _ => None
  end.

(** ** More of the running device's invariant *)

(** [m] keeps [P]. *)
Definition maintains {A} (P : World -> Prop) (m : M A) : Prop :=
  forall w a w', P w -> m w = Some (a, w') -> P w'.

(** [m] is defined in every world. *)
Definition total {A} (m : M A) : Prop :=
  forall w, exists a w', m w = Some (a, w').

(** The tasklet callbacks as [hardware_init] binds them. *)
Definition registry (cfg : Config) (t : tasklet) : option tasklet_fn :=
  match t with
  | g_programming_mode_handler => Some fn_programming_mode_handler
  | g_reset_done_indicator => Some fn_reset_done_feedback
  | g_sed_poll_tasklet => if SLEEPY cfg then Some fn_sed_poll_handler else None
  | sdk_tasklet _ => None
  end.

(** The flicker tasklet is armed exactly while [THIS_DEVICE] is in
    programming mode. *)
Definition flicker_iff_programming_mode (w : World) : Prop :=
  is_queued g_programming_mode_handler w = programming_mode w THIS_DEVICE.

(** A queued feedback tasklet carries the address of [state_snapshot]. *)
Definition feedback_context_valid (w : World) : Prop :=
  forall e, In e (queue w) -> q_tasklet e = g_reset_done_indicator ->
            q_context e = addr_state_snapshot.

Definition feedback_counter_in_range (w : World) : Prop :=
  0 <= count w <= RESET_INDICATOR_FLICKER_COUNT.

Definition snapshot_valid (w : World) : Prop :=
  state_snapshot w = KNX_RESET \/ state_snapshot w = THREAD_RESET.

(** What holds of the tasklets in every world the device can reach. *)
Definition running_invariant (cfg : Config) (w : World) : Prop :=
  (forall t, callback w t = registry cfg t)
  /\ flicker_iff_programming_mode w
  /\ feedback_context_valid w
  /\ feedback_counter_in_range w
  /\ snapshot_valid w.

(** The functions of the example that are sequences of calls. *)
Create HintDb composite.
#[local] Hint Unfold
  lssb_button_pressed exit_programming_mode enter_programming_mode
  reset_done_feedback programming_mode_handler
  prog_mode_short_press_cb programming_mode_embedded reset_embedded
  restart_cb hardware_can_sleep hardware_sleep prog_mode_cb reset_cb
  sleep_if_possible sed_poll_handler deref
  reset_hold_cb reset_long_press_cb run_button_fn run_tasklet_fn deliver
  : composite.

(** The roles [hardware_init] registers for the four positions. *)
Definition roles (cfg : Config) (p : dvbd_led_btn) : option pin_role :=
  match p with
  | DEV_SWITCH_1 => Some ButtonInput
  | DEV_SWITCH_2 => Some LEDOutput
  | DEV_SWITCH_3 => Some LEDOutput
  | DEV_SWITCH_4 => Some (if SLEEPY cfg then ButtonIRQInput else ButtonInput)
  end.

(** What [n] firings of the programming-mode flicker log, starting with
    the indicator at [led_state]. *)
Fixpoint blinks (n : nat) (led_state : Z) : list Event :=
  match n with
  | O => []
  | S n' =>
      EvSetLED PROGRAMMING_MODE_INDICATOR (lnot led_state)
      :: EvTaskletSchedule g_programming_mode_handler
           (PROGRAMMING_MODE_INDICATOR_FLASHING_PERIOD_MS / 2) NULL
      :: blinks n' (lnot led_state)
  end.

(** Not yet attached to the network, [ms] after initialisation, and the
    stack and the board allow sleeping. *)
Definition detached (ms : Z) : World :=
  set_environment OT_DEVICE_ROLE_DETACHED true true None (attached ms).

(** ** knx_iot_sleepy_main.c: the serial dispatcher *)

Module SerialDispatch.

Definition KNX_COMMAND : Z := 176.              (* 0xB0 *)
Definition KNX_COMMAND_STORAGE_RESET : Z := 0.
Definition KNX_COMMAND_POWER : Z := 1.
Definition KNX_COMMAND_FACTORY : Z := 2.

(** The message codes of cascoda_evbme.h, which is not part of the
    sources. *)
Record evbme : Type := mkEvbme {
  EVBME_SET_REQUEST : Z;
  EVBME_RESETRF : Z;
  EVBME_HOST_CONNECTED : Z
}.

(** The calls the dispatcher makes. *)
Inductive action : Type :=
| StorageReset (device_index reset_value : Z)   (* oc_knx_device_storage_reset *)
| SystemReset                                   (* BSP_SystemReset *)
| FactoryReset                                  (* otInstanceFactoryReset *)
| SwitchClock (use_external_clock : Z).         (* EVBME_SwitchClock *)

(** [buf[i]] of a message of [len] bytes; [None] when [i] is not below
    [len], a read outside the message. *)
Definition byte_at (buf : list Z) (i : nat) : option Z := nth_error buf i.

(** The [switch (buf[2])] of the KNX commands. *)
Definition knx_command (b2 : Z) : list action :=
  if b2 =? KNX_COMMAND_STORAGE_RESET then [StorageReset 0 2]
  else if b2 =? KNX_COMMAND_POWER then [SystemReset]
  else if b2 =? KNX_COMMAND_FACTORY then [FactoryReset]
  else [].

(** [ot_serial_dispatch(buf, len, pDeviceRef)]: the value returned and the
    calls made, in order, each call taken to return.  [len] is the length
    of [buf]; the function never looks at it. *)
Definition ot_serial_dispatch (k : evbme) (buf : list Z) : option (Z * list action) :=
  let ret := 0 in
  match byte_at buf 0 with
  | None => None
  | Some b0 =>
      match (if b0 =? KNX_COMMAND
             then option_map knx_command (byte_at buf 2)
             else Some []) with
      | None => None
      | Some knx =>
          (* ((buf[0] == SET_REQUEST) && (buf[2] == RESETRF)) || (buf[0] == HOST_CONNECTED) *)
          match (if b0 =? EVBME_SET_REQUEST k
                 then option_map
                        (fun b2 => (b2 =? EVBME_RESETRF k) || (b0 =? EVBME_HOST_CONNECTED k))
                        (byte_at buf 2)
                 else Some (b0 =? EVBME_HOST_CONNECTED k)) with
          | None => None
          | Some switch => Some (ret, knx ++ (if switch then [SwitchClock 0] else []))
          end
      end
  end.

End SerialDispatch.

(** ** knx_iot_sleepy_main.c: joining the network, the serial number *)

Module Main.

Inductive otError : Type :=
| OT_ERROR_NONE
| OT_ERROR_ALREADY
| OT_ERROR_OTHER (code : Z).

(** [otErr == OT_ERROR_NONE || otErr == OT_ERROR_ALREADY] *)
Definition joined (e : otError) : bool :=
  match e with
  | OT_ERROR_NONE | OT_ERROR_ALREADY => true
  | OT_ERROR_OTHER _ => false
  end.

(** The [do ... while (1)] loop of [main] that joins the network.
    [try_join k] is what the [k]-th call of [PlatformTryJoin] returns; the
    result is the number of join attempts made and of [WAIT_ms(200)]
    calls made when the loop is left.  One unit of fuel per iteration. *)
Fixpoint join_loop (fuel : nat) (try_join : nat -> otError)
         (joinCooldownTimer : Z) (attempts waits : nat) : outcome (nat * nat) :=
  match fuel with
  | O => OutOfFuel
  | S fuel' =>
      if joinCooldownTimer =? 30 then
        let otErr := try_join attempts in
        if joined otErr then Returns (S attempts, waits)
        else
          let joinCooldownTimer := 0 in
          join_loop fuel' try_join (u32 (joinCooldownTimer + 1)) (S attempts) (S waits)
      else
        join_loop fuel' try_join (u32 (joinCooldownTimer + 1)) attempts (S waits)
  end.

Definition join_network (fuel : nat) (try_join : nat -> otError) : outcome (nat * nat) :=
  join_loop fuel try_join 0 0 0.

(** One hexadecimal digit of [%X], as its character code. *)
Definition hex_digit (d : Z) : Z := if d <? 10 then 48 + d else 55 + d.

(** [%02X] of a [uint8_t]. *)
Definition fmt_02X (b : Z) : list Z := [hex_digit (b / 16); hex_digit (b mod 16)].

(** [snprintf(buf, size, ...)] keeps at most [size - 1] characters. *)
Definition snprintf (size : nat) (formatted : list Z) : list Z :=
  firstn (size - 1) formatted.

(** [serial_number_str] of [main]: the six bytes of [sn] printed with
    ["%02X%02X%02X%02X%02X%02X"] into a buffer of 13. *)
Definition serial_number_str (sn : list Z) : list Z :=
  snprintf 13
    (fmt_02X (u8 (nth 0 sn 0)) ++ fmt_02X (u8 (nth 1 sn 0))
     ++ fmt_02X (u8 (nth 2 sn 0)) ++ fmt_02X (u8 (nth 3 sn 0))
     ++ fmt_02X (u8 (nth 4 sn 0)) ++ fmt_02X (u8 (nth 5 sn 0))).

(** Reading the digits back. *)
Definition hex_value (c : Z) : Z := if c <? 58 then c - 48 else c - 55.

Fixpoint parse_hex_bytes (s : list Z) : list Z :=
  match s with
  | hi :: lo :: s' => (16 * hex_value hi + hex_value lo) :: parse_hex_bytes s'
  | _ => []
  end.

End Main.

(** ** knx_iot_example.c: strings *)

Module CString.

(** The characters of a buffer up to its first NUL; [None] when the
    buffer holds no NUL. *)
Fixpoint read (buf : list Z) : option (list Z) :=
  match buf with
  | [] => None
  | c :: buf' =>
      if c =? 0 then Some []
      else option_map (cons c) (read buf')
  end.

(** [strncpy(dst, src, n)], with [src] the characters of the source
    string: at most [n] of them are copied, and the rest of the [n]
    bytes is filled with NUL. *)
Definition strncpy (src : list Z) (n : nat) : list Z :=
  firstn n (src ++ repeat 0 n).

(** [toupper] in the "C" locale. *)
Definition toupper (c : Z) : Z :=
  if (97 <=? c) && (c <=? 122) then c - 32 else c.

(** [app_str_to_upper(str)] on the buffer [str] points into: the bytes
    up to the first NUL are replaced; [None] when there is no NUL to
    stop at. *)
Fixpoint app_str_to_upper (buf : list Z) : option (list Z) :=
  match buf with
  | [] => None
  | c :: buf' =>
      if c =? 0 then Some buf
      else option_map (cons (toupper c)) (app_str_to_upper buf')
  end.

(** [app_set_serial_number]: [strncpy(g_serial_number, serial_number, 20)];
    the result is the new content of the 20 bytes of [g_serial_number]. *)
Definition app_set_serial_number (serial_number : list Z) : list Z :=
  strncpy serial_number 20.

(** The QR-code lines of [app_init], compiled with OC_SPAKE:
    [serial_number_uppercase] is an array of 20 that is not initialised, [strncpy(.., .., 19)] writes its
    first 19 bytes and [app_str_to_upper] runs over it.  [serialnumber]
    is the string of [device->serialnumber] and [last] is whatever the
    20th byte of the array holds. *)
Definition serial_number_uppercase (serialnumber : list Z) (last : Z) : option (list Z) :=
  app_str_to_upper (strncpy serialnumber 19 ++ [last]).

End CString.

(** ** knx_iot_example.c: the data points *)

Module DataPoints.

Definition URL_LED_1 : string := "/p/o_1_1".

(** [strcmp(a, b) == 0] *)
Definition streq (a b : string) : bool := String.eqb a b.

(** The globals behind the data points. *)
Record Vars : Type := mkVars {
  g_LED_1 : bool;
  g_PB_1 : bool;
  g_fault_LED_1 : bool
}.

Definition app_is_bool_url (url : string) : bool :=
  if streq url URL_LED_1 then true
  else if streq url URL_PB_1 then true
  else false.

Definition app_set_bool_variable (url : string) (value : bool) (v : Vars) : Vars :=
  if streq url URL_LED_1 then mkVars value (g_PB_1 v) (g_fault_LED_1 v)
  else if streq url URL_PB_1 then mkVars (g_LED_1 v) value (g_fault_LED_1 v)
  else v.

Definition app_retrieve_bool_variable (url : string) (v : Vars) : bool :=
  if streq url URL_LED_1 then g_LED_1 v
  else if streq url URL_PB_1 then g_PB_1 v
  else false.

Definition app_retrieve_fault_variable (url : string) (v : Vars) : bool :=
  if streq url URL_LED_1 then g_fault_LED_1 v else false.

(** Its body is empty. *)
Definition app_set_fault_variable (url : string) (value : bool) (v : Vars) : Vars := v.

Definition initialize_variables (v : Vars) : Vars :=
  mkVars false false (g_fault_LED_1 v).

Inductive oc_status : Type :=
| OC_STATUS_OK | OC_STATUS_CHANGED | OC_STATUS_BAD_REQUEST | OC_STATUS_BAD_OPTION.

(** One entry of the CBOR root object a handler encodes: the key is an
    integer ([oc_rep_i_set_*]) or a name ([oc_rep_set_*]). *)
Inductive rep_key : Type :=
| IKey (i : Z)
| SKey (name : string).

Inductive rep_value : Type :=
| RepBoolean (b : bool)
| RepTextString (s : string)
| RepIntArray (l : list Z).

Definition rep_entry : Type := rep_key * rep_value.

(** What the handlers hand to the stack and to the application. *)
Inductive output : Type :=
| Response (status : oc_status)          (* oc_send_response, oc_send_cbor_response *)
| Payload (root : list rep_entry)        (* oc_rep_begin_root_object .. oc_rep_end_root_object *)
| SMode (scope : Z) (url : string) (rp : string)   (* oc_do_s_mode_with_scope *)
| PutCallback (url : string).            (* the callback set with app_set_put_cb *)

(** The application state of knx_iot_example.c: the variables, whether a
    put callback is set ([app_put.cb]), and what went out so far. *)
Record App : Type := mkApp {
  vars : Vars;
  put_cb_set : bool;
  out : list output
}.

(** [app_put.cb = cb]; [cb] is [false] for NULL. *)
Definition app_set_put_cb (cb : bool) (a : App) : App := mkApp (vars a) cb (out a).

Definition do_put_cb (url : string) (a : App) : App :=
  if put_cb_set a then mkApp (vars a) (put_cb_set a) (out a ++ [PutCallback url])
  else a.

Definition dev_btn_toggle_cb (url : string) (a : App) : App :=
  let val := app_retrieve_bool_variable url (vars a) in
  let val := if Bool.eqb val true then false else true in
  mkApp (app_set_bool_variable url val (vars a)) (put_cb_set a)
    (out a ++ [SMode 5 url "w"]).

Inductive oc_rep_value_type : Type :=
| OC_REP_NIL | OC_REP_INT | OC_REP_DOUBLE | OC_REP_BOOL
| OC_REP_BYTE_STRING | OC_REP_STRING | OC_REP_OBJECT.

Definition is_OC_REP_BOOL (t : oc_rep_value_type) : bool :=
  match t with OC_REP_BOOL => true | _ => false end.

(** One entry of a request payload ([oc_rep_t]); the payload is the list
    linked through [next]. *)
Record oc_rep : Type := mkRep {
  iname : Z;
  rep_type : oc_rep_value_type;
  value_boolean : bool
}.

(** The [while (req != NULL)] loop of [put_LED_1] and what follows it. *)
Fixpoint put_LED_1_loop (req : list oc_rep) (a : App) : App :=
  match req with
  | [] => mkApp (vars a) (put_cb_set a) (out a ++ [Response OC_STATUS_BAD_REQUEST])
  | r :: next =>
      if (iname r =? 1) && is_OC_REP_BOOL (rep_type r) then
        let a := mkApp (mkVars (value_boolean r) (g_PB_1 (vars a)) (g_fault_LED_1 (vars a)))
                   (put_cb_set a) (out a) in
        let a := mkApp (vars a) (put_cb_set a) (out a ++ [Response OC_STATUS_CHANGED]) in
        do_put_cb URL_LED_1 a
      else put_LED_1_loop next a
  end.

Definition put_LED_1 (request_payload : list oc_rep) (a : App) : App :=
  put_LED_1_loop request_payload a.

(** [strncmp(m, lit, m_len) == 0]: [m] is the [m_len] characters of a
    query value, which no NUL need follow, and [lit] a string literal,
    which a NUL does follow.  The comparison ends with the first
    difference, with a NUL on both sides, or after [m_len] characters. *)
Fixpoint strncmp_eq (m lit : string) : bool :=
  match m with
  | EmptyString => true
  | String c m' =>
      match lit with
      | EmptyString => Ascii.eqb c Ascii.zero
      | String d lit' =>
          if Ascii.eqb c d then Ascii.eqb c Ascii.zero || strncmp_eq m' lit'
          else false
      end
  end.

(** [(strncmp(m, name, m_len) == 0) | (strncmp(m, "*", m_len) == 0)] *)
Definition selected (m name : string) : bool :=
  strncmp_eq m name || strncmp_eq m "*".

(** What a GET handler asks of its request and of the stack. *)
Record oc_request : Type := mkRequest {
  accept_cbor : bool;            (* oc_check_accept_header(request, APPLICATION_CBOR) *)
  query_m : option string;       (* oc_get_query_value(request, "m", &m); None for -1 *)
  query_values : list string;    (* the values oc_iterate_query yields, in order *)
  device_serialnumber : option string;  (* oc_core_get_device_info; None for NULL *)
  resource_uri : string;         (* request->resource->uri *)
  resource_dpt : string;         (* request->resource->dpt *)
  resource_ga : option (list Z)  (* the ga of the resource's group object table
                                    entry; None when there is no entry *)
}.

(** [snprintf(mystring, 99, "urn:knx:sn:%s%s", ...)] *)
Definition urn (serialnumber uri : string) : string :=
  substring 0 98 ("urn:knx:sn:" ++ serialnumber ++ uri).

(** One round of the [while (oc_iterate_query(...) != -1)] loop of
    [get_LED_1] and [get_PB_1], which differ in [rt], [if_] and [desc]. *)
Definition metadata (rt if_ desc : string) (serialnumber : string)
           (rq : oc_request) (m : string) : list rep_entry :=
  (if selected m "id"
   then [(IKey 9, RepTextString (urn serialnumber (resource_uri rq)))] else [])
  ++ (if selected m "rt" then [(SKey "rt", RepTextString rt)] else [])
  ++ (if selected m "if" then [(SKey "if", RepTextString if_)] else [])
  ++ (if selected m "dpt"
      then [(SKey "dpt", RepTextString (resource_dpt rq))] else [])
  ++ (if selected m "ga"
      then match resource_ga rq with
           | Some ga => [(SKey "ga", RepIntArray ga)]
           | None => []
           end
      else [])
  ++ (if selected m "desc" then [(SKey "desc", RepTextString desc)] else []).

(** The body that [get_LED_1] and [get_PB_1] share; [value] is the
    variable of the data point and [g_err] the error flag of the encoder
    after the value is encoded. *)
Definition get_data_point (rt if_ desc : string) (value : bool) (g_err : bool)
           (rq : oc_request) : list output :=
  if negb (accept_cbor rq) then [Response OC_STATUS_BAD_OPTION]
  else
    match query_m rq with
    | Some _ =>
        match device_serialnumber rq with
        | Some serialnumber =>
            [Payload (flat_map (metadata rt if_ desc serialnumber rq) (query_values rq))]
        | None => [Response OC_STATUS_BAD_OPTION]
        end
        ++ [Response OC_STATUS_OK]
    | None =>
        [Payload [(IKey 1, RepBoolean value)];
         if g_err then Response OC_STATUS_BAD_OPTION else Response OC_STATUS_OK]
    end.

Definition get_LED_1 (g_err : bool) (rq : oc_request) (a : App) : App :=
  mkApp (vars a) (put_cb_set a)
    (out a ++ get_data_point "urn:knx:dpa.417.52" "if.a" "On/Off switch 1"
                (g_LED_1 (vars a)) g_err rq).

Definition get_PB_1 (g_err : bool) (rq : oc_request) (a : App) : App :=
  mkApp (vars a) (put_cb_set a)
    (out a ++ get_data_point "urn:knx:dpa.421.61" "if.s" "On/Off push button 1"
                (g_PB_1 (vars a)) g_err rq).

(** The responses among what went out. *)
Definition responses (l : list output) : list oc_status :=
  flat_map (fun o => match o with Response st => [st] | _ => [] end) l.

(** The state the program starts in: objects of static storage are
    zero, and [app_put] is initialised with NULL. *)
Definition startup : App := mkApp (mkVars false false false) false [].

(** The functions of knx_iot_example.c that act on the data points, as
    the stack and the device code may call them. *)
Inductive call : Type :=
| Call_app_set_bool_variable (url : string) (value : bool)
| Call_app_set_fault_variable (url : string) (value : bool)
| Call_initialize_variables
| Call_app_set_put_cb (cb : bool)
| Call_do_put_cb (url : string)
| Call_dev_btn_toggle_cb (url : string)
| Call_put_LED_1 (request_payload : list oc_rep)
| Call_get_LED_1 (g_err : bool) (rq : oc_request)
| Call_get_PB_1 (g_err : bool) (rq : oc_request).

Definition on_vars (f : Vars -> Vars) (a : App) : App :=
  mkApp (f (vars a)) (put_cb_set a) (out a).

Definition do_call (a : App) (c : call) : App :=
  match c with
  | Call_app_set_bool_variable url value => on_vars (app_set_bool_variable url value) a
  | Call_app_set_fault_variable url value => on_vars (app_set_fault_variable url value) a
  | Call_initialize_variables => on_vars initialize_variables a
  | Call_app_set_put_cb cb => app_set_put_cb cb a
  | Call_do_put_cb url => do_put_cb url a
  | Call_dev_btn_toggle_cb url => dev_btn_toggle_cb url a
  | Call_put_LED_1 request_payload => put_LED_1 request_payload a
  | Call_get_LED_1 g_err rq => get_LED_1 g_err rq a
  | Call_get_PB_1 g_err rq => get_PB_1 g_err rq a
  end.

Definition do_calls (l : list call) (a : App) : App := fold_left do_call l a.

End DataPoints.

(** ** The device code on the data points *)

(** The calls into knx_iot_example.c that a logged event stands for:
    [hardware_init] sets [put_callback], a function, as the put callback,
    and [lssb_button_pressed] calls [dev_btn_toggle_cb]. *)
Definition data_point_calls (e : Event) : list DataPoints.call :=
  match e with
  | EvSetPutCb => [DataPoints.Call_app_set_put_cb true]
  | EvDevBtnToggle url => [DataPoints.Call_dev_btn_toggle_cb url]
  | _ => []
  end.


(** The number of presses of the LSSB button a world has seen answered. *)
Definition lssb_presses (w : World) : nat :=
  List.length (filter (fun e => match e with EvDevBtnToggle _ => true | _ => false end)
                 (log w)).

(** What the data-point calls of a world come to: the put callback set
    first, and toggles of PB_1 after it. *)
Definition calls_of_device (w : World) : Prop :=
  flat_map data_point_calls (log w)
  = DataPoints.Call_app_set_put_cb true
    :: repeat (DataPoints.Call_dev_btn_toggle_cb URL_PB_1) (lssb_presses w).

(** A query value without a NUL character. *)
Definition nul_free (m : string) : Prop := ~ In Ascii.zero (list_ascii_of_string m).

(** * Properties *)

(** ** Unfolding the monad *)

Ltac run :=
  unfold exec, when, bind, ret, read, modify, undefined; cbn beta iota.

Lemma new_events_app w w' l : log w' = log w ++ l -> new_events w w' = l.
Proof.
  intros H. unfold new_events. rewrite H.
  rewrite skipn_app, skipn_all, Nat.sub_diag. reflexivity.
Qed.

(** ** Tasklet queue *)

Lemma tasklet_eqb_refl t : tasklet_eqb t t = true.
Proof. destruct t; cbn; auto using Nat.eqb_refl. Qed.

Lemma tasklet_eqb_eq a b : tasklet_eqb a b = true <-> a = b.
Proof.
  split; [|intros ->; apply tasklet_eqb_refl].
  destruct a, b; cbn; try discriminate; auto.
  intros H. apply Nat.eqb_eq in H. now subst.
Qed.

Lemma find_remove_same t q : Tasklet.find t (Tasklet.remove t q) = None.
Proof.
  unfold Tasklet.find, Tasklet.remove.
  induction q as [|e q IH]; cbn; auto.
  destruct (tasklet_eqb (q_tasklet e) t) eqn:E; cbn; auto.
  now rewrite E.
Qed.

Lemma find_remove_other t t' q :
  tasklet_eqb t' t = false ->
  Tasklet.find t (Tasklet.remove t' q) = Tasklet.find t q.
Proof.
  intros Hne. unfold Tasklet.find, Tasklet.remove.
  induction q as [|e q IH]; cbn; auto.
  destruct (tasklet_eqb (q_tasklet e) t') eqn:E; cbn.
  - apply tasklet_eqb_eq in E. rewrite E, Hne. exact IH.
  - destruct (tasklet_eqb (q_tasklet e) t); auto.
Qed.

Lemma find_cons t e q :
  Tasklet.find t (e :: q)
  = if tasklet_eqb (q_tasklet e) t then Some e else Tasklet.find t q.
Proof. reflexivity. Qed.

(** ** Frame rules *)

Section Frame.

Context {B : Type} (f : World -> B).

Lemma preserves_ret {A} (a : A) : preserves f (ret a).
Proof. intros w a' w' H. inversion H. reflexivity. Qed.

Lemma preserves_read {A} (g : World -> A) : preserves f (read g).
Proof. intros w a' w' H. inversion H. reflexivity. Qed.

Lemma preserves_undefined {A} : preserves f (@undefined A).
Proof. intros w a' w' H. discriminate. Qed.

Lemma preserves_modify g :
  (forall w, f (g w) = f w) -> preserves f (modify g).
Proof. intros Hg w a' w' H. inversion H. apply Hg. Qed.

Lemma preserves_bind {A C} (m : M A) (k : A -> M C) :
  preserves f m -> (forall a, preserves f (k a)) -> preserves f (bind m k).
Proof.
  intros Hm Hk w c w' H. unfold bind in H.
  destruct (m w) as [[a w1]|] eqn:E; [|discriminate].
  rewrite (Hk a _ _ _ H). eapply Hm; eauto.
Qed.

Lemma preserves_when c m : preserves f m -> preserves f (when c m).
Proof. intros Hm. destruct c; cbn; auto using preserves_ret. Qed.

End Frame.

(** Decomposes a straight-line body into its primitive steps. *)
Ltac frame :=
  autounfold with model;
  repeat first
    [ progress cbv beta iota zeta
    | apply preserves_ret
    | apply preserves_read
    | apply preserves_undefined
    | apply preserves_when
    | apply preserves_bind; [|intro]
    | apply preserves_modify; intros; reflexivity
    | apply preserves_modify; intros; cbn;
      repeat match goal with
             | |- context [match ?x with _ => _ end] => destruct x
             end; reflexivity
    | apply preserves_modify; intros; cbn;
      rewrite ?find_cons; cbn; rewrite ?find_remove_other by reflexivity;
      reflexivity
    | match goal with
      | |- preserves _ (if ?b then _ else _) => destruct b
      | |- preserves _ (match ?c with _ => _ end) => destruct c
      end ].

(** ** Programming mode: entry and exit *)

Lemma exit_programming_mode_defined cfg dev w :
  exists w',
    exit_programming_mode cfg dev w = Some (tt, w')
    /\ log w' = log w ++ exit_events cfg dev
    /\ programming_mode w' dev = false
    /\ (forall i, i <> dev -> programming_mode w' i = programming_mode w i)
    /\ is_queued g_programming_mode_handler w' = false
    /\ (forall t, t <> g_programming_mode_handler -> is_queued t w' = is_queued t w)
    /\ level (pins w' PROGRAMMING_MODE_INDICATOR) = LED_OFF cfg
    /\ g_reset_state w' = g_reset_state w
    /\ state_snapshot w' = state_snapshot w
    /\ count w' = count w.
Proof.
  unfold exit_programming_mode, exit_events. run.
  destruct (SLEEPY cfg); cbn; eexists; (split; [reflexivity|]); cbn.
  all: rewrite <- ?app_assoc; cbn.
  all: repeat split; try reflexivity.
  all: unfold is_queued; cbn.
  all: try (rewrite Z.eqb_refl; reflexivity).
  all: try (intros i Hi; apply Z.eqb_neq in Hi; now rewrite Hi).
  all: try (now rewrite find_remove_same).
  all: intros t Ht;
    rewrite find_remove_other; auto;
    destruct (tasklet_eqb g_programming_mode_handler t) eqn:E; auto;
    apply tasklet_eqb_eq in E; congruence.
Qed.

Lemma enter_programming_mode_defined cfg dev w :
  exists w',
    enter_programming_mode cfg dev w = Some (tt, w')
    /\ log w' = log w ++ enter_events cfg dev
    /\ programming_mode w' dev = true
    /\ (forall i, i <> dev -> programming_mode w' i = programming_mode w i)
    /\ Tasklet.find g_programming_mode_handler (queue w')
       = Some (mkQueued g_programming_mode_handler (clock w + SCHEDULE_NOW) NULL)
    /\ (forall t, t <> g_programming_mode_handler -> is_queued t w' = is_queued t w)
    /\ pins w' = pins w
    /\ clock w' = clock w
    /\ g_reset_state w' = g_reset_state w.
Proof.
  unfold enter_programming_mode, enter_events. run.
  destruct (SLEEPY cfg); cbn; eexists; (split; [reflexivity|]); cbn.
  all: rewrite <- ?app_assoc; cbn.
  all: repeat split; try reflexivity.
  all: unfold is_queued; cbn.
  all: try (rewrite Z.eqb_refl; reflexivity).
  all: try (intros i Hi; apply Z.eqb_neq in Hi; now rewrite Hi).
  all: rewrite ?find_cons; cbn; try reflexivity.
  all: intros t Ht;
    destruct (tasklet_eqb g_programming_mode_handler t) eqn:E;
    [apply tasklet_eqb_eq in E; congruence|];
    rewrite find_cons; cbv beta iota delta [q_tasklet]; rewrite E;
    now rewrite find_remove_other.
Qed.

(** ** The reset hold handler *)

Lemma knx_reset_from_oc_reset_device_defined w :
  exists w',
    knx_reset_from_oc_reset_device w = Some (tt, w')
    /\ log w' = log w ++ knx_reset_events
    /\ g_reset_state w' = u32 (g_reset_state w + 1)
    /\ state_snapshot w' = KNX_RESET
    /\ Tasklet.find g_reset_done_indicator (queue w')
       = Some (mkQueued g_reset_done_indicator (clock w + SCHEDULE_NOW) addr_state_snapshot)
    /\ is_queued g_programming_mode_handler w' = is_queued g_programming_mode_handler w
    /\ programming_mode w' = programming_mode w
    /\ pins w' = pins w
    /\ count w' = count w.
Proof.
  unfold knx_reset_from_oc_reset_device, knx_reset_events. run.
  eexists. split; [reflexivity|]. cbn.
  rewrite <- !app_assoc. repeat split; try reflexivity.
  unfold is_queued; cbn. rewrite find_cons; cbn.
  now rewrite find_remove_other.
Qed.

Lemma reset_hold_cb_knx cfg c w :
  DEMO_MODE cfg = false ->
  g_reset_state w = KNX_RESET ->
  reset_hold_cb cfg c w
  = (when (programming_mode w THIS_DEVICE) (exit_programming_mode cfg THIS_DEVICE) ;;
     knx_reset_from_oc_reset_device) w.
Proof.
  intros Hd Hs. unfold reset_hold_cb. rewrite Hd.
  unfold bind at 1, read at 1. rewrite Hs. reflexivity.
Qed.

Lemma reset_hold_cb_thread cfg c w :
  DEMO_MODE cfg = false ->
  g_reset_state w = THREAD_RESET ->
  exists w',
    reset_hold_cb cfg c w = Some (tt, w')
    /\ log w' = log w ++ thread_reset_events
    /\ g_reset_state w' = IGNORE_FURTHER_ACTION
    /\ state_snapshot w' = THREAD_RESET
    /\ Tasklet.find g_reset_done_indicator (queue w')
       = Some (mkQueued g_reset_done_indicator (clock w + SCHEDULE_NOW) addr_state_snapshot).
Proof.
  intros Hd Hs. unfold reset_hold_cb. rewrite Hd.
  unfold bind at 1, read at 1. rewrite Hs. cbn -[u32]. run.
  eexists. split; [reflexivity|]. cbn -[u32].
  rewrite Hs, <- !app_assoc. repeat split; reflexivity.
Qed.

Lemma reset_hold_cb_ignore cfg c w :
  g_reset_state w = IGNORE_FURTHER_ACTION ->
  reset_hold_cb cfg c w = Some (tt, w).
Proof.
  intros Hs. unfold reset_hold_cb.
  destruct (DEMO_MODE cfg); [reflexivity|].
  unfold bind, read. rewrite Hs. reflexivity.
Qed.

Lemma reset_hold_cb_demo_mode cfg c w :
  DEMO_MODE cfg = true ->
  reset_hold_cb cfg c w = Some (tt, w).
Proof. intros Hd. unfold reset_hold_cb. now rewrite Hd. Qed.

(** ** Who writes [g_reset_state] *)

Lemma run_tasklet_fn_reset_state cfg f c :
  preserves g_reset_state (run_tasklet_fn cfg f c).
Proof. destruct f; cbn; frame. Qed.

Lemma fire_reset_state cfg t : preserves g_reset_state (fire cfg t).
Proof.
  intros w a w' H. unfold fire in H.
  destruct (Tasklet.find t (queue w)); [|now inversion H].
  destruct (callback w t); [|now inversion H].
  apply run_tasklet_fn_reset_state in H. exact H.
Qed.

Lemma run_due_reset_state cfg t : preserves g_reset_state (run_due cfg t).
Proof.
  intros w a w' H. unfold run_due in H.
  destruct (Tasklet.find t (queue w)); [|now inversion H].
  destruct (q_due q <=? clock w); [|now inversion H].
  eapply fire_reset_state; eauto.
Qed.

Lemma handle_reset_state cfg i w w' :
  handle cfg i w = Some (tt, w') ->
  registered i w <> Some fn_reset_hold_cb ->
  registered i w <> Some fn_reset_long_press_cb ->
  g_reset_state w' = g_reset_state w.
Proof.
  intros H Hh Hl.
  assert (Hother : forall f, f <> fn_reset_hold_cb -> f <> fn_reset_long_press_cb ->
                             preserves g_reset_state (run_button_fn cfg f NULL)).
  { intros f H1 H2. destruct f; try congruence; cbn; frame. }
  destruct i; cbn in H, Hh, Hl.
  - inversion H. reflexivity.
  - eapply run_due_reset_state; eauto.
  - unfold bind, read in H. cbn in H.
    destruct (option_map fst (short_press_cb (pins w p))) as [f|]; cbn in H;
      [eapply Hother; eauto; congruence | now inversion H].
  - unfold bind, read in H. cbn in H.
    destruct (option_map fst (hold_cb (pins w p))) as [f|]; cbn in H;
      [eapply Hother; eauto; congruence | now inversion H].
  - unfold bind, read in H. cbn in H.
    destruct (option_map fst (long_press_cb (pins w p))) as [f|]; cbn in H;
      [eapply Hother; eauto; congruence | now inversion H].
  - assert (P : preserves g_reset_state (prog_mode_cb cfg device_index mode)) by frame.
    eapply P; eauto.
  - assert (P : preserves g_reset_state (reset_cb cfg device_index reset_value)) by frame.
    eapply P; eauto.
  - assert (P : preserves g_reset_state (restart_cb cfg device_index)) by frame.
    eapply P; eauto.
  - assert (P : preserves g_reset_state (sleep_if_possible cfg timeToNextAppEvent)) by frame.
    eapply P; eauto.
  - inversion H. reflexivity.
Qed.

Lemma reset_hold_cb_knx_defined cfg c w :
  DEMO_MODE cfg = false ->
  g_reset_state w = KNX_RESET ->
  exists w1 w',
    when (programming_mode w THIS_DEVICE) (exit_programming_mode cfg THIS_DEVICE) w
    = Some (tt, w1)
    /\ knx_reset_from_oc_reset_device w1 = Some (tt, w')
    /\ reset_hold_cb cfg c w = Some (tt, w')
    /\ log w1 = log w ++ (if programming_mode w THIS_DEVICE
                          then exit_events cfg THIS_DEVICE else [])
    /\ log w' = log w1 ++ knx_reset_events
    /\ g_reset_state w' = THREAD_RESET
    /\ (programming_mode w THIS_DEVICE = true ->
        programming_mode w1 THIS_DEVICE = false
        /\ is_queued g_programming_mode_handler w1 = false)
    /\ (programming_mode w THIS_DEVICE = false -> w1 = w)
    /\ state_snapshot w' = KNX_RESET
    /\ Tasklet.find g_reset_done_indicator (queue w')
       = Some (mkQueued g_reset_done_indicator (clock w1 + SCHEDULE_NOW) addr_state_snapshot)
    /\ count w' = count w.
Proof.
  intros Hd Hs. rewrite (reset_hold_cb_knx cfg c w Hd Hs).
  unfold bind at 1.
  destruct (programming_mode w THIS_DEVICE) eqn:Hpm; cbn [when].
  - destruct (exit_programming_mode_defined cfg THIS_DEVICE w)
      as (w1 & E & L & P & _ & Q & _ & _ & R & _ & C).
    destruct (knx_reset_from_oc_reset_device_defined w1)
      as (w' & E' & L' & R' & S' & T' & _ & _ & _ & C').
    exists w1, w'. rewrite E, E'.
    repeat split; auto; try discriminate.
    + rewrite R', R, Hs. reflexivity.
    + congruence.
  - destruct (knx_reset_from_oc_reset_device_defined w)
      as (w' & E' & L' & R' & S' & T' & _ & _ & _ & C').
    exists w, w'. unfold ret. rewrite E'.
    repeat split; auto; try discriminate.
    + now rewrite app_nil_r.
    + rewrite R', Hs. reflexivity.
Qed.

Lemma reset_hold_cb_forward cfg c w w' :
  valid_reset_state (g_reset_state w) ->
  reset_hold_cb cfg c w = Some (tt, w') ->
  valid_reset_state (g_reset_state w') /\ g_reset_state w <= g_reset_state w'.
Proof.
  intros Hv H. unfold valid_reset_state in *.
  destruct (DEMO_MODE cfg) eqn:Hd.
  - rewrite reset_hold_cb_demo_mode in H by auto. inversion H; subst. lia.
  - destruct Hv as [Hs|[Hs|Hs]].
    + destruct (reset_hold_cb_knx_defined cfg c w Hd Hs)
        as (w1 & w2 & _ & _ & E & _ & _ & R & _).
      rewrite E in H. inversion H; subst. rewrite R, Hs.
      unfold KNX_RESET, THREAD_RESET, IGNORE_FURTHER_ACTION. lia.
    + destruct (reset_hold_cb_thread cfg c w Hd Hs) as (w2 & E & _ & R & _).
      rewrite E in H. inversion H; subst. rewrite R, Hs.
      unfold KNX_RESET, THREAD_RESET, IGNORE_FURTHER_ACTION. lia.
    + rewrite reset_hold_cb_ignore in H by auto. inversion H; subst. lia.
Qed.

Lemma reset_init_defined b w :
  exists w',
    reset_init b w = Some (tt, w')
    /\ new_events w w'
       = [EvTaskletInit g_reset_done_indicator fn_reset_done_feedback;
          EvSetButtonHoldCallback b fn_reset_hold_cb RESET_HOLD_AND_LONG_PRESS_THRESHOLD_MS;
          EvSetButtonLongPressCallback b fn_reset_long_press_cb
            RESET_HOLD_AND_LONG_PRESS_THRESHOLD_MS]
    /\ callback w' g_reset_done_indicator = Some fn_reset_done_feedback
    /\ hold_cb (pins w' b)
       = Some (fn_reset_hold_cb, RESET_HOLD_AND_LONG_PRESS_THRESHOLD_MS)
    /\ long_press_cb (pins w' b)
       = Some (fn_reset_long_press_cb, RESET_HOLD_AND_LONG_PRESS_THRESHOLD_MS).
Proof.
  unfold reset_init. autounfold with model. run.
  eexists. split; [reflexivity|]. split.
  - apply new_events_app. cbn. rewrite <- !app_assoc. reflexivity.
  - cbn. destruct b; cbn; auto.
Qed.

(** ** The invariant is kept by every input *)

Lemma fire_preserves {B} (f : World -> B) cfg t :
  (forall q w, f (set_queue q w) = f w) ->
  (forall fn c, preserves f (run_tasklet_fn cfg fn c)) ->
  preserves f (fire cfg t).
Proof.
  intros Hq Hfn w a w' H. unfold fire in H.
  destruct (Tasklet.find t (queue w)); [|now inversion H].
  destruct (callback w t).
  - apply Hfn in H. now rewrite H, Hq.
  - inversion H. apply Hq.
Qed.

Lemma run_due_preserves {B} (f : World -> B) cfg t :
  (forall q w, f (set_queue q w) = f w) ->
  (forall fn c, preserves f (run_tasklet_fn cfg fn c)) ->
  preserves f (run_due cfg t).
Proof.
  intros Hq Hfn w a w' H. unfold run_due in H.
  destruct (Tasklet.find t (queue w)); [|now inversion H].
  destruct (q_due q <=? clock w); [|now inversion H].
  eapply fire_preserves; eauto.
Qed.

Lemma handle_callback cfg i : preserves callback (handle cfg i).
Proof.
  destruct i; cbn [handle]; try (frame; fail).
  apply run_due_preserves; [reflexivity | intros; frame].
Qed.

Lemma keeps_ret {A} (a : A) : keeps_flicker (ret a).
Proof. intros w a' w' Hi H. now inversion H; subst. Qed.

Lemma keeps_read {A} (g : World -> A) : keeps_flicker (read g).
Proof. intros w a' w' Hi H. now inversion H; subst. Qed.

Lemma keeps_bind {A C} (m : M A) (k : A -> M C) :
  keeps_flicker m -> (forall a, keeps_flicker (k a)) -> keeps_flicker (bind m k).
Proof.
  intros Hm Hk w c w' Hi H. unfold bind in H.
  destruct (m w) as [[a w1]|] eqn:E; [|discriminate].
  apply (Hk a w1 c w'); auto. apply (Hm w a w1); auto.
Qed.

Lemma keeps_when c m : keeps_flicker m -> keeps_flicker (when c m).
Proof. intros Hm. destruct c; cbn; auto using keeps_ret. Qed.

(** Code that touches neither the flicker tasklet's queue entry nor the
    flag of [THIS_DEVICE]. *)
Lemma keeps_quiet {A} (m : M A) :
  preserves (fun w => Tasklet.find g_programming_mode_handler (queue w)) m ->
  preserves (fun w => programming_mode w THIS_DEVICE) m ->
  keeps_flicker m.
Proof.
  intros Hq Hp w a w' Hi H Hw'. unfold flicker_only_in_programming_mode, is_queued in *.
  rewrite (Hq _ _ _ H) in Hw'. rewrite (Hp _ _ _ H). auto.
Qed.

Lemma keeps_exit cfg dev : keeps_flicker (exit_programming_mode cfg dev).
Proof.
  intros w a w' Hi H Hq.
  destruct (exit_programming_mode_defined cfg dev w) as (w2 & E & _ & _ & _ & Q & _).
  rewrite E in H. inversion H; subst. congruence.
Qed.

Lemma keeps_enter cfg : keeps_flicker (enter_programming_mode cfg THIS_DEVICE).
Proof.
  intros w a w' Hi H Hq.
  destruct (enter_programming_mode_defined cfg THIS_DEVICE w) as (w2 & E & _ & P & _).
  rewrite E in H. inversion H; subst. exact P.
Qed.

Lemma keeps_run_button_fn cfg f c : keeps_flicker (run_button_fn cfg f c).
Proof.
  destruct f; cbn [run_button_fn].
  - apply keeps_quiet; frame.
  - unfold reset_hold_cb.
    repeat first
      [ progress cbv beta iota zeta
      | apply keeps_ret | apply keeps_read | apply keeps_exit | apply keeps_when
      | apply keeps_bind; [|intro]
      | match goal with
        | |- keeps_flicker (if ?b then _ else _) => destruct b
        end
      | apply keeps_quiet; frame ].
  - apply keeps_quiet; frame.
  - unfold prog_mode_short_press_cb.
    apply keeps_bind; [apply keeps_read|intros []];
      [apply keeps_exit | apply keeps_enter].
Qed.

Lemma find_remove_mono t t' q :
  Tasklet.find t (Tasklet.remove t' q) <> None -> Tasklet.find t q <> None.
Proof.
  destruct (tasklet_eqb t' t) eqn:E.
  - apply tasklet_eqb_eq in E. subst. now rewrite find_remove_same.
  - now rewrite find_remove_other.
Qed.

Lemma flicker_only_dequeue t w :
  flicker_only_in_programming_mode w ->
  flicker_only_in_programming_mode (set_queue (Tasklet.remove t (queue w)) w).
Proof.
  unfold flicker_only_in_programming_mode, is_queued. cbn. intros Hi Hq. apply Hi.
  pose proof (find_remove_mono g_programming_mode_handler t (queue w)) as Hm.
  destruct (Tasklet.find g_programming_mode_handler (Tasklet.remove t (queue w)));
    [|discriminate].
  destruct (Tasklet.find g_programming_mode_handler (queue w)); auto.
  exfalso. apply Hm; auto. discriminate.
Qed.

Lemma fire_keeps_flicker cfg t w a w' :
  device_invariant w ->
  fire cfg t w = Some (a, w') ->
  flicker_only_in_programming_mode w'.
Proof.
  intros (Hi & Hcb & _) H. unfold fire in H.
  destruct (Tasklet.find t (queue w)) as [e|] eqn:Hq; [|now inversion H; subst].
  destruct (callback w t) as [fn|] eqn:Hfn.
  - destruct fn; cbn [run_tasklet_fn] in H.
    + revert H. apply keeps_quiet; [frame | frame | now apply flicker_only_dequeue].
    + apply Hcb in Hfn. subst t.
      assert (Hpm : programming_mode w THIS_DEVICE = true).
      { apply Hi. unfold is_queued. now rewrite Hq. }
      assert (P : preserves (fun w => programming_mode w THIS_DEVICE)
                    (programming_mode_handler (q_context e))) by frame.
      apply P in H. cbn in H. intros _. congruence.
    + revert H. apply keeps_quiet; [frame | frame | now apply flicker_only_dequeue].
  - inversion H; subst. now apply flicker_only_dequeue.
Qed.

Lemma programming_mode_embedded_keeps cfg mode :
  keeps_flicker (programming_mode_embedded cfg THIS_DEVICE mode).
Proof.
  unfold programming_mode_embedded.
  apply keeps_bind; [apply keeps_read|intros current].
  destruct (Bool.eqb mode current); [apply keeps_ret|].
  destruct mode; [apply keeps_enter | apply keeps_exit].
Qed.

Lemma handle_keeps_flicker cfg i w w' :
  device_invariant w -> single_device i ->
  handle cfg i w = Some (tt, w') ->
  flicker_only_in_programming_mode w'.
Proof.
  intros Hinv Hsd H. pose proof Hinv as (Hi & _).
  destruct i; cbn [handle] in H; cbn in Hsd.
  - inversion H; subst. exact Hi.
  - unfold run_due in H.
    destruct (Tasklet.find t (queue w)); [|now inversion H; subst].
    destruct (q_due q <=? clock w); [|now inversion H; subst].
    eapply fire_keeps_flicker; eauto.
  - revert H. apply keeps_bind; auto using keeps_read.
    intros [f|]; cbn [deliver]; auto using keeps_ret, keeps_run_button_fn.
  - revert H. apply keeps_bind; auto using keeps_read.
    intros [f|]; cbn [deliver]; auto using keeps_ret, keeps_run_button_fn.
  - revert H. apply keeps_bind; auto using keeps_read.
    intros [f|]; cbn [deliver]; auto using keeps_ret, keeps_run_button_fn.
  - subst device_index. revert H. apply programming_mode_embedded_keeps; auto.
  - discriminate.
  - revert H. apply keeps_exit; auto.
  - revert H. apply keeps_quiet; auto; frame.
  - inversion H; subst. exact Hi.
Qed.

Lemma handle_valid_reset_state cfg i w w' :
  valid_reset_state (g_reset_state w) ->
  handle cfg i w = Some (tt, w') ->
  valid_reset_state (g_reset_state w').
Proof.
  intros Hv H.
  destruct (registered i w) as [f|] eqn:Hr.
  2:{ rewrite (handle_reset_state cfg i w w' H); auto; rewrite Hr; discriminate. }
  assert (E : handle cfg i w = run_button_fn cfg f NULL w).
  { destruct i; try discriminate; cbn in Hr |- *;
      unfold bind, read; cbn; now rewrite Hr. }
  destruct f.
  - rewrite (handle_reset_state cfg i w w' H); auto; rewrite Hr; discriminate.
  - rewrite E in H. now apply (reset_hold_cb_forward cfg NULL w w').
  - rewrite E in H. inversion H; subst. now left.
  - rewrite (handle_reset_state cfg i w w' H); auto; rewrite Hr; discriminate.
Qed.

Lemma device_invariant_step cfg i w w' :
  device_invariant w -> single_device i ->
  handle cfg i w = Some (tt, w') ->
  device_invariant w'.
Proof.
  intros Hinv Hsd H. split; [|split].
  - exact (handle_keeps_flicker cfg i w w' Hinv Hsd H).
  - rewrite (handle_callback cfg i _ _ _ H). apply Hinv.
  - apply (handle_valid_reset_state cfg i w w'); auto. apply Hinv.
Qed.

Lemma device_invariant_init cfg w :
  hardware_init cfg boot = Some (tt, w) -> device_invariant w.
Proof.
  unfold hardware_init, knx_specific_init, programming_mode_init, reset_init.
  destruct (SLEEPY cfg), (SLEEPY_USE_LED cfg); cbn; intros H; inversion H; subst;
    (split; [|split]); cbn;
    try (intros Hq; discriminate Hq);
    try (now left);
    intros [| | |n]; cbn; congruence.
Qed.

(** Every reachable world satisfies the invariant. *)
Lemma reachable_invariant cfg w : reachable cfg w -> device_invariant w.
Proof.
  induction 1 as [w H | i w w' _ IH Hsd H].
  - now apply (device_invariant_init cfg).
  - exact (device_invariant_step cfg i w w' IH Hsd H).
Qed.

(** The wiring of the buttons never changes after initialisation. *)
Lemma handle_registered cfg i j : preserves (registered j) (handle cfg i).
Proof.
  destruct j; try (intros w a w' _; reflexivity);
    (destruct i; cbn [handle]; try (frame; fail);
     apply run_due_preserves; [reflexivity | intros; frame]).
Qed.

Lemma init_registered cfg w j :
  hardware_init cfg boot = Some (tt, w) -> registered j w = wiring j.
Proof.
  unfold hardware_init, knx_specific_init, programming_mode_init, reset_init.
  destruct (SLEEPY cfg), (SLEEPY_USE_LED cfg); cbn; intros H; inversion H; subst;
    destruct j as [| |[]|[]|[]| | | | |]; reflexivity.
Qed.

Lemma reachable_registered cfg w j : reachable cfg w -> registered j w = wiring j.
Proof.
  induction 1 as [w H | i w w' _ IH Hsd H].
  - now apply (init_registered cfg).
  - now rewrite (handle_registered cfg i j _ _ _ H).
Qed.

(** ** The reset state machine *)

(** C1.  Without DEMO_MODE, from NetworkReset the first hold performs the
    network reset and moves to LinkReset, the second erases the Thread
    credentials and moves to Ignore, the third changes nothing; at Ignore
    every hold is a no-op; a hold never moves a valid state backwards; the
    long-press callback sets NetworkReset whatever the state; no other
    callback brings a valid state back to NetworkReset; [reset_init]
    registers the hold and the long-press callback on the same button;
    and in every world the running device can reach, the hold event of
    the trigger button is what reaches the hold handler and an input that
    brings the state back to NetworkReset is a long press of that same
    button.  (A restart ends the run; the next one starts from power-up.) *)
Theorem reset_state_machine_forward (cfg : Config) :
  DEMO_MODE cfg = false ->
  (forall c w,
      g_reset_state w = KNX_RESET ->
      exists w1 w2,
        exec (reset_hold_cb cfg c) w = Some w1
        /\ In (EvResetDevice THIS_DEVICE RESET_VALUE) (new_events w w1)
        /\ g_reset_state w1 = THREAD_RESET
        /\ exec (reset_hold_cb cfg c) w1 = Some w2
        /\ new_events w1 w2 = thread_reset_events
        /\ g_reset_state w2 = IGNORE_FURTHER_ACTION
        /\ exec (reset_hold_cb cfg c) w2 = Some w2)
  /\ (forall c w,
         g_reset_state w = IGNORE_FURTHER_ACTION ->
         reset_hold_cb cfg c w = Some (tt, w))
  /\ (forall c w w',
         valid_reset_state (g_reset_state w) ->
         reset_hold_cb cfg c w = Some (tt, w') ->
         valid_reset_state (g_reset_state w')
         /\ g_reset_state w <= g_reset_state w')
  /\ (forall c w,
         reset_long_press_cb c w = Some (tt, set_g_reset_state KNX_RESET w))
  /\ (forall i w w',
         valid_reset_state (g_reset_state w) ->
         g_reset_state w <> KNX_RESET ->
         handle cfg i w = Some (tt, w') ->
         g_reset_state w' = KNX_RESET ->
         registered i w = Some fn_reset_long_press_cb)
  /\ (forall b w,
         exists w',
           reset_init b w = Some (tt, w')
           /\ registered (ButtonHold b) w' = Some fn_reset_hold_cb
           /\ registered (ButtonLongPress b) w' = Some fn_reset_long_press_cb)
  /\ (forall i w w',
         reachable cfg w ->
         registered (ButtonHold TRIGGER_FOR_PROGRAMMING_MODE_AND_RESET) w
         = Some fn_reset_hold_cb
         /\ (g_reset_state w <> KNX_RESET ->
             handle cfg i w = Some (tt, w') ->
             g_reset_state w' = KNX_RESET ->
             i = ButtonLongPress TRIGGER_FOR_PROGRAMMING_MODE_AND_RESET)).
Proof.
  intros Hd.
  assert (Hback : forall i w w',
             valid_reset_state (g_reset_state w) ->
             g_reset_state w <> KNX_RESET ->
             handle cfg i w = Some (tt, w') ->
             g_reset_state w' = KNX_RESET ->
             registered i w = Some fn_reset_long_press_cb).
  { intros i w w' Hv Hne H Hk.
    destruct (registered i w) as [f|] eqn:Hr.
    + destruct f; auto; exfalso.
      * rewrite (handle_reset_state cfg i w w' H) in Hk by (rewrite Hr; discriminate).
        contradiction.
      * assert (E : handle cfg i w = reset_hold_cb cfg NULL w).
        { destruct i; try discriminate; cbn in Hr |- *;
            unfold bind, read; cbn; now rewrite Hr. }
        rewrite E in H.
        destruct (reset_hold_cb_forward cfg NULL w w' Hv H) as [_ Hle].
        destruct Hv as [Hv|[Hv|Hv]]; rewrite Hv, Hk in Hle;
          unfold KNX_RESET, THREAD_RESET, IGNORE_FURTHER_ACTION in *; lia.
      * rewrite (handle_reset_state cfg i w w' H) in Hk by (rewrite Hr; discriminate).
        contradiction.
    + rewrite (handle_reset_state cfg i w w' H) in Hk by (rewrite Hr; discriminate).
      contradiction. }
  repeat apply conj.
  - intros c w Hs.
    destruct (reset_hold_cb_knx_defined cfg c w Hd Hs)
      as (w0 & w1 & _ & _ & E1 & L0 & L1 & R1 & _).
    destruct (reset_hold_cb_thread cfg c w1 Hd R1) as (w2 & E2 & L2 & R2 & _).
    exists w1, w2. unfold exec. rewrite E1, E2.
    rewrite (reset_hold_cb_ignore cfg c w2 R2).
    repeat split; auto.
    + rewrite L0, <- app_assoc in L1.
      rewrite (new_events_app _ _ _ L1).
      apply in_or_app. right. left. reflexivity.
    + now apply new_events_app.
  - intros c w. apply reset_hold_cb_ignore.
  - intros c w w'. apply reset_hold_cb_forward.
  - reflexivity.
  - exact Hback.
  - intros b w. destruct (reset_init_defined b w) as (w' & E & _ & _ & Hh & Hl).
    exists w'. cbn. rewrite Hh, Hl. auto.
  - intros i w w' Hreach. split.
    + now rewrite (reachable_registered cfg w _ Hreach).
    + intros Hne H Hk.
      pose proof (reachable_invariant cfg w Hreach) as (_ & _ & Hv).
      pose proof (Hback i w w' Hv Hne H Hk) as Hr.
      rewrite (reachable_registered cfg w i Hreach) in Hr.
      destruct i as [| |[]|[]|[]| | | | |]; cbn in Hr;
        try discriminate; reflexivity.
Qed.

Lemma reset_state_machine_forward_witness :
  DEMO_MODE example_cfg = false
  /\ g_reset_state boot = KNX_RESET
  /\ exists w1 w2,
      exec (reset_hold_cb example_cfg NULL) boot = Some w1
      /\ In (EvResetDevice THIS_DEVICE RESET_VALUE) (new_events boot w1)
      /\ g_reset_state w1 = THREAD_RESET
      /\ exec (reset_hold_cb example_cfg NULL) w1 = Some w2
      /\ new_events w1 w2 = thread_reset_events
      /\ g_reset_state w2 = IGNORE_FURTHER_ACTION
      /\ exec (reset_hold_cb example_cfg NULL) w2 = Some w2.
Proof.
  split; [reflexivity|]. split; [reflexivity|].
  exact (proj1 (reset_state_machine_forward example_cfg eq_refl) NULL boot eq_refl).
Defined.

(** C5.  In the NetworkReset stage (no DEMO_MODE), the hold handler is
    "leave programming mode if the device is in it, then call
    [oc_reset_device]": the events of [exit_programming_mode] (flag
    cleared, flicker tasklet cancelled, indicator LED off) come before the
    reset event in the log, and in the world in which [oc_reset_device] is
    called the device is not in programming mode and, provided the flicker
    tasklet was armed only in programming mode, the flicker tasklet is not
    armed. *)
Theorem programming_mode_exited_before_network_reset cfg c w :
  DEMO_MODE cfg = false ->
  g_reset_state w = KNX_RESET ->
  flicker_only_in_programming_mode w ->
  exists w1 w',
    when (programming_mode w THIS_DEVICE) (exit_programming_mode cfg THIS_DEVICE) w
    = Some (tt, w1)
    /\ knx_reset_from_oc_reset_device w1 = Some (tt, w')
    /\ reset_hold_cb cfg c w = Some (tt, w')
    /\ new_events w w1
       = (if programming_mode w THIS_DEVICE then exit_events cfg THIS_DEVICE else [])
    /\ new_events w w' = new_events w w1 ++ knx_reset_events
    /\ programming_mode w1 THIS_DEVICE = false
    /\ is_queued g_programming_mode_handler w1 = false
    /\ armed_after g_programming_mode_handler (new_events w w1)
         (is_queued g_programming_mode_handler w) = false
    /\ (programming_mode w THIS_DEVICE = true ->
        level (pins w1 PROGRAMMING_MODE_INDICATOR) = LED_OFF cfg).
Proof.
  intros Hd Hs Inv.
  destruct (reset_hold_cb_knx_defined cfg c w Hd Hs)
    as (w1 & w' & E0 & E1 & E & L0 & L1 & _ & Hin & Hout & _).
  exists w1, w'.
  rewrite (new_events_app _ _ _ L0).
  rewrite L0, <- app_assoc in L1. rewrite (new_events_app _ _ _ L1).
  repeat split; auto.
  - destruct (programming_mode w THIS_DEVICE) eqn:Hpm.
    + now apply Hin.
    + now rewrite (Hout eq_refl).
  - destruct (programming_mode w THIS_DEVICE) eqn:Hpm.
    + now apply Hin.
    + rewrite (Hout eq_refl).
      destruct (is_queued g_programming_mode_handler w) eqn:Hq; auto.
      specialize (Inv Hq). congruence.
  - destruct (programming_mode w THIS_DEVICE) eqn:Hpm.
    + unfold exit_events. destruct (SLEEPY cfg); reflexivity.
    + cbn. destruct (is_queued g_programming_mode_handler w) eqn:Hq; auto.
      specialize (Inv Hq). congruence.
  - intros Hpm. rewrite Hpm in E0. cbn [when] in E0.
    destruct (exit_programming_mode_defined cfg THIS_DEVICE w)
      as (w1' & E' & _ & _ & _ & _ & _ & Hled & _).
    rewrite E' in E0. inversion E0; subst. exact Hled.
Qed.

Lemma programming_mode_exited_before_network_reset_witness :
  DEMO_MODE example_cfg = false
  /\ g_reset_state programming = KNX_RESET
  /\ flicker_only_in_programming_mode programming
  /\ programming_mode programming THIS_DEVICE = true
  /\ exists w1 w',
      reset_hold_cb example_cfg NULL programming = Some (tt, w')
      /\ new_events programming w' = exit_events example_cfg THIS_DEVICE ++ knx_reset_events
      /\ programming_mode w1 THIS_DEVICE = false
      /\ is_queued g_programming_mode_handler w1 = false.
Proof.
  assert (Hinv : flicker_only_in_programming_mode programming)
    by (intros _; reflexivity).
  split; [reflexivity|]. split; [reflexivity|]. split; [exact Hinv|].
  split; [reflexivity|].
  destruct (programming_mode_exited_before_network_reset
              example_cfg NULL programming eq_refl eq_refl Hinv)
    as (w1 & w' & _ & _ & E & L0 & L1 & P & Q & _).
  exists w1, w'. rewrite L1, L0. auto.
Defined.

(** ** The scheduler's time to the next tasklet *)

Lemma time_left_bounds now e :
  0 <= Tasklet.time_left now e <= UINT32_MAX
  /\ Tasklet.time_left now e <= Z.max 0 (q_due e - now).
Proof. unfold Tasklet.time_left, UINT32_MAX. lia. Qed.

Lemma time_to_next_none now q : Tasklet.time_to_next now q = None <-> q = [].
Proof.
  split; [|intros ->; reflexivity].
  destruct q as [|e q]; cbn; auto.
  destruct (Tasklet.time_to_next now q); discriminate.
Qed.

Lemma time_to_next_le now q d :
  Tasklet.time_to_next now q = Some d ->
  forall e, In e q -> d <= Tasklet.time_left now e.
Proof.
  revert d. induction q as [|e0 q IH]; cbn; intros d H e Hin; [contradiction|].
  destruct (Tasklet.time_to_next now q) as [d'|] eqn:E.
  - inversion H; subst. destruct Hin as [->|Hin]; [lia|].
    specialize (IH d' eq_refl e Hin). lia.
  - inversion H; subst. apply time_to_next_none in E. subst.
    destruct Hin as [->|[]]. lia.
Qed.

(** ** The sleep arbiter *)

Lemma arm_keep_alive_defined cfg w :
  exists w1,
    arm_keep_alive cfg w = Some (tt, w1)
    /\ is_queued g_sed_poll_tasklet w1 = true
    /\ log w1 = log w ++ (if is_queued g_sed_poll_tasklet w then []
                          else [EvTaskletSchedule g_sed_poll_tasklet
                                  (u32 (SED_POLL_PERIOD cfg)) NULL])
    /\ clock w1 = clock w
    /\ g_time_of_last_wake w1 = g_time_of_last_wake w
    /\ device_role w1 = device_role w
    /\ (is_queued g_sed_poll_tasklet w = true -> w1 = w).
Proof.
  unfold arm_keep_alive, TASKLET_IsQueued. run. fold (is_queued g_sed_poll_tasklet w).
  destruct (is_queued g_sed_poll_tasklet w) eqn:Hq; cbn.
  - exists w. rewrite app_nil_r. repeat split; auto.
  - eexists. split; [reflexivity|]. repeat split; try discriminate.
Qed.

Lemma hardware_sleep_steps cfg n w :
  hardware_sleep cfg n w
  = (arm_keep_alive cfg ;;
     fun w1 =>
       (if (sleep_duration cfg n w1 >? 100) && sleep_after_joining cfg w1
        then suspend (sleep_duration cfg n w1)
        else ret tt) w1) w.
Proof.
  unfold hardware_sleep, arm_keep_alive. run.
  unfold TASKLET_IsQueued, read.
  destruct (Tasklet.find g_sed_poll_tasklet (queue w));
    cbv beta iota delta [negb];
    unfold TASKLET_ScheduleDelta, TASKLET_GetTimeToNext, TIME_ReadAbsoluteTime,
      otThreadGetDeviceRole, modify, read, sleep_duration, sleep_after_joining,
      has_min_awake_time_passed, suspend, bind;
    reflexivity.
Qed.

Lemma suspend_defined ms w :
  exists w',
    suspend ms w = Some (tt, w')
    /\ log w' = log w ++ [EvDevboardSleep ms]
    /\ queue w' = queue w
    /\ (0 <= ms -> clock w <= clock w' <= clock w + ms)
    /\ g_time_of_last_wake w' = u32 (clock w').
Proof.
  unfold suspend, DVBD_DevboardSleep, TIME_ReadAbsoluteTime. run.
  eexists. split; [reflexivity|].
  destruct (next_wake_source w) as [i|]; [destruct (i <=? ms) eqn:E|];
    cbn; repeat split; auto; try lia.
Qed.

(** C2.  When the network stack cannot suspend, or [hardware_can_sleep]
    is false, [sleep_if_possible] returns with the world as it found it
    (no tasklet scheduled, no suspension), for every next-app-event bound
    and every scheduler state; [hardware_can_sleep] is false whenever the
    device is in programming mode; and only when both checks pass is the
    result that of [hardware_sleep]. *)
Theorem sleep_if_possible_vetoes cfg t w :
  (platform_can_sleep w = false \/ hardware_can_sleep w = Some (false, w) ->
   sleep_if_possible cfg t w = Some (tt, w)
   /\ sleep_events (new_events w w) = [])
  /\ (programming_mode w THIS_DEVICE = true ->
      hardware_can_sleep w = Some (false, w))
  /\ (platform_can_sleep w = true ->
      hardware_can_sleep w = Some (true, w) ->
      sleep_if_possible cfg t w = hardware_sleep cfg (next_app_event t) w).
Proof.
  assert (Hn : sleep_events (new_events w w) = []).
  { unfold new_events. now rewrite skipn_all. }
  repeat apply conj.
  - intros [H|H]; split; auto; unfold sleep_if_possible, PlatformCanSleep; run.
    + now rewrite H.
    + destruct (platform_can_sleep w); cbn [negb]; [|reflexivity]. now rewrite H.
  - intros H. unfold hardware_can_sleep, DVBD_CanSleep,
      oc_knx_device_in_programming_mode. run.
    destruct (dvbd_can_sleep w); [|reflexivity]. now rewrite H.
  - intros H1 H2. unfold sleep_if_possible, PlatformCanSleep. run.
    rewrite H1. cbn [negb]. rewrite H2. reflexivity.
Qed.

Lemma sleep_if_possible_vetoes_witness :
  programming_mode programming THIS_DEVICE = true
  /\ hardware_can_sleep programming = Some (false, programming)
  /\ sleep_if_possible example_cfg 0 programming = Some (tt, programming).
Proof.
  destruct (sleep_if_possible_vetoes example_cfg 0 programming) as (A & B & _).
  split; [reflexivity|]. split; [exact (B eq_refl)|].
  exact (proj1 (A (or_intror (B eq_refl)))).
Defined.

(** What [hardware_sleep] does, by cases on its final test. *)
Lemma hardware_sleep_cases cfg n w :
  exists w1,
    arm_keep_alive cfg w = Some (tt, w1)
    /\ is_queued g_sed_poll_tasklet w1 = true
    /\ log w1 = log w ++ (if is_queued g_sed_poll_tasklet w then []
                          else [EvTaskletSchedule g_sed_poll_tasklet
                                  (u32 (SED_POLL_PERIOD cfg)) NULL])
    /\ clock w1 = clock w
    /\ sleep_after_joining cfg w1 = sleep_after_joining cfg w
    /\ hardware_sleep cfg n w
       = if (sleep_duration cfg n w1 >? 100) && sleep_after_joining cfg w
         then suspend (sleep_duration cfg n w1) w1
         else Some (tt, w1).
Proof.
  destruct (arm_keep_alive_defined cfg w) as (w1 & E & Q & L & C & T & R & _).
  assert (S : sleep_after_joining cfg w1 = sleep_after_joining cfg w).
  { unfold sleep_after_joining, has_min_awake_time_passed. now rewrite C, T, R. }
  exists w1. repeat split; auto.
  rewrite hardware_sleep_steps. unfold bind. rewrite E, S.
  destruct ((sleep_duration cfg n w1 >? 100) && sleep_after_joining cfg w); reflexivity.
Qed.

Lemma no_sleep_in_keep_alive (b : bool) e :
  sleep_events (if b then [] else [EvTaskletSchedule g_sed_poll_tasklet e NULL]) = [].
Proof. destruct b; reflexivity. Qed.

(** C4.  Whenever [hardware_sleep] suspends the device: the keep-alive
    data-poll tasklet is queued in the world in which the suspend call is
    made (it is scheduled first if it was not queued), the duration passed
    to the suspend call is the minimum of the scheduler's time to the next
    tasklet and the next-app-event bound, and neither at the call nor at
    wake-up is any queued tasklet past its due time. *)
Theorem hardware_sleep_keeps_deadlines cfg n w w' :
  hardware_sleep cfg n w = Some (tt, w') ->
  sleep_events (new_events w w') <> [] ->
  exists w1 d next,
    arm_keep_alive cfg w = Some (tt, w1)
    /\ suspend d w1 = Some (tt, w')
    /\ is_queued g_sed_poll_tasklet w1 = true
    /\ new_events w w'
       = (if is_queued g_sed_poll_tasklet w then []
          else [EvTaskletSchedule g_sed_poll_tasklet (u32 (SED_POLL_PERIOD cfg)) NULL])
         ++ [EvDevboardSleep d]
    /\ Tasklet.time_to_next (clock w1) (queue w1) = Some next
    /\ d = Z.min next n
    /\ (forall e, In e (queue w1) -> clock w1 + d <= q_due e)
    /\ (forall e, In e (queue w') -> clock w' <= q_due e)
    /\ clock w' <= clock w + n.
Proof.
  intros H Hs.
  destruct (hardware_sleep_cases cfg n w) as (w1 & E & Q & L & C & _ & Hc).
  rewrite Hc in H. clear Hc.
  destruct ((sleep_duration cfg n w1 >? 100) && sleep_after_joining cfg w) eqn:Hgo.
  - apply andb_prop in Hgo. destruct Hgo as [Hd _]. apply Z.gtb_lt in Hd.
    destruct (suspend_defined (sleep_duration cfg n w1) w1) as (w2 & E2 & L2 & Q2 & C2 & _).
    rewrite E2 in H. inversion H; subst w2. clear H.
    destruct (Tasklet.time_to_next (clock w1) (queue w1)) as [next|] eqn:En.
    2:{ apply time_to_next_none in En. unfold is_queued in Q. rewrite En in Q.
        discriminate. }
    assert (Hdur : sleep_duration cfg n w1 = Z.min next n).
    { unfold sleep_duration. rewrite En.
      rewrite Z.gtb_ltb. destruct (n <? next) eqn:G;
        [apply Z.ltb_lt in G|apply Z.ltb_ge in G]; lia. }
    assert (Hdue : forall e, In e (queue w1) -> clock w1 + sleep_duration cfg n w1 <= q_due e).
    { intros e Hin. pose proof (time_to_next_le _ _ _ En e Hin) as Hle.
      pose proof (time_left_bounds (clock w1) e). lia. }
    exists w1, (sleep_duration cfg n w1), next.
    repeat split; auto.
    + apply new_events_app. rewrite L2, L, <- app_assoc. reflexivity.
    + intros e Hin. rewrite Q2 in Hin. specialize (Hdue e Hin). lia.
    + lia.
  - inversion H; subst w'. exfalso. apply Hs.
    rewrite (new_events_app _ _ _ L). apply no_sleep_in_keep_alive.
Qed.

Lemma hardware_sleep_keeps_deadlines_witness :
  hardware_sleep example_cfg 2147483647 (attached 0) = Some (tt, slept)
  /\ sleep_events (new_events (attached 0) slept) = [5000]
  /\ exists w1 d next,
      arm_keep_alive example_cfg (attached 0) = Some (tt, w1)
      /\ suspend d w1 = Some (tt, slept)
      /\ is_queued g_sed_poll_tasklet w1 = true
      /\ new_events (attached 0) slept
         = (if is_queued g_sed_poll_tasklet (attached 0) then []
            else [EvTaskletSchedule g_sed_poll_tasklet
                    (u32 (SED_POLL_PERIOD example_cfg)) NULL])
           ++ [EvDevboardSleep d]
      /\ Tasklet.time_to_next (clock w1) (queue w1) = Some next
      /\ d = Z.min next 2147483647
      /\ (forall e, In e (queue w1) -> clock w1 + d <= q_due e)
      /\ (forall e, In e (queue slept) -> clock slept <= q_due e)
      /\ clock slept <= clock (attached 0) + 2147483647.
Proof.
  assert (E : hardware_sleep example_cfg 2147483647 (attached 0) = Some (tt, slept))
    by reflexivity.
  assert (S : sleep_events (new_events (attached 0) slept) = [5000])
    by reflexivity.
  split; [exact E|]. split; [exact S|].
  apply (hardware_sleep_keeps_deadlines example_cfg 2147483647 (attached 0) slept E).
  rewrite S. discriminate.
Defined.

(** C3, as stated, fails: attached as a child, the device suspends for
    5000 ms at the very tick of its last wake, 1000 ms short of the
    minimum awake time. *)
Lemma suspends_before_min_awake_time :
  hardware_sleep example_cfg 2147483647 (attached 0) = Some (tt, slept)
  /\ sleep_events (new_events (attached 0) slept) = [5000]
  /\ clock (attached 0)
     < g_time_of_last_wake (attached 0) + SED_MIN_AWAKE_TIME example_cfg
  /\ has_min_awake_time_passed example_cfg (attached 0) = false.
Proof. repeat split; reflexivity. Qed.

(** C3, amended.  Whenever [hardware_sleep] suspends the device, the
    minimum awake time has elapsed since the last wake or the Thread role
    is other than Detached (and the clamped time left exceeds 100 ms). *)
Theorem suspend_requires_min_awake_or_attached cfg n w w' :
  hardware_sleep cfg n w = Some (tt, w') ->
  sleep_events (new_events w w') <> [] ->
  (has_min_awake_time_passed cfg w = true
   \/ device_role w <> OT_DEVICE_ROLE_DETACHED)
  /\ exists w1,
      arm_keep_alive cfg w = Some (tt, w1)
      /\ 100 < sleep_duration cfg n w1.
Proof.
  intros H Hs.
  destruct (hardware_sleep_cases cfg n w) as (w1 & E & Q & L & C & _ & Hc).
  rewrite Hc in H. clear Hc.
  destruct ((sleep_duration cfg n w1 >? 100) && sleep_after_joining cfg w) eqn:Hgo.
  - apply andb_prop in Hgo. destruct Hgo as [Hd Hj]. apply Z.gtb_lt in Hd.
    split; [|exists w1; auto].
    unfold sleep_after_joining in Hj. apply orb_prop in Hj.
    destruct Hj as [Hj|Hj]; [now left|right].
    intros Hr. rewrite Hr in Hj. discriminate.
  - inversion H; subst w'. exfalso. apply Hs.
    rewrite (new_events_app _ _ _ L). apply no_sleep_in_keep_alive.
Qed.

Lemma suspend_requires_min_awake_or_attached_witness :
  hardware_sleep example_cfg 2147483647 (attached 0) = Some (tt, slept)
  /\ sleep_events (new_events (attached 0) slept) <> []
  /\ (has_min_awake_time_passed example_cfg (attached 0) = true
      \/ device_role (attached 0) <> OT_DEVICE_ROLE_DETACHED).
Proof.
  assert (E : hardware_sleep example_cfg 2147483647 (attached 0) = Some (tt, slept))
    by reflexivity.
  assert (S : sleep_events (new_events (attached 0) slept) <> [])
    by discriminate.
  split; [exact E|]. split; [exact S|].
  exact (proj1 (suspend_requires_min_awake_or_attached
                  example_cfg 2147483647 (attached 0) slept E S)).
Defined.

(** ** The reset feedback tasklet *)

Lemma feedback_toggle cfg r n w :
  feedback_pending r n w ->
  0 <= n < RESET_INDICATOR_FLICKER_COUNT ->
  exists w',
    wait_and_fire cfg g_reset_done_indicator w = Some (tt, w')
    /\ feedback_pending r (n + 1) w'
    /\ log w' = log w ++ toggles 1 (level (pins w PROGRAMMING_MODE_INDICATOR)) r
    /\ level (pins w' PROGRAMMING_MODE_INDICATOR)
       = lnot (level (pins w PROGRAMMING_MODE_INDICATOR))
    /\ Tasklet.find g_reset_done_indicator (queue w')
       = Some (mkQueued g_reset_done_indicator (clock w' + half_period r)
                 addr_state_snapshot).
Proof.
  intros (Hcb & (due & Hq) & Hs & Hr & Hc) Hn.
  unfold wait_and_fire. rewrite Hq. unfold fire. cbn [queue set_time callback].
  rewrite Hq, Hcb. cbn [run_tasklet_fn q_context].
  unfold reset_done_feedback, deref. run. cbn [count set_queue set_time state_snapshot].
  rewrite Hc, Hs.
  destruct (n <? RESET_INDICATOR_FLICKER_COUNT) eqn:Hlt;
    [|apply Z.ltb_ge in Hlt; lia].
  assert (Hu : u8 (n + 1) = n + 1).
  { unfold u8, RESET_INDICATOR_FLICKER_COUNT in *. apply Z.mod_small. lia. }
  rewrite Hu. unfold DVBD_Sense, DVBD_SetLED, TASKLET_ScheduleDelta, read, modify.
  unfold feedback_pending, half_period.
  destruct Hr as [-> | ->]; cbn; (eexists; split; [reflexivity|]); cbn;
    rewrite <- ?app_assoc, ?find_cons; cbn; repeat split; eauto.
Qed.

Lemma feedback_final cfg r w :
  feedback_pending r RESET_INDICATOR_FLICKER_COUNT w ->
  exists w',
    wait_and_fire cfg g_reset_done_indicator w = Some (tt, w')
    /\ log w' = log w ++ final_events cfg r
    /\ level (pins w' PROGRAMMING_MODE_INDICATOR) = LED_OFF cfg
    /\ count w' = 0
    /\ is_queued g_reset_done_indicator w' = false.
Proof.
  intros (Hcb & (due & Hq) & Hs & Hr & Hc).
  unfold wait_and_fire. rewrite Hq. unfold fire. cbn [queue set_time callback].
  rewrite Hq, Hcb. cbn [run_tasklet_fn q_context].
  unfold reset_done_feedback, deref. run. cbn [count set_queue set_time state_snapshot].
  rewrite Hc, Hs. cbn [Z.ltb Z.compare RESET_INDICATOR_FLICKER_COUNT Pos.compare Pos.compare_cont].
  unfold DVBD_SetLED, BSP_SystemReset, modify, final_events, is_queued.
  destruct Hr as [-> | ->]; cbn; (eexists; split; [reflexivity|]); cbn;
    rewrite <- ?app_assoc, ?find_remove_same; cbn; repeat split; eauto.
Qed.

Lemma feedback_toggles cfg r k n w :
  feedback_pending r n w ->
  0 <= n -> n + Z.of_nat k <= RESET_INDICATOR_FLICKER_COUNT ->
  exists w',
    repeat_m k (wait_and_fire cfg g_reset_done_indicator) w = Some (tt, w')
    /\ feedback_pending r (n + Z.of_nat k) w'
    /\ log w' = log w ++ toggles k (level (pins w PROGRAMMING_MODE_INDICATOR)) r
    /\ level (pins w' PROGRAMMING_MODE_INDICATOR)
       = Nat.iter k lnot (level (pins w PROGRAMMING_MODE_INDICATOR)).
Proof.
  revert n w. induction k as [|k IH]; intros n w Hp Hn Hk.
  - exists w. cbn. rewrite Z.add_0_r, app_nil_r. auto.
  - destruct (feedback_toggle cfg r n w Hp) as (w1 & E1 & P1 & L1 & V1 & _); [lia|].
    destruct (IH (n + 1) w1 P1) as (w' & E & P & L & V); [lia..|].
    exists w'. cbn [repeat_m]. unfold bind. rewrite E1, E.
    split; [reflexivity|]. split; [|split].
    + replace (n + Z.of_nat (S k)) with (n + 1 + Z.of_nat k) by lia. exact P.
    + rewrite L, L1, V1, <- app_assoc. reflexivity.
    + rewrite V, V1. apply Nat.iter_swap.
Qed.

(** C6.  Started with its counter at 0, the reset feedback tasklet fires
    six times: five times it sets the indicator LED to the negation of
    the level it senses and re-schedules itself half a flicker period
    later; the sixth time it sets the LED to off, whatever level the five
    toggles left, resets its counter, does not re-schedule itself, and
    restarts the device exactly when the feedback was for the Thread
    reset. *)
Theorem reset_feedback_ends_off cfg r w :
  feedback_pending r 0 w ->
  exists w5 w6,
    repeat_m 5 (wait_and_fire cfg g_reset_done_indicator) w = Some (tt, w5)
    /\ new_events w w5 = toggles 5 (level (pins w PROGRAMMING_MODE_INDICATOR)) r
    /\ level (pins w5 PROGRAMMING_MODE_INDICATOR)
       = Nat.iter 5 lnot (level (pins w PROGRAMMING_MODE_INDICATOR))
    /\ wait_and_fire cfg g_reset_done_indicator w5 = Some (tt, w6)
    /\ new_events w5 w6 = final_events cfg r
    /\ level (pins w6 PROGRAMMING_MODE_INDICATOR) = LED_OFF cfg
    /\ count w6 = 0
    /\ is_queued g_reset_done_indicator w6 = false
    /\ (In EvSystemReset (new_events w w6) <-> r = THREAD_RESET).
Proof.
  intros Hp.
  destruct (feedback_toggles cfg r 5 0 w Hp) as (w5 & E5 & P5 & L5 & V5);
    [lia | unfold RESET_INDICATOR_FLICKER_COUNT; lia |].
  destruct (feedback_final cfg r w5 P5) as (w6 & E6 & L6 & V6 & C6 & Q6).
  exists w5, w6. rewrite (new_events_app _ _ _ L5), (new_events_app _ _ _ L6).
  repeat split; auto.
  - rewrite L5, <- app_assoc in L6. rewrite (new_events_app _ _ _ L6).
    destruct Hp as (_ & _ & _ & [-> | ->] & _); cbn; intuition discriminate.
  - intros ->. rewrite L5, <- app_assoc in L6. rewrite (new_events_app _ _ _ L6).
    cbn. intuition.
Qed.

Lemma reset_feedback_ends_off_witness :
  feedback_pending KNX_RESET 0 reset_started
  /\ exists w5 w6,
      repeat_m 5 (wait_and_fire example_cfg g_reset_done_indicator) reset_started
      = Some (tt, w5)
      /\ wait_and_fire example_cfg g_reset_done_indicator w5 = Some (tt, w6)
      /\ level (pins w5 PROGRAMMING_MODE_INDICATOR) = 1
      /\ level (pins w6 PROGRAMMING_MODE_INDICATOR) = LED_OFF example_cfg
      /\ is_queued g_reset_done_indicator w6 = false.
Proof.
  assert (Hp : feedback_pending KNX_RESET 0 reset_started).
  { repeat split; try reflexivity; [eexists; reflexivity | now left]. }
  split; [exact Hp|].
  destruct (reset_feedback_ends_off example_cfg KNX_RESET reset_started Hp)
    as (w5 & w6 & E5 & _ & V5 & E6 & _ & V6 & _ & Q6 & _).
  exists w5, w6. repeat split; auto.
Defined.

(** ** Programming mode at the public interface *)

Lemma programming_mode_embedded_same cfg dev mode w :
  programming_mode w dev = mode ->
  programming_mode_embedded cfg dev mode w = Some (tt, w).
Proof.
  intros H. unfold programming_mode_embedded, oc_knx_device_in_programming_mode.
  run. rewrite H. now rewrite Bool.eqb_reflx.
Qed.

Lemma programming_mode_embedded_enter cfg dev w :
  programming_mode w dev = false ->
  programming_mode_embedded cfg dev true w = enter_programming_mode cfg dev w.
Proof.
  intros H. unfold programming_mode_embedded, oc_knx_device_in_programming_mode.
  run. now rewrite H.
Qed.

Lemma programming_mode_embedded_exit cfg dev w :
  programming_mode w dev = true ->
  programming_mode_embedded cfg dev false w = exit_programming_mode cfg dev w.
Proof.
  intros H. unfold programming_mode_embedded, oc_knx_device_in_programming_mode.
  run. now rewrite H.
Qed.

(** C8.  Asking [programming_mode_embedded] for the mode the device is
    already in leaves the world as it is (flag, tasklet queue and log
    included).  From outside programming mode, enter; exit; enter ends,
    like a single enter, in programming mode with the flicker tasklet
    armed, due immediately, with the same context; from programming mode
    with the flicker tasklet armed, where a single enter changes nothing,
    enter; exit; enter ends there again. *)
Theorem programming_mode_embedded_idempotent cfg dev w :
  (forall mode,
      programming_mode w dev = mode ->
      programming_mode_embedded cfg dev mode w = Some (tt, w))
  /\ (programming_mode w dev = false ->
      exists w1 w3,
        programming_mode_embedded cfg dev true w = Some (tt, w1)
        /\ enter_exit_enter cfg dev w = Some (tt, w3)
        /\ programming_mode w1 dev = true
        /\ programming_mode w3 dev = true
        /\ Tasklet.find g_programming_mode_handler (queue w1)
           = Some (mkQueued g_programming_mode_handler (clock w + SCHEDULE_NOW) NULL)
        /\ Tasklet.find g_programming_mode_handler (queue w3)
           = Tasklet.find g_programming_mode_handler (queue w1)
        /\ new_events w w3
           = enter_events cfg dev ++ exit_events cfg dev ++ enter_events cfg dev)
  /\ (programming_mode w dev = true ->
      is_queued g_programming_mode_handler w = true ->
      exists w3,
        enter_exit_enter cfg dev w = Some (tt, w3)
        /\ programming_mode w3 dev = true
        /\ is_queued g_programming_mode_handler w3 = true
        /\ new_events w w3 = exit_events cfg dev ++ enter_events cfg dev).
Proof.
  repeat apply conj.
  - intros mode. apply programming_mode_embedded_same.
  - intros Hoff.
    destruct (enter_programming_mode_defined cfg dev w)
      as (w1 & E1 & L1 & P1 & _ & Q1 & _ & _ & C1 & _).
    destruct (exit_programming_mode_defined cfg dev w1)
      as (w2 & E2 & L2 & P2 & _).
    destruct (enter_programming_mode_defined cfg dev w2)
      as (w3 & E3 & L3 & P3 & _ & Q3 & _).
    assert (C2 : clock w2 = clock w1).
    { assert (P : preserves clock (exit_programming_mode cfg dev)) by frame.
      eapply P; eauto. }
    exists w1, w3. unfold enter_exit_enter, bind.
    rewrite (programming_mode_embedded_enter cfg dev w Hoff), E1.
    rewrite (programming_mode_embedded_exit cfg dev w1 P1), E2.
    rewrite (programming_mode_embedded_enter cfg dev w2 P2), E3.
    repeat split; auto.
    + rewrite Q3, Q1, C2, C1. reflexivity.
    + apply new_events_app. rewrite L3, L2, L1, <- !app_assoc. reflexivity.
  - intros Hon _.
    destruct (exit_programming_mode_defined cfg dev w) as (w2 & E2 & L2 & P2 & _).
    destruct (enter_programming_mode_defined cfg dev w2)
      as (w3 & E3 & L3 & P3 & _ & Q3 & _).
    exists w3. unfold enter_exit_enter, bind.
    rewrite (programming_mode_embedded_same cfg dev true w Hon).
    rewrite (programming_mode_embedded_exit cfg dev w Hon), E2.
    rewrite (programming_mode_embedded_enter cfg dev w2 P2), E3.
    repeat split; auto.
    + unfold is_queued. now rewrite Q3.
    + apply new_events_app. rewrite L3, L2, <- !app_assoc. reflexivity.
Qed.

Lemma programming_mode_embedded_idempotent_witness :
  programming_mode initialised THIS_DEVICE = false
  /\ programming_mode_embedded example_cfg THIS_DEVICE false initialised
     = Some (tt, initialised)
  /\ exists w1 w3,
      programming_mode_embedded example_cfg THIS_DEVICE true initialised = Some (tt, w1)
      /\ enter_exit_enter example_cfg THIS_DEVICE initialised = Some (tt, w3)
      /\ programming_mode w3 THIS_DEVICE = programming_mode w1 THIS_DEVICE
      /\ is_queued g_programming_mode_handler w3 = true
      /\ is_queued g_programming_mode_handler w1 = true.
Proof.
  destruct (programming_mode_embedded_idempotent example_cfg THIS_DEVICE initialised)
    as (Hsame & Hseq & _).
  split; [reflexivity|]. split; [exact (Hsame false eq_refl)|].
  destruct (Hseq eq_refl) as (w1 & w3 & E1 & E3 & P1 & P3 & Q1 & Q3 & _).
  exists w1, w3. unfold is_queued. rewrite Q3, Q1, P1, P3. auto.
Defined.

(** ** Initialisation *)

(** What [programming_mode_init] logs when it installs. *)
Lemma programming_mode_init_distinct cfg led btn w :
  led <> btn ->
  exists w',
    programming_mode_init cfg led btn w = Some (tt, w')
    /\ new_events w w'
       = [EvTaskletInit g_programming_mode_handler fn_programming_mode_handler;
          if SLEEPY cfg then EvRegisterButtonIRQInput btn JUMPER_POS_1
          else EvRegisterButtonInput btn JUMPER_POS_1;
          EvRegisterLEDOutput led JUMPER_POS_1;
          EvSetButtonShortPressCallback btn fn_prog_mode_short_press_cb
            BTN_SHORTPRESS_RELEASED]
    /\ registered (ButtonShortPress btn) w' = Some fn_prog_mode_short_press_cb.
Proof.
  intros Hne. unfold programming_mode_init.
  destruct (dvbd_led_btn_eqb led btn) eqn:E.
  { destruct led, btn; try discriminate; congruence. }
  autounfold with model. run.
  destruct (SLEEPY cfg); (eexists; split; [reflexivity|]); split.
  1, 3: apply new_events_app; cbn; rewrite <- !app_assoc; reflexivity.
  all: destruct btn; reflexivity.
Qed.

(** C9, as stated, fails.  Handed the pin that is already registered as
    the flashing LED's output, [reset_init] still initialises the
    feedback tasklet and installs both button callbacks on it; and handed
    the button that already carries the short-press callback of the
    switch data point, [programming_mode_init] still installs, replacing
    that callback. *)
Lemma reset_init_installs_on_led_pin :
  role (pins initialised PROGRAMMING_MODE_INDICATOR) = Some LEDOutput
  /\ hold_cb (pins initialised PROGRAMMING_MODE_INDICATOR) = None
  /\ (exists w',
        reset_init PROGRAMMING_MODE_INDICATOR initialised = Some (tt, w')
        /\ w' <> initialised
        /\ new_events initialised w'
           = [EvTaskletInit g_reset_done_indicator fn_reset_done_feedback;
              EvSetButtonHoldCallback PROGRAMMING_MODE_INDICATOR fn_reset_hold_cb 3000;
              EvSetButtonLongPressCallback PROGRAMMING_MODE_INDICATOR
                fn_reset_long_press_cb 3000]
        /\ hold_cb (pins w' PROGRAMMING_MODE_INDICATOR) = Some (fn_reset_hold_cb, 3000))
  /\ registered (ButtonShortPress LSSB_BUTTON) initialised = Some fn_lssb_button_pressed
  /\ (exists w',
        programming_mode_init example_cfg PROGRAMMING_MODE_INDICATOR LSSB_BUTTON
          initialised = Some (tt, w')
        /\ w' <> initialised
        /\ registered (ButtonShortPress LSSB_BUTTON) w'
           = Some fn_prog_mode_short_press_cb).
Proof.
  assert (Hlen : forall w', List.length (log w') <> List.length (log initialised) ->
                            w' <> initialised) by (intros w' H E; now subst).
  split; [reflexivity|]. split; [reflexivity|]. split; [|split; [reflexivity|]].
  - eexists. split; [reflexivity|].
    split; [apply Hlen; vm_compute; discriminate | split; reflexivity].
  - eexists. split; [reflexivity|].
    split; [apply Hlen; vm_compute; discriminate | reflexivity].
Qed.

(** C9, amended.  When the flashing LED and the programming-mode button
    are the same pin, [programming_mode_init] returns with the world as
    it found it: nothing initialised, registered or installed.  That
    guard is the only one: for distinct pins [programming_mode_init]
    always installs, and [reset_init], for every button and every state
    of the driver, initialises the feedback tasklet and installs the hold
    and the long-press callback on the button it is given. *)
Theorem init_alias_is_noop_reset_init_always_installs cfg :
  (forall p w, programming_mode_init cfg p p w = Some (tt, w))
  /\ (forall led btn w,
         led <> btn ->
         exists w',
           programming_mode_init cfg led btn w = Some (tt, w')
           /\ new_events w w'
              = [EvTaskletInit g_programming_mode_handler fn_programming_mode_handler;
                 if SLEEPY cfg then EvRegisterButtonIRQInput btn JUMPER_POS_1
                 else EvRegisterButtonInput btn JUMPER_POS_1;
                 EvRegisterLEDOutput led JUMPER_POS_1;
                 EvSetButtonShortPressCallback btn fn_prog_mode_short_press_cb
                   BTN_SHORTPRESS_RELEASED])
  /\ (forall b w,
         exists w',
           reset_init b w = Some (tt, w')
           /\ new_events w w'
              = [EvTaskletInit g_reset_done_indicator fn_reset_done_feedback;
                 EvSetButtonHoldCallback b fn_reset_hold_cb
                   RESET_HOLD_AND_LONG_PRESS_THRESHOLD_MS;
                 EvSetButtonLongPressCallback b fn_reset_long_press_cb
                   RESET_HOLD_AND_LONG_PRESS_THRESHOLD_MS]
           /\ callback w' g_reset_done_indicator = Some fn_reset_done_feedback
           /\ registered (ButtonHold b) w' = Some fn_reset_hold_cb
           /\ registered (ButtonLongPress b) w' = Some fn_reset_long_press_cb).
Proof.
  repeat apply conj.
  - intros p w. unfold programming_mode_init.
    destruct p; reflexivity.
  - intros led btn w Hne.
    destruct (programming_mode_init_distinct cfg led btn w Hne) as (w' & E & L & _).
    exists w'. auto.
  - intros b w. destruct (reset_init_defined b w) as (w' & E & L & C & H & Lp).
    exists w'. cbn. rewrite H, Lp. auto.
Qed.

Lemma init_alias_is_noop_reset_init_always_installs_witness :
  programming_mode_init example_cfg PROGRAMMING_MODE_INDICATOR
    PROGRAMMING_MODE_INDICATOR boot = Some (tt, boot)
  /\ PROGRAMMING_MODE_INDICATOR <> TRIGGER_FOR_PROGRAMMING_MODE_AND_RESET
  /\ exists w',
      programming_mode_init example_cfg PROGRAMMING_MODE_INDICATOR
        TRIGGER_FOR_PROGRAMMING_MODE_AND_RESET boot = Some (tt, w')
      /\ List.length (new_events boot w') = 4%nat.
Proof.
  destruct (init_alias_is_noop_reset_init_always_installs example_cfg)
    as (Halias & Hinstall & _).
  assert (Hne : PROGRAMMING_MODE_INDICATOR <> TRIGGER_FOR_PROGRAMMING_MODE_AND_RESET)
    by discriminate.
  split; [apply Halias|]. split; [exact Hne|].
  destruct (Hinstall _ _ boot Hne) as (w' & E & L).
  exists w'. split; [exact E|]. rewrite L. reflexivity.
Defined.

(** C7, as stated, fails: the two thresholds [reset_init] registers for
    the trigger button are both 3000 ms; the long-press one is not longer. *)
Lemma long_press_threshold_not_longer :
  hold_threshold initialised TRIGGER_FOR_PROGRAMMING_MODE_AND_RESET = Some 3000
  /\ long_press_threshold initialised TRIGGER_FOR_PROGRAMMING_MODE_AND_RESET = Some 3000
  /\ ~ (3000 < 3000).
Proof. repeat split; try reflexivity. lia. Qed.

(** C7, amended.  The long-press threshold that re-arms the reset state
    machine and the hold threshold that advances it are registered by
    [reset_init] on the same button with the same value,
    RESET_HOLD_AND_LONG_PRESS_THRESHOLD_MS = 3000 ms. *)
Theorem reset_thresholds_equal b w :
  exists w',
    reset_init b w = Some (tt, w')
    /\ registered (ButtonHold b) w' = Some fn_reset_hold_cb
    /\ registered (ButtonLongPress b) w' = Some fn_reset_long_press_cb
    /\ hold_threshold w' b = Some RESET_HOLD_AND_LONG_PRESS_THRESHOLD_MS
    /\ long_press_threshold w' b = Some RESET_HOLD_AND_LONG_PRESS_THRESHOLD_MS
    /\ long_press_threshold w' b = hold_threshold w' b
    /\ RESET_HOLD_AND_LONG_PRESS_THRESHOLD_MS = 3000.
Proof.
  destruct (reset_init_defined b w) as (w' & E & _ & _ & H & L).
  exists w'. unfold hold_threshold, long_press_threshold. cbn.
  rewrite H, L. cbn. repeat split; auto.
Qed.

(** ** The url lookup *)

(** C10.  [app_is_url_in_use] returns false for every url and every group
    object table: the first evaluation of the loop condition [index++]
    yields 0, so the body never runs. *)
Theorem app_is_url_in_use_always_false fuel table url :
  app_is_url_in_use (S fuel) table url = Returns false.
Proof. reflexivity. Qed.

(** Even for a url that is in the table. *)
Example app_is_url_in_use_misses_present_url :
  app_is_url_in_use 10 ["/p/o_1_1"; "/p/o_2_2"]%string "/p/o_2_2"
  = Returns false.
Proof. reflexivity. Qed.

(** ** Worked runs *)

Example hardware_init_log :
  log initialised
  = [EvSetPutCb;
     EvTaskletInit g_sed_poll_tasklet fn_sed_poll_handler;
     EvTaskletInit g_programming_mode_handler fn_programming_mode_handler;
     EvRegisterButtonIRQInput DEV_SWITCH_4 JUMPER_POS_1;
     EvRegisterLEDOutput DEV_SWITCH_3 JUMPER_POS_1;
     EvSetButtonShortPressCallback DEV_SWITCH_4 fn_prog_mode_short_press_cb
       BTN_SHORTPRESS_RELEASED;
     EvTaskletInit g_reset_done_indicator fn_reset_done_feedback;
     EvSetButtonHoldCallback DEV_SWITCH_4 fn_reset_hold_cb 3000;
     EvSetButtonLongPressCallback DEV_SWITCH_4 fn_reset_long_press_cb 3000;
     EvSetRestartCb;
     EvRegisterLEDOutput DEV_SWITCH_2 JUMPER_POS_1;
     EvRegisterButtonInput DEV_SWITCH_1 JUMPER_POS_1;
     EvSetButtonShortPressCallback DEV_SWITCH_1 fn_lssb_button_pressed
       BTN_SHORTPRESS_PRESSED].
Proof. reflexivity. Qed.

Example hold_in_programming_mode_log :
  new_events programming reset_from_programming
  = [EvSetLinkMode false; EvSetProgrammingMode 0 false;
     EvTaskletCancel g_programming_mode_handler;
     EvSetLED DEV_SWITCH_3 1; EvPublishService;
     EvResetDevice 0 2;
     EvTaskletSchedule g_reset_done_indicator 0 addr_state_snapshot;
     EvPublishService].
Proof. reflexivity. Qed.

(** Five toggles from "off" leave the indicator on; the sixth firing
    turns it off.  The six firings take five half-periods. *)
Example feedback_run_after_programming_mode :
  feedback_run 5 reset_from_programming
  = Some ([EvSetLED DEV_SWITCH_3 0;
           EvTaskletSchedule g_reset_done_indicator 150 addr_state_snapshot;
           EvSetLED DEV_SWITCH_3 1;
           EvTaskletSchedule g_reset_done_indicator 150 addr_state_snapshot;
           EvSetLED DEV_SWITCH_3 0;
           EvTaskletSchedule g_reset_done_indicator 150 addr_state_snapshot;
           EvSetLED DEV_SWITCH_3 1;
           EvTaskletSchedule g_reset_done_indicator 150 addr_state_snapshot;
           EvSetLED DEV_SWITCH_3 0;
           EvTaskletSchedule g_reset_done_indicator 150 addr_state_snapshot],
          0, 600)
  /\ option_map (fun r => (snd (fst r), snd r)) (feedback_run 6 reset_from_programming)
     = Some (1, 750).
Proof. split; reflexivity. Qed.

(** A second hold starts the Thread-reset feedback, whose last firing
    restarts the device. *)
Example thread_reset_feedback_restarts :
  option_map (fun r => last (fst (fst r)) EvPublishService)
    (feedback_run 6
       (world_after
          (handle example_cfg (ButtonHold TRIGGER_FOR_PROGRAMMING_MODE_AND_RESET))
          (world_after (repeat_m 6 (wait_and_fire example_cfg g_reset_done_indicator))
             reset_started)))
  = Some EvSystemReset.
Proof. reflexivity. Qed.

Example TIME_Cmp_wraps :
  TIME_Cmp 0 1000 = -1000 /\ TIME_Cmp 1000 1000 = 0
  /\ TIME_Cmp 5 (u32 (4294967290 + 10)) = 1.
Proof. repeat split; reflexivity. Qed.

(** * Further properties of knx_iot_example_dev.c *)

(** ** Rules for [maintains] and [total] *)

Section Maintains.

Context (P : World -> Prop).

Lemma maintains_ret {A} (a : A) : maintains P (ret a).
Proof. intros w a' w' Hp H. now inversion H; subst. Qed.

Lemma maintains_read {A} (g : World -> A) : maintains P (read g).
Proof. intros w a' w' Hp H. now inversion H; subst. Qed.

Lemma maintains_undefined {A} : maintains P (@undefined A).
Proof. intros w a' w' Hp H. discriminate. Qed.

Lemma maintains_bind_undefined {A C} (k : A -> M C) :
  maintains P (bind undefined k).
Proof. intros w a' w' Hp H. discriminate. Qed.

Lemma maintains_modify g : (forall w, P w -> P (g w)) -> maintains P (modify g).
Proof. intros Hg w a' w' Hp H. inversion H; subst. auto. Qed.

Lemma maintains_bind {A C} (m : M A) (k : A -> M C) :
  maintains P m -> (forall a, maintains P (k a)) -> maintains P (bind m k).
Proof.
  intros Hm Hk w c w' Hp H. unfold bind in H.
  destruct (m w) as [[a w1]|] eqn:E; [|discriminate].
  apply (Hk a w1 c w'); auto. apply (Hm w a w1); auto.
Qed.

Lemma maintains_when c m : maintains P m -> maintains P (when c m).
Proof. intros Hm. destruct c; cbn; auto using maintains_ret. Qed.

(** A property that only reads the component [f] is kept by code that
    leaves [f] alone. *)
Lemma maintains_preserves {A B} (f : World -> B) (m : M A) :
  (forall w w', f w' = f w -> P w -> P w') ->
  preserves f m -> maintains P m.
Proof. intros Hf Hm w a w' Hp H. apply (Hf w w'); auto. eapply Hm; eauto. Qed.

Lemma fire_maintains cfg t :
  (forall w, P w -> P (set_queue (Tasklet.remove t (queue w)) w)) ->
  (forall fn c w, Tasklet.find t (queue w) = Some c -> callback w t = Some fn ->
                  P w ->
                  forall a w', run_tasklet_fn cfg fn (q_context c)
                                 (set_queue (Tasklet.remove t (queue w)) w)
                               = Some (a, w') -> P w') ->
  maintains P (fire cfg t).
Proof.
  intros Hq Hfn w a w' Hp H. unfold fire in H.
  destruct (Tasklet.find t (queue w)) as [e|] eqn:E; [|now inversion H; subst].
  destruct (callback w t) as [fn|] eqn:Ecb.
  - eapply Hfn; eauto.
  - inversion H; subst. auto.
Qed.

Lemma run_due_maintains cfg t :
  maintains P (fire cfg t) -> maintains P (run_due cfg t).
Proof.
  intros Hf w a w' Hp H. unfold run_due in H.
  destruct (Tasklet.find t (queue w)); [|now inversion H; subst].
  destruct (q_due q <=? clock w); [|now inversion H; subst].
  eapply Hf; eauto.
Qed.

End Maintains.

Lemma total_ret {A} (a : A) : total (ret a).
Proof. intros w. now exists a, w. Qed.

Lemma total_read {A} (g : World -> A) : total (read g).
Proof. intros w. now exists (g w), w. Qed.

Lemma total_modify g : total (modify g).
Proof. intros w. now exists tt, (g w). Qed.

Lemma total_bind {A C} (m : M A) (k : A -> M C) :
  total m -> (forall a, total (k a)) -> total (bind m k).
Proof.
  intros Hm Hk w. destruct (Hm w) as (a & w1 & E).
  destruct (Hk a w1) as (c & w' & E'). exists c, w'.
  unfold bind. now rewrite E.
Qed.

Lemma total_when c m : total m -> total (when c m).
Proof. intros Hm. destruct c; cbn; auto using total_ret. Qed.

(** Every body that does not dereference a context is defined. *)
Ltac totality :=
  autounfold with model;
  repeat first
    [ progress cbv beta iota zeta
    | apply total_ret
    | apply total_read
    | apply total_modify
    | apply total_when
    | apply total_bind; [|intro]
    | match goal with
      | |- total (if ?b then _ else _) => destruct b
      | |- total (match ?c with _ => _ end) => destruct c
      end ].

(** ** The feedback counter and the snapshot *)

Ltac run_in H :=
  unfold exec, when, bind, ret, read, modify, undefined in H; cbn beta iota in H.

Lemma reset_done_feedback_count cfg c :
  maintains feedback_counter_in_range (reset_done_feedback cfg c).
Proof.
  intros w a w' Hp H. unfold feedback_counter_in_range in *.
  destruct c; [discriminate|].
  unfold reset_done_feedback, deref, DVBD_Sense, DVBD_SetLED,
    TASKLET_ScheduleDelta, BSP_SystemReset in H. run_in H.
  cbn [count set_count] in H.
  unfold RESET_INDICATOR_FLICKER_COUNT in *.
  destruct (count w <? 5) eqn:E.
  - apply Z.ltb_lt in E.
    assert (Hu : u8 (count w + 1) = count w + 1) by (apply Z.mod_small; lia).
    destruct (state_snapshot w =? KNX_RESET);
      [|destruct (state_snapshot w =? THREAD_RESET)];
      inversion H; subst; cbn; rewrite Hu; lia.
  - destruct (state_snapshot w =? THREAD_RESET); inversion H; subst; cbn; lia.
Qed.

Lemma find_In t q e : Tasklet.find t q = Some e -> In e q /\ q_tasklet e = t.
Proof.
  unfold Tasklet.find. intros H. apply find_some in H.
  destruct H as [H1 H2]. apply tasklet_eqb_eq in H2. auto.
Qed.

Lemma In_remove e t q : In e (Tasklet.remove t q) -> In e q.
Proof. unfold Tasklet.remove. intros H. apply filter_In in H. tauto. Qed.

(** Structural steps shared by the invariant proofs; [prim] closes the
    goals left for single calls. *)
Ltac maint_steps prim :=
  repeat first
    [ progress cbv beta iota zeta
    | apply maintains_ret
    | apply maintains_read
    | apply maintains_undefined
    | apply maintains_bind_undefined
    | apply maintains_when
    | match goal with
      | |- maintains _ (bind (match ?c with _ => _ end) _) => destruct c
      | |- maintains _ (if ?b then _ else _) => destruct b
      | |- maintains _ (match ?c with _ => _ end) => destruct c
      end
    | prim
    | apply maintains_bind; [|intro] ].

Ltac maint prim := autounfold with composite; maint_steps prim.

Lemma handle_count cfg i : maintains feedback_counter_in_range (handle cfg i).
Proof.
  assert (Hq : forall (A : Type) (m : M A),
             preserves count m -> maintains feedback_counter_in_range m).
  { intros A m. apply maintains_preserves.
    unfold feedback_counter_in_range. intros w w' E. now rewrite E. }
  destruct i; cbn [handle]; try (apply Hq; frame; fail).
  apply run_due_maintains, fire_maintains; [auto|].
  intros fn c w _ _ Hp a w'. destruct fn; cbn [run_tasklet_fn].
  - apply reset_done_feedback_count. exact Hp.
  - apply Hq; [frame | exact Hp].
  - apply Hq; [frame | exact Hp].
Qed.

Lemma handle_snapshot cfg i : maintains snapshot_valid (handle cfg i).
Proof.
  assert (Hq : forall (A : Type) (m : M A),
             preserves state_snapshot m -> maintains snapshot_valid m).
  { intros A m. apply maintains_preserves.
    unfold snapshot_valid. intros w w' E. now rewrite E. }
  assert (Hb : forall f, maintains snapshot_valid (run_button_fn cfg f NULL)).
  { intros f. destruct f; cbn [run_button_fn]; try (apply Hq; frame; fail).
    maint ltac:(first
      [ apply maintains_modify; intros ? ?; unfold snapshot_valid; cbn; auto; fail
      | apply Hq; frame; fail ]). }
  destruct i; cbn [handle]; try (apply Hq; frame; fail).
  1: apply run_due_maintains, fire_maintains; [auto|];
     intros fn c w _ _ Hp a w'; apply Hq; [destruct fn; frame | exact Hp].
  all: apply maintains_bind; [apply maintains_read|];
    intros [f|]; cbn [deliver]; auto using maintains_ret.
Qed.

(** ** The context of the queued feedback tasklet *)

Lemma ctx_schedule t d c :
  (t = g_reset_done_indicator -> c = addr_state_snapshot) ->
  maintains feedback_context_valid (TASKLET_ScheduleDelta t d c).
Proof.
  intros Hc. apply maintains_modify. intros w Hp e. cbn.
  intros [<- | Hin] Ht; cbn in *; auto.
  apply Hp; auto. eapply In_remove; eauto.
Qed.

Lemma ctx_cancel t : maintains feedback_context_valid (TASKLET_Cancel t).
Proof.
  apply maintains_modify. intros w Hp e. cbn. intros Hin.
  apply Hp. eapply In_remove; eauto.
Qed.

Lemma ctx_quiet {A} (m : M A) :
  preserves queue m -> maintains feedback_context_valid m.
Proof.
  apply maintains_preserves. unfold feedback_context_valid.
  intros w w' E. now rewrite E.
Qed.

Ltac ctx_prim :=
  first
    [ apply ctx_schedule; first [discriminate | reflexivity | congruence | auto]; fail
    | apply ctx_cancel
    | apply ctx_quiet; frame; fail ].

Lemma run_button_fn_ctx cfg f :
  maintains feedback_context_valid (run_button_fn cfg f NULL).
Proof. destruct f; cbn [run_button_fn]; maint ctx_prim. Qed.

Lemma run_tasklet_fn_ctx cfg fn c :
  maintains feedback_context_valid (run_tasklet_fn cfg fn c).
Proof. destruct fn; cbn [run_tasklet_fn]; maint ctx_prim. Qed.

Lemma handle_ctx cfg i : maintains feedback_context_valid (handle cfg i).
Proof.
  destruct i; cbn [handle]; try (maint ctx_prim; fail).
  - apply run_due_maintains, fire_maintains.
    + intros w Hp e. cbn. intros Hin. apply Hp. eapply In_remove; eauto.
    + intros fn c w _ _ Hp a w'. apply run_tasklet_fn_ctx.
      intros e. cbn. intros Hin. apply Hp. eapply In_remove; eauto.
Qed.

(** ** The flicker tasklet and the programming-mode flag *)

Lemma iff_quiet {A} (m : M A) :
  preserves (fun w => Tasklet.find g_programming_mode_handler (queue w)) m ->
  preserves (fun w => programming_mode w THIS_DEVICE) m ->
  maintains flicker_iff_programming_mode m.
Proof.
  intros Hq Hp w a w' Hi H. unfold flicker_iff_programming_mode, is_queued in *.
  now rewrite (Hq _ _ _ H), (Hp _ _ _ H).
Qed.

Lemma iff_exit cfg :
  maintains flicker_iff_programming_mode (exit_programming_mode cfg THIS_DEVICE).
Proof.
  intros w a w' _ H.
  destruct (exit_programming_mode_defined cfg THIS_DEVICE w)
    as (w2 & E & _ & P & _ & Q & _).
  rewrite E in H. inversion H; subst.
  unfold flicker_iff_programming_mode. congruence.
Qed.

Lemma iff_enter cfg :
  maintains flicker_iff_programming_mode (enter_programming_mode cfg THIS_DEVICE).
Proof.
  intros w a w' _ H.
  destruct (enter_programming_mode_defined cfg THIS_DEVICE w)
    as (w2 & E & _ & P & _ & Q & _).
  rewrite E in H. inversion H; subst.
  unfold flicker_iff_programming_mode, is_queued. now rewrite Q, P.
Qed.

Ltac iff_prim :=
  first [ apply iff_exit | apply iff_enter | apply iff_quiet; frame; fail ].

Lemma run_button_fn_iff cfg f :
  maintains flicker_iff_programming_mode (run_button_fn cfg f NULL).
Proof.
  destruct f; cbn [run_button_fn];
    unfold lssb_button_pressed, reset_hold_cb, reset_long_press_cb,
      prog_mode_short_press_cb, oc_knx_device_in_programming_mode;
    maint_steps iff_prim.
Qed.

Lemma fire_iff cfg t w a w' :
  (forall t, callback w t = registry cfg t) ->
  flicker_iff_programming_mode w ->
  fire cfg t w = Some (a, w') ->
  flicker_iff_programming_mode w'.
Proof.
  intros Hreg Hi H. unfold fire in H.
  destruct (Tasklet.find t (queue w)) as [e|] eqn:Hq; [|now inversion H; subst].
  assert (Hdq : tasklet_eqb t g_programming_mode_handler = false ->
                flicker_iff_programming_mode (set_queue (Tasklet.remove t (queue w)) w)).
  { intros Hne. unfold flicker_iff_programming_mode, is_queued in *. cbn.
    now rewrite find_remove_other. }
  rewrite Hreg in H.
  destruct t; cbn [registry] in H.
  - cbn [run_tasklet_fn] in H.
    assert (Hpm : programming_mode w THIS_DEVICE = true).
    { unfold flicker_iff_programming_mode, is_queued in Hi. now rewrite Hq in Hi. }
    unfold programming_mode_handler, DVBD_Sense, DVBD_SetLED, TASKLET_ScheduleDelta in H.
    run_in H. inversion H; subst.
    unfold flicker_iff_programming_mode, is_queued. cbn.
    now rewrite find_cons, Hpm.
  - revert H. apply iff_quiet; [frame | frame | now apply Hdq].
  - destruct (SLEEPY cfg).
    + revert H. apply iff_quiet; [frame | frame | now apply Hdq].
    + inversion H; subst. now apply Hdq.
  - inversion H; subst. now apply Hdq.
Qed.

Lemma handle_iff cfg i w w' :
  (forall t, callback w t = registry cfg t) ->
  flicker_iff_programming_mode w ->
  single_device i ->
  handle cfg i w = Some (tt, w') ->
  flicker_iff_programming_mode w'.
Proof.
  intros Hreg Hi Hsd H.
  destruct i; cbn [handle] in H; cbn in Hsd.
  - revert H. apply iff_quiet; auto; frame.
  - unfold run_due in H.
    destruct (Tasklet.find t (queue w)); [|now inversion H; subst].
    destruct (q_due q <=? clock w); [|now inversion H; subst].
    eapply fire_iff; eauto.
  - revert H. apply maintains_bind; auto using maintains_read.
    intros [f|]; cbn [deliver]; auto using maintains_ret, run_button_fn_iff.
  - revert H. apply maintains_bind; auto using maintains_read.
    intros [f|]; cbn [deliver]; auto using maintains_ret, run_button_fn_iff.
  - revert H. apply maintains_bind; auto using maintains_read.
    intros [f|]; cbn [deliver]; auto using maintains_ret, run_button_fn_iff.
  - subst device_index.
    assert (Hm : maintains flicker_iff_programming_mode
                   (programming_mode_embedded cfg THIS_DEVICE mode)).
    { unfold programming_mode_embedded, oc_knx_device_in_programming_mode.
      maint_steps iff_prim. }
    exact (Hm w tt w' Hi H).
  - discriminate.
  - subst device_index. revert H. apply iff_exit; auto.
  - revert H. apply iff_quiet; auto; frame.
  - revert H. apply iff_quiet; auto; frame.
Qed.

(** ** The invariant in every reachable world *)

Lemma running_invariant_init cfg w :
  hardware_init cfg boot = Some (tt, w) -> running_invariant cfg w.
Proof.
  unfold hardware_init, knx_specific_init, programming_mode_init, reset_init,
    running_invariant, flicker_iff_programming_mode, feedback_context_valid,
    feedback_counter_in_range, snapshot_valid, RESET_INDICATOR_FLICKER_COUNT.
  destruct (SLEEPY cfg) eqn:Hs, (SLEEPY_USE_LED cfg); cbn; intros H;
    inversion H; subst; cbn; repeat split; try lia; try tauto; auto;
    intros [| | |n]; cbn; rewrite ?Hs; reflexivity.
Qed.

Lemma running_invariant_step cfg i w w' :
  running_invariant cfg w -> single_device i ->
  handle cfg i w = Some (tt, w') ->
  running_invariant cfg w'.
Proof.
  intros (Hreg & Hiff & Hctx & Hcnt & Hsnap) Hsd H. repeat split.
  - intros t. rewrite (handle_callback cfg i _ _ _ H). apply Hreg.
  - exact (handle_iff cfg i w w' Hreg Hiff Hsd H).
  - exact (handle_ctx cfg i w tt w' Hctx H).
  - exact (proj1 (handle_count cfg i w tt w' Hcnt H)).
  - exact (proj2 (handle_count cfg i w tt w' Hcnt H)).
  - exact (handle_snapshot cfg i w tt w' Hsnap H).
Qed.

Lemma reachable_running_invariant cfg w :
  reachable cfg w -> running_invariant cfg w.
Proof.
  induction 1 as [w H | i w w' _ IH Hsd H].
  - now apply (running_invariant_init cfg).
  - exact (running_invariant_step cfg i w w' IH Hsd H).
Qed.

Lemma run_button_fn_total cfg f : total (run_button_fn cfg f NULL).
Proof. destruct f; cbn [run_button_fn]; totality. Qed.

Lemma fire_defined cfg t w :
  running_invariant cfg w -> exists w', fire cfg t w = Some (tt, w').
Proof.
  intros (Hreg & _ & Hctx & _). unfold fire.
  destruct (Tasklet.find t (queue w)) as [e|] eqn:Hq; [|eauto].
  rewrite Hreg.
  assert (Hu : forall (m : M unit) w0, total m -> exists w', m w0 = Some (tt, w')).
  { intros m w0 Hm. destruct (Hm w0) as ([] & w' & E). eauto. }
  destruct t; cbn [registry run_tasklet_fn].
  - apply Hu. totality.
  - apply find_In in Hq. destruct Hq as [Hin Ht].
    rewrite (Hctx e Hin Ht). apply Hu. totality.
  - destruct (SLEEPY cfg); [apply Hu; totality | eauto].
  - eauto.
Qed.

Lemma handle_defined cfg i w :
  running_invariant cfg w ->
  (forall d v, i <> ResetCb d v) ->
  exists w', handle cfg i w = Some (tt, w').
Proof.
  intros Hinv Hne.
  assert (Hu : forall (m : M unit) w0, total m -> exists w', m w0 = Some (tt, w')).
  { intros m w0 Hm. destruct (Hm w0) as ([] & w' & E). eauto. }
  assert (Hb : forall reg, total (deliver cfg reg)).
  { intros [f|]; cbn [deliver]; auto using total_ret, run_button_fn_total. }
  destruct i; cbn [handle].
  - apply Hu. totality.
  - unfold run_due. destruct (Tasklet.find t (queue w)); [|eauto].
    destruct (q_due q <=? clock w); [|eauto]. now apply fire_defined.
  - apply Hu. apply total_bind; auto using total_read.
  - apply Hu. apply total_bind; auto using total_read.
  - apply Hu. apply total_bind; auto using total_read.
  - apply Hu. totality.
  - now destruct (Hne device_index reset_value).
  - apply Hu. totality.
  - apply Hu. totality.
  - apply Hu. totality.
Qed.

Lemma handle_roles cfg i p : preserves (fun w => role (pins w p)) (handle cfg i).
Proof.
  destruct i; cbn [handle]; try (frame; fail).
  apply run_due_preserves; [reflexivity | intros; frame].
Qed.

Lemma init_roles cfg w p :
  hardware_init cfg boot = Some (tt, w) -> role (pins w p) = roles cfg p.
Proof.
  unfold hardware_init, knx_specific_init, programming_mode_init, reset_init.
  destruct (SLEEPY cfg) eqn:Hs, (SLEEPY_USE_LED cfg); cbn; intros H;
    inversion H; subst; destruct p; cbn; rewrite ?Hs; reflexivity.
Qed.

Lemma reachable_roles cfg w p : reachable cfg w -> role (pins w p) = roles cfg p.
Proof.
  induction 1 as [w H | i w w' _ IH Hsd H].
  - now apply (init_roles cfg).
  - now rewrite (handle_roles cfg i p _ _ _ H).
Qed.

Lemma initialised_reachable : reachable example_cfg initialised.
Proof. apply reachable_init. reflexivity. Qed.

Lemma programming_reachable : reachable example_cfg programming.
Proof.
  apply (reachable_step example_cfg
           (ButtonShortPress TRIGGER_FOR_PROGRAMMING_MODE_AND_RESET) initialised).
  - exact initialised_reachable.
  - exact I.
  - reflexivity.
Qed.

Lemma reset_started_reachable : reachable example_cfg reset_started.
Proof.
  apply (reachable_step example_cfg
           (ButtonHold TRIGGER_FOR_PROGRAMMING_MODE_AND_RESET) initialised).
  - exact initialised_reachable.
  - exact I.
  - reflexivity.
Qed.

(** ** What holds in every reachable world *)

(** X1.  In every world the running single-device system can reach, the
    programming-mode flicker tasklet is armed exactly when [THIS_DEVICE]
    is in programming mode. *)
Theorem flicker_armed_iff_in_programming_mode cfg w :
  reachable cfg w ->
  is_queued g_programming_mode_handler w = programming_mode w THIS_DEVICE.
Proof. intros H. apply (reachable_running_invariant cfg w H). Qed.

Lemma flicker_armed_iff_in_programming_mode_witness :
  reachable example_cfg programming
  /\ is_queued g_programming_mode_handler programming = true
  /\ programming_mode programming THIS_DEVICE = true.
Proof.
  split; [exact programming_reachable|].
  rewrite (flicker_armed_iff_in_programming_mode example_cfg programming
             programming_reachable).
  split; reflexivity.
Defined.

(** X2.  In every reachable world the iteration counter of the reset
    feedback lies between 0 and the flicker count (the 8-bit counter
    never wraps), [state_snapshot] holds KNX_RESET or THREAD_RESET, and a
    queued feedback tasklet carries the address of [state_snapshot],
    never [NULL]. *)
Theorem reset_feedback_bookkeeping cfg w :
  reachable cfg w ->
  0 <= count w <= RESET_INDICATOR_FLICKER_COUNT
  /\ (state_snapshot w = KNX_RESET \/ state_snapshot w = THREAD_RESET)
  /\ (forall e, Tasklet.find g_reset_done_indicator (queue w) = Some e ->
                q_context e = addr_state_snapshot).
Proof.
  intros H. destruct (reachable_running_invariant cfg w H) as (_ & _ & Hc & Hn & Hs).
  repeat split; try apply Hn; auto.
  intros e He. apply find_In in He. destruct He as [Hin Ht]. now apply Hc.
Qed.

Lemma reset_feedback_bookkeeping_witness :
  reachable example_cfg reset_started
  /\ count reset_started = 0
  /\ state_snapshot reset_started = KNX_RESET
  /\ option_map q_context (Tasklet.find g_reset_done_indicator (queue reset_started))
     = Some addr_state_snapshot.
Proof.
  pose proof (reset_feedback_bookkeeping example_cfg reset_started
                reset_started_reachable) as (_ & _ & Hc).
  split; [exact reset_started_reachable|]. split; [reflexivity|].
  split; [reflexivity|].
  destruct (Tasklet.find g_reset_done_indicator (queue reset_started)) as [e|] eqn:E;
    [|discriminate E].
  cbn. now rewrite (Hc e eq_refl).
Defined.

(** X3.  Nothing the running device handles re-registers anything: in
    every reachable world the button callbacks, the tasklet callbacks and
    the roles of the four LED/button positions are those [hardware_init]
    set up. *)
Theorem wiring_fixed_after_init cfg w :
  reachable cfg w ->
  (forall i, registered i w = wiring i)
  /\ (forall t, callback w t = registry cfg t)
  /\ (forall p, role (pins w p) = roles cfg p).
Proof.
  intros H. repeat split.
  - intros i. now apply (reachable_registered cfg).
  - apply (reachable_running_invariant cfg w H).
  - intros p. now apply reachable_roles.
Qed.

Lemma wiring_fixed_after_init_witness :
  reachable example_cfg programming
  /\ registered (ButtonHold TRIGGER_FOR_PROGRAMMING_MODE_AND_RESET) programming
     = Some fn_reset_hold_cb
  /\ registered (ButtonHold LSSB_BUTTON) programming = None
  /\ role (pins programming PROGRAMMING_MODE_INDICATOR) = Some LEDOutput.
Proof.
  destruct (wiring_fixed_after_init example_cfg programming programming_reachable)
    as (Hb & _ & Hr).
  split; [exact programming_reachable|].
  rewrite !Hb, Hr. repeat split.
Defined.

(** X4.  In every reachable world every input is handled without
    undefined behaviour, except the reset callback of the KNX stack:
    [reset_embedded] calls [reset_done_feedback(NULL)], which dereferences
    its argument, in every world. *)
Theorem only_reset_cb_is_undefined cfg i w :
  reachable cfg w ->
  (handle cfg i w = None <-> exists d v, i = ResetCb d v).
Proof.
  intros H. split.
  - intros Hn. pose proof (reachable_running_invariant cfg w H) as Hinv.
    destruct i;
      try (exfalso;
           match type of Hn with
           | handle _ ?j _ = None =>
               destruct (handle_defined cfg j w Hinv) as (w' & E);
               [intros d v; discriminate | rewrite E in Hn; discriminate]
           end).
    eauto.
  - intros (d & v & ->). reflexivity.
Qed.

Lemma only_reset_cb_is_undefined_witness :
  reachable example_cfg reset_started
  /\ handle example_cfg (ResetCb 0 2) reset_started = None
  /\ handle example_cfg (SchedulerTick g_reset_done_indicator) reset_started <> None.
Proof.
  pose proof (only_reset_cb_is_undefined example_cfg (ResetCb 0 2) reset_started
                reset_started_reachable) as H1.
  pose proof (only_reset_cb_is_undefined example_cfg
                (SchedulerTick g_reset_done_indicator) reset_started
                reset_started_reachable) as H2.
  split; [exact reset_started_reachable|]. split.
  - apply H1. eauto.
  - intros Hn. apply H2 in Hn. destruct Hn as (d & v & Hn). discriminate Hn.
Defined.

(** ** The short press and the flicker *)

(** X5.  Whatever the state before, a short press of the trigger flips
    the programming-mode flag of [THIS_DEVICE] and leaves the flicker
    tasklet armed exactly when the device is then in programming mode;
    on leaving, the indicator LED is off; it logs the events of entry or
    of exit and never touches the reset state. *)
Theorem short_press_toggles_programming_mode cfg c w :
  exists w',
    prog_mode_short_press_cb cfg c w = Some (tt, w')
    /\ programming_mode w' THIS_DEVICE = negb (programming_mode w THIS_DEVICE)
    /\ is_queued g_programming_mode_handler w' = programming_mode w' THIS_DEVICE
    /\ (programming_mode w THIS_DEVICE = true ->
        level (pins w' PROGRAMMING_MODE_INDICATOR) = LED_OFF cfg)
    /\ new_events w w'
       = (if programming_mode w THIS_DEVICE then exit_events cfg THIS_DEVICE
          else enter_events cfg THIS_DEVICE)
    /\ g_reset_state w' = g_reset_state w.
Proof.
  unfold prog_mode_short_press_cb, oc_knx_device_in_programming_mode. run.
  destruct (programming_mode w THIS_DEVICE) eqn:Hpm.
  - destruct (exit_programming_mode_defined cfg THIS_DEVICE w)
      as (w' & E & L & P & _ & Q & _ & V & R & _).
    exists w'. rewrite (new_events_app _ _ _ L). repeat split; auto. congruence.
  - destruct (enter_programming_mode_defined cfg THIS_DEVICE w)
      as (w' & E & L & P & _ & Q & _ & _ & _ & R).
    exists w'. rewrite (new_events_app _ _ _ L). repeat split; auto; try discriminate.
    unfold is_queued. now rewrite Q, P.
Qed.

Lemma wait_and_fire_flicker cfg w due c :
  callback w g_programming_mode_handler = Some fn_programming_mode_handler ->
  Tasklet.find g_programming_mode_handler (queue w)
  = Some (mkQueued g_programming_mode_handler due c) ->
  exists w',
    wait_and_fire cfg g_programming_mode_handler w = Some (tt, w')
    /\ callback w' = callback w
    /\ clock w' = Z.max (clock w) due
    /\ Tasklet.find g_programming_mode_handler (queue w')
       = Some (mkQueued g_programming_mode_handler
                 (clock w' + PROGRAMMING_MODE_INDICATOR_FLASHING_PERIOD_MS / 2) NULL)
    /\ log w' = log w ++ blinks 1 (level (pins w PROGRAMMING_MODE_INDICATOR))
    /\ level (pins w' PROGRAMMING_MODE_INDICATOR)
       = lnot (level (pins w PROGRAMMING_MODE_INDICATOR))
    /\ programming_mode w' = programming_mode w.
Proof.
  intros Hcb Hq. unfold wait_and_fire. rewrite Hq. unfold fire.
  cbn [queue set_time callback]. rewrite Hq, Hcb. cbn [run_tasklet_fn q_context q_due].
  unfold programming_mode_handler, DVBD_Sense, DVBD_SetLED, TASKLET_ScheduleDelta. run.
  eexists. split; [reflexivity|]. cbn.
  rewrite <- app_assoc, find_cons. cbn. repeat split.
Qed.

Lemma flicker_run cfg n w due c :
  callback w g_programming_mode_handler = Some fn_programming_mode_handler ->
  Tasklet.find g_programming_mode_handler (queue w)
  = Some (mkQueued g_programming_mode_handler due c) ->
  exists w',
    repeat_m (S n) (wait_and_fire cfg g_programming_mode_handler) w = Some (tt, w')
    /\ log w' = log w ++ blinks (S n) (level (pins w PROGRAMMING_MODE_INDICATOR))
    /\ level (pins w' PROGRAMMING_MODE_INDICATOR)
       = Nat.iter (S n) lnot (level (pins w PROGRAMMING_MODE_INDICATOR))
    /\ clock w' = Z.max (clock w) due + 500 * Z.of_nat n
    /\ Tasklet.find g_programming_mode_handler (queue w')
       = Some (mkQueued g_programming_mode_handler (clock w' + 500) NULL)
    /\ programming_mode w' = programming_mode w.
Proof.
  revert w due c. induction n as [|n IH]; intros w due c Hcb Hq.
  - destruct (wait_and_fire_flicker cfg w due c Hcb Hq)
      as (w' & E & _ & C & Q & L & V & P).
    exists w'. cbn [repeat_m]. unfold bind. rewrite E. cbn [ret].
    repeat split; auto. lia.
  - destruct (wait_and_fire_flicker cfg w due c Hcb Hq)
      as (w1 & E1 & Hcb1 & C1 & Q1 & L1 & V1 & P1).
    rewrite <- Hcb1 in Hcb.
    destruct (IH w1 _ _ Hcb Q1) as (w' & E & L & V & C & Q & P).
    exists w'. change (repeat_m (S (S n)) ?m) with (bind m (fun _ => repeat_m (S n) m)).
    unfold bind at 1. rewrite E1, E.
    split; [reflexivity|]. split; [|split; [|split; [|split]]].
    + rewrite L, L1, V1, <- app_assoc. reflexivity.
    + rewrite V, V1. apply Nat.iter_swap.
    + rewrite C, C1.
      unfold PROGRAMMING_MODE_INDICATOR_FLASHING_PERIOD_MS.
      change (1000 / 2) with 500. lia.
    + exact Q.
    + congruence.
Qed.

(** X6.  The programming-mode flicker never stops by itself: once armed
    with its callback bound, any number of firings toggles the indicator
    LED each time, half a flashing period (500 ms) apart, leaves the flag
    as it is and leaves the tasklet armed for the next firing. *)
Theorem flicker_runs_until_cancelled cfg n w due c :
  callback w g_programming_mode_handler = Some fn_programming_mode_handler ->
  Tasklet.find g_programming_mode_handler (queue w)
  = Some (mkQueued g_programming_mode_handler due c) ->
  exists w',
    repeat_m (S n) (wait_and_fire cfg g_programming_mode_handler) w = Some (tt, w')
    /\ new_events w w' = blinks (S n) (level (pins w PROGRAMMING_MODE_INDICATOR))
    /\ level (pins w' PROGRAMMING_MODE_INDICATOR)
       = Nat.iter (S n) lnot (level (pins w PROGRAMMING_MODE_INDICATOR))
    /\ clock w' = Z.max (clock w) due + 500 * Z.of_nat n
    /\ Tasklet.find g_programming_mode_handler (queue w')
       = Some (mkQueued g_programming_mode_handler (clock w' + 500) NULL)
    /\ programming_mode w' = programming_mode w.
Proof.
  intros Hcb Hq.
  destruct (flicker_run cfg n w due c Hcb Hq) as (w' & E & L & R).
  exists w'. rewrite (new_events_app _ _ _ L). auto.
Qed.

Lemma flicker_runs_until_cancelled_witness :
  callback programming g_programming_mode_handler = Some fn_programming_mode_handler
  /\ Tasklet.find g_programming_mode_handler (queue programming)
     = Some (mkQueued g_programming_mode_handler 0 NULL)
  /\ exists w',
      repeat_m 4 (wait_and_fire example_cfg g_programming_mode_handler) programming
      = Some (tt, w')
      /\ clock w' = 1500
      /\ is_queued g_programming_mode_handler w' = true.
Proof.
  split; [reflexivity|]. split; [reflexivity|].
  destruct (flicker_runs_until_cancelled example_cfg 3 programming 0 NULL
              eq_refl eq_refl) as (w' & E & _ & _ & C & Q & _).
  exists w'. split; [exact E|]. split; [exact C|].
  unfold is_queued. now rewrite Q.
Defined.

(** * Further properties of the sleep path *)

Lemma hardware_sleep_outcome cfg n w :
  exists w1 w',
    arm_keep_alive cfg w = Some (tt, w1)
    /\ hardware_sleep cfg n w = Some (tt, w')
    /\ is_queued g_sed_poll_tasklet w' = true
    /\ sleep_events (new_events w w')
       = (if (sleep_duration cfg n w1 >? 100) && sleep_after_joining cfg w
          then [sleep_duration cfg n w1] else [])
    /\ ((sleep_duration cfg n w1 >? 100) && sleep_after_joining cfg w = false ->
        w' = w1).
Proof.
  destruct (hardware_sleep_cases cfg n w) as (w1 & E & Q & L & C & _ & Hc).
  rewrite Hc. clear Hc.
  destruct ((sleep_duration cfg n w1 >? 100) && sleep_after_joining cfg w) eqn:Hgo.
  - destruct (suspend_defined (sleep_duration cfg n w1) w1) as (w2 & E2 & L2 & Q2 & _).
    exists w1, w2. rewrite Hgo. repeat split; auto; try discriminate.
    + unfold is_queued in *. now rewrite Q2.
    + rewrite L, <- app_assoc in L2. rewrite (new_events_app _ _ _ L2).
      destruct (is_queued g_sed_poll_tasklet w); reflexivity.
  - exists w1, w1. rewrite Hgo. repeat split; auto.
    rewrite (new_events_app _ _ _ L). apply no_sleep_in_keep_alive.
Qed.

(** X7.  [hardware_sleep] always returns, with the keep-alive data poll
    queued.  It suspends the device, once, exactly when the time left
    after the clamp exceeds 100 ms and the minimum awake time has passed
    or the Thread role is not Detached; otherwise the only thing it may
    have done is to schedule the keep-alive. *)
Theorem hardware_sleep_decision cfg n w :
  exists w1 w',
    arm_keep_alive cfg w = Some (tt, w1)
    /\ hardware_sleep cfg n w = Some (tt, w')
    /\ is_queued g_sed_poll_tasklet w' = true
    /\ sleep_events (new_events w w')
       = (if (sleep_duration cfg n w1 >? 100)
             && (has_min_awake_time_passed cfg w
                 || negb (otDeviceRole_eqb (device_role w) OT_DEVICE_ROLE_DETACHED))
          then [sleep_duration cfg n w1] else [])
    /\ ((sleep_duration cfg n w1 >? 100)
        && (has_min_awake_time_passed cfg w
            || negb (otDeviceRole_eqb (device_role w) OT_DEVICE_ROLE_DETACHED)) = false ->
        w' = w1).
Proof. exact (hardware_sleep_outcome cfg n w). Qed.

Lemma u32_idem x : u32 (u32 x) = u32 x.
Proof. unfold u32. apply Z.mod_mod. lia. Qed.

Lemma u32_sub x y : u32 (u32 x - u32 y) = u32 (x - y).
Proof. unfold u32. now rewrite <- Zminus_mod. Qed.

Lemma u32_add_l x y : u32 (u32 x + y) = u32 (x + y).
Proof. unfold u32. now rewrite Zplus_mod_idemp_l. Qed.

(** [TIME_Cmp] on tick counters agrees with the order of the times they
    were read at, as long as those are less than 2^31 ms apart. *)
Lemma TIME_Cmp_window a b :
  - 2 ^ 31 <= a - b < 2 ^ 31 ->
  TIME_Cmp (u32 a) (u32 b) = a - b.
Proof.
  intros H. unfold TIME_Cmp. rewrite u32_sub. unfold u32.
  destruct (Z_lt_le_dec (a - b) 0) as [Hneg|Hpos].
  - rewrite <- (Z_mod_plus_full (a - b) 1 (2 ^ 32)).
    rewrite Z.mod_small by lia.
    destruct (a - b + 1 * 2 ^ 32 <? 2 ^ 31) eqn:E;
      [apply Z.ltb_lt in E|]; lia.
  - rewrite Z.mod_small by lia.
    destruct (a - b <? 2 ^ 31) eqn:E; [|apply Z.ltb_ge in E]; lia.
Qed.

Lemma has_min_awake_time_passed_window cfg w t0 :
  g_time_of_last_wake w = u32 t0 ->
  0 < SED_MIN_AWAKE_TIME cfg < 2 ^ 31 ->
  t0 <= clock w < t0 + SED_MIN_AWAKE_TIME cfg + 2 ^ 31 ->
  has_min_awake_time_passed cfg w
  = (t0 + SED_MIN_AWAKE_TIME cfg <=? clock w).
Proof.
  intros Hw Hm Hc. unfold has_min_awake_time_passed.
  rewrite Hw, u32_add_l, TIME_Cmp_window by lia.
  destruct (t0 + SED_MIN_AWAKE_TIME cfg <=? clock w) eqn:E;
    [apply Z.leb_le in E; apply Z.geb_le | apply Z.leb_gt in E]; lia.
Qed.

(** X8.  A Detached device whose last wake was at time [t0] does not
    suspend again before [t0 + SED_MIN_AWAKE_TIME]; from then on (within
    the 2^31 ms the tick comparison covers) it suspends as soon as the
    clamped time left exceeds 100 ms. *)
Theorem detached_device_stays_awake_min_time cfg n w t0 :
  device_role w = OT_DEVICE_ROLE_DETACHED ->
  g_time_of_last_wake w = u32 t0 ->
  0 < SED_MIN_AWAKE_TIME cfg < 2 ^ 31 ->
  t0 <= clock w < t0 + SED_MIN_AWAKE_TIME cfg + 2 ^ 31 ->
  exists w1 w',
    arm_keep_alive cfg w = Some (tt, w1)
    /\ hardware_sleep cfg n w = Some (tt, w')
    /\ (clock w < t0 + SED_MIN_AWAKE_TIME cfg ->
        sleep_events (new_events w w') = [])
    /\ (t0 + SED_MIN_AWAKE_TIME cfg <= clock w ->
        100 < sleep_duration cfg n w1 ->
        sleep_events (new_events w w') = [sleep_duration cfg n w1]
        /\ g_time_of_last_wake w' = u32 (clock w')).
Proof.
  intros Hr Hw Hm Hc.
  destruct (hardware_sleep_cases cfg n w) as (w1 & E & Q & L & C & _ & Hs).
  assert (Hj : sleep_after_joining cfg w = (t0 + SED_MIN_AWAKE_TIME cfg <=? clock w)).
  { unfold sleep_after_joining.
    rewrite (has_min_awake_time_passed_window cfg w t0 Hw Hm Hc), Hr.
    cbn. apply orb_false_r. }
  rewrite Hj in Hs.
  destruct (suspend_defined (sleep_duration cfg n w1) w1) as (w2 & E2 & L2 & _ & _ & T2).
  destruct ((sleep_duration cfg n w1 >? 100) && (t0 + SED_MIN_AWAKE_TIME cfg <=? clock w))
    eqn:Hgo; rewrite Hs.
  - apply andb_prop in Hgo. destruct Hgo as [Hd Ht]. apply Z.leb_le in Ht.
    exists w1, w2. rewrite E2. repeat split; auto; try lia.
    rewrite L, <- app_assoc in L2. rewrite (new_events_app _ _ _ L2).
    destruct (is_queued g_sed_poll_tasklet w); reflexivity.
  - exists w1, w1. split; [exact E|]. split; [reflexivity|]. split.
    + intros _. rewrite (new_events_app _ _ _ L). apply no_sleep_in_keep_alive.
    + intros Ht Hd. exfalso. apply andb_false_iff in Hgo.
      destruct Hgo as [Hgo|Hgo];
        [rewrite Z.gtb_ltb in Hgo; apply Z.ltb_ge in Hgo | apply Z.leb_gt in Hgo]; lia.
Qed.

Lemma detached_device_stays_awake_min_time_witness :
  device_role (detached 500) = OT_DEVICE_ROLE_DETACHED
  /\ g_time_of_last_wake (detached 500) = u32 0
  /\ exists w',
      hardware_sleep example_cfg 2147483647 (detached 500) = Some (tt, w')
      /\ sleep_events (new_events (detached 500) w') = [].
Proof.
  split; [reflexivity|]. split; [reflexivity|].
  destruct (detached_device_stays_awake_min_time example_cfg 2147483647
              (detached 500) 0 eq_refl eq_refl)
    as (w1 & w' & _ & E & Hno & _).
  - cbn. lia.
  - cbn. lia.
  - exists w'. split; [exact E|]. apply Hno. cbn. lia.
Defined.

Lemma next_app_event_range t :
  0 <= t < 2 ^ 64 ->
  1 <= next_app_event t <= 2147483647
  /\ (0 < t -> next_app_event t <= t).
Proof.
  intros Ht. unfold next_app_event.
  destruct (t >? 2147483647) eqn:E1; cbn [orb].
  - rewrite Z.gtb_ltb in E1. apply Z.ltb_lt in E1. lia.
  - rewrite Z.gtb_ltb in E1. apply Z.ltb_ge in E1.
    destruct (t =? 0) eqn:E2.
    + apply Z.eqb_eq in E2. lia.
    + apply Z.eqb_neq in E2. unfold u32. rewrite Z.mod_small; lia.
Qed.

(** X9.  Whatever 64-bit time to the next application event the main
    loop passes, [sleep_if_possible] suspends the device at most once per
    call, for more than 100 ms, for at most 2^31 - 1 ms, and for no
    longer than that time when it is not 0 ("no event pending"). *)
Theorem sleep_if_possible_duration_bounds cfg t w :
  0 <= t < 2 ^ 64 ->
  exists w',
    sleep_if_possible cfg t w = Some (tt, w')
    /\ (sleep_events (new_events w w') = []
        \/ exists d,
            sleep_events (new_events w w') = [d]
            /\ 100 < d <= 2147483647
            /\ (0 < t -> d <= t)).
Proof.
  intros Ht.
  assert (Hsame : sleep_events (new_events w w) = []).
  { unfold new_events. now rewrite skipn_all. }
  unfold sleep_if_possible, PlatformCanSleep, hardware_can_sleep, DVBD_CanSleep,
    oc_knx_device_in_programming_mode. run.
  destruct (platform_can_sleep w); cbn [negb]; [|eauto].
  destruct (dvbd_can_sleep w); cbn [negb]; [|eauto].
  destruct (programming_mode w THIS_DEVICE); cbn [negb]; [eauto|].
  fold (next_app_event t).
  destruct (hardware_sleep_outcome cfg (next_app_event t) w)
    as (w1 & w' & _ & E & _ & Hs & _).
  exists w'. split; [exact E|]. rewrite Hs.
  destruct ((sleep_duration cfg (next_app_event t) w1 >? 100)
            && sleep_after_joining cfg w) eqn:Hgo; [right|now left].
  apply andb_prop in Hgo. destruct Hgo as [Hd _].
  rewrite Z.gtb_ltb in Hd. apply Z.ltb_lt in Hd.
  exists (sleep_duration cfg (next_app_event t) w1). split; [reflexivity|].
  assert (Hle : sleep_duration cfg (next_app_event t) w1 <= next_app_event t).
  { unfold sleep_duration.
    destruct (Tasklet.time_to_next (clock w1) (queue w1)) as [x|];
      match goal with |- (if ?a >? ?b then _ else _) <= _ =>
        rewrite (Z.gtb_ltb a b); destruct (b <? a) eqn:G;
        [|apply Z.ltb_ge in G]; lia end. }
  pose proof (next_app_event_range t Ht). lia.
Qed.

Lemma sleep_if_possible_duration_bounds_witness :
  exists w',
    sleep_if_possible example_cfg 3000 (attached 0) = Some (tt, w')
    /\ sleep_events (new_events (attached 0) w') = [3000].
Proof.
  destruct (sleep_if_possible_duration_bounds example_cfg 3000 (attached 0))
    as (w' & E & _); [lia|].
  exists w'. split; [exact E|].
  assert (E' : sleep_if_possible example_cfg 3000 (attached 0)
               = Some (tt, world_after (sleep_if_possible example_cfg 3000) (attached 0)))
    by reflexivity.
  rewrite E' in E. inversion E; subst. reflexivity.
Defined.

(** * Properties of knx_iot_sleepy_main.c *)

Import SerialDispatch.

(** The dispatcher, by cases on whether it reads [buf[2]]. *)
Lemma ot_serial_dispatch_cases k b0 rest :
  ot_serial_dispatch k (b0 :: rest)
  = if (b0 =? KNX_COMMAND) || (b0 =? EVBME_SET_REQUEST k)
    then match nth_error rest 1 with
         | None => None
         | Some b2 =>
             Some (0, (if b0 =? KNX_COMMAND then knx_command b2 else [])
                      ++ (if ((b0 =? EVBME_SET_REQUEST k) && (b2 =? EVBME_RESETRF k))
                             || (b0 =? EVBME_HOST_CONNECTED k)
                          then [SwitchClock 0] else []))
         end
    else Some (0, if b0 =? EVBME_HOST_CONNECTED k then [SwitchClock 0] else []).
Proof.
  unfold ot_serial_dispatch, byte_at.
  change (nth_error (b0 :: rest) 0) with (Some b0).
  change (nth_error (b0 :: rest) 2) with (nth_error rest 1).
  cbv beta zeta.
  destruct (nth_error rest 1) as [b2|];
    destruct (b0 =? KNX_COMMAND); destruct (b0 =? EVBME_SET_REQUEST k);
    reflexivity.
Qed.

Lemma knx_command_no_switch b2 : ~ In (SwitchClock 0) (knx_command b2).
Proof.
  unfold knx_command.
  repeat match goal with |- context [if ?c then _ else _] => destruct c end;
    cbn; intuition discriminate.
Qed.

(** X10.  [ot_serial_dispatch] never looks at the length of the message:
    it reads [buf[0]] always and [buf[2]] whenever [buf[0]] is the KNX
    command code or the EVBME set-request code, so exactly the empty
    message and the 1- or 2-byte messages with those codes are read past
    their end.  Otherwise it returns 0, whatever the message; a message
    that is not a KNX command triggers none of the three resets; and the
    clock is switched only for the set-request and host-connected codes. *)
Theorem ot_serial_dispatch_never_checks_len k buf :
  (ot_serial_dispatch k buf = None <->
   buf = []
   \/ ((List.length buf < 3)%nat
       /\ (hd 0 buf = KNX_COMMAND \/ hd 0 buf = EVBME_SET_REQUEST k)))
  /\ (forall r acts,
         ot_serial_dispatch k buf = Some (r, acts) ->
         r = 0
         /\ (hd 0 buf <> KNX_COMMAND -> forall a, In a acts -> a = SwitchClock 0)
         /\ (hd 0 buf <> EVBME_SET_REQUEST k ->
             hd 0 buf <> EVBME_HOST_CONNECTED k ->
             ~ In (SwitchClock 0) acts)).
Proof.
  destruct buf as [|b0 rest].
  { split; [split; auto | discriminate]. }
  rewrite ot_serial_dispatch_cases. cbn [hd List.length].
  assert (Hlen : nth_error rest 1 = None <-> (S (List.length rest) < 3)%nat)
    by (rewrite nth_error_None; lia).
  destruct (b0 =? KNX_COMMAND) eqn:E1; [apply Z.eqb_eq in E1|apply Z.eqb_neq in E1];
    (destruct (b0 =? EVBME_SET_REQUEST k) eqn:E2;
     [apply Z.eqb_eq in E2|apply Z.eqb_neq in E2]);
    (destruct (b0 =? EVBME_HOST_CONNECTED k) eqn:E3;
     [apply Z.eqb_eq in E3|apply Z.eqb_neq in E3]);
    cbn [orb andb app]; rewrite ?orb_true_r, ?orb_false_r, ?app_nil_r.
  all: split;
    [ first
        [ (* [buf[2]] is read *)
          destruct (nth_error rest 1) as [b2|];
          [ split; [discriminate|];
            intros [H|[H _]]; [discriminate H | apply Hlen in H; discriminate H]
          | split; [|reflexivity];
            intros _; right; split; [apply Hlen; reflexivity | tauto] ]
        | (* only [buf[0]] is read *)
          split; [discriminate | intros [H|[_ [H|H]]]; [discriminate H|..]; contradiction] ]
    | intros r acts H;
      try (destruct (nth_error rest 1) as [b2|]; [|discriminate H]);
      inversion H; subst r acts; clear H;
      split; [reflexivity|]; split;
      [ intros Hk; try contradiction; intros a;
        repeat match goal with |- context [if ?c then _ else _] => destruct c end;
        cbn; intuition
      | intros Hs Hh; try contradiction;
        rewrite ?app_nil_r; try apply knx_command_no_switch; cbn; tauto ] ].
Qed.

Lemma ot_serial_dispatch_never_checks_len_witness :
  ot_serial_dispatch (mkEvbme 95 0 129) [KNX_COMMAND; 0] = None.
Proof.
  apply (proj1 (ot_serial_dispatch_never_checks_len (mkEvbme 95 0 129) [KNX_COMMAND; 0])).
  right. split; [cbn; lia | left; reflexivity].
Defined.


Import Main.

(** While the cooldown timer is below 30 an iteration only counts and
    waits. *)
Lemma join_loop_idle try_join d :
  forall t a w fuel,
    0 <= t -> t + Z.of_nat d = 30 ->
    join_loop (d + fuel) try_join t a w = join_loop fuel try_join 30 a (d + w).
Proof.
  induction d as [|d IH]; intros t a w fuel Ht Hd.
  - replace t with 30 by lia. reflexivity.
  - cbn [Nat.add join_loop].
    destruct (t =? 30) eqn:E; [apply Z.eqb_eq in E; lia|].
    replace (u32 (t + 1)) with (t + 1) by (unfold u32; rewrite Z.mod_small; lia).
    rewrite IH by lia. f_equal. lia.
Qed.

Lemma join_loop_idle_short try_join fuel :
  forall t a w,
    0 <= t -> t + Z.of_nat fuel <= 30 ->
    join_loop fuel try_join t a w = OutOfFuel.
Proof.
  induction fuel as [|fuel IH]; intros t a w Ht Hd; [reflexivity|].
  cbn [join_loop].
  destruct (t =? 30) eqn:E; [apply Z.eqb_eq in E; lia|].
  replace (u32 (t + 1)) with (t + 1) by (unfold u32; rewrite Z.mod_small; lia).
  apply IH; lia.
Qed.

(** From an iteration that attempts to join: the [n] failures cost 30
    iterations each. *)
Lemma join_loop_attempts try_join n :
  forall a w fuel,
    (forall k, (k < n)%nat -> joined (try_join (a + k)%nat) = false) ->
    joined (try_join (a + n)%nat) = true ->
    join_loop fuel try_join 30 a w
    = if (30 * n <? fuel)%nat then Returns (S (a + n), (w + 30 * n)%nat) else OutOfFuel.
Proof.
  induction n as [|n IH]; intros a w fuel Hfail Hok.
  - rewrite Nat.add_0_r in *. rewrite Nat.mul_0_r, Nat.add_0_r.
    destruct fuel as [|fuel]; [reflexivity|].
    cbn [join_loop Z.eqb Pos.eqb]. change (30 =? 30) with true. cbv iota zeta.
    rewrite Hok. reflexivity.
  - destruct fuel as [|fuel]; [reflexivity|].
    cbn [join_loop]. change (30 =? 30) with true. cbv iota zeta.
    pose proof (Hfail 0%nat ltac:(lia)) as H0. rewrite Nat.add_0_r in H0. rewrite H0.
    change (u32 (0 + 1)) with 1.
    destruct (Nat.ltb_spec (30 * S n) (S fuel)) as [Hlt|Hge].
    + destruct (Nat.le_gt_cases fuel 28) as [Hs|Hl]; [lia|].
      replace fuel with (29 + (fuel - 29))%nat by lia.
      rewrite (join_loop_idle try_join 29) by lia.
      rewrite (IH (S a) (29 + S w)%nat (fuel - 29)%nat).
      * destruct (Nat.ltb_spec (30 * n) (fuel - 29)) as [_|Hc]; [|lia].
        f_equal. f_equal; lia.
      * intros k Hk. replace (S a + k)%nat with (a + S k)%nat by lia.
        apply Hfail. lia.
      * replace (S a + n)%nat with (a + S n)%nat by lia. exact Hok.
    + destruct (Nat.le_gt_cases fuel 29) as [Hs|Hl].
      * apply join_loop_idle_short; lia.
      * replace fuel with (29 + (fuel - 29))%nat by lia.
        rewrite (join_loop_idle try_join 29) by lia.
        rewrite (IH (S a) (29 + S w)%nat (fuel - 29)%nat).
        -- destruct (Nat.ltb_spec (30 * n) (fuel - 29)) as [Hc|_]; [lia|reflexivity].
        -- intros k Hk. replace (S a + k)%nat with (a + S k)%nat by lia.
           apply Hfail. lia.
        -- replace (S a + n)%nat with (a + S n)%nat by lia. exact Hok.
Qed.

Lemma join_loop_never try_join fuel :
  (forall k, joined (try_join k) = false) ->
  forall t a w, 0 <= t <= 30 -> join_loop fuel try_join t a w = OutOfFuel.
Proof.
  intros Hfail. induction fuel as [|fuel IH]; intros t a w Ht; [reflexivity|].
  cbn [join_loop].
  destruct (t =? 30) eqn:E.
  - rewrite Hfail. cbv zeta. apply IH. change (u32 (0 + 1)) with 1. lia.
  - apply Z.eqb_neq in E.
    replace (u32 (t + 1)) with (t + 1) by (unfold u32; rewrite Z.mod_small; lia).
    apply IH. lia.
Qed.

(** X11.  The join loop of [main] makes its first attempt only after 30
    waits of 200 ms, and one more every 30 waits: when the attempts
    0 .. n-1 fail and attempt [n] succeeds, the loop is left after exactly
    [n + 1] attempts and [30 * (n + 1)] waits, which takes
    [30 * (n + 1) + 1] iterations, and not before. *)
Theorem join_network_backoff try_join n fuel :
  (forall k, (k < n)%nat -> joined (try_join k) = false) ->
  joined (try_join n) = true ->
  join_network fuel try_join
  = if (30 * S n <? fuel)%nat then Returns (S n, (30 * S n)%nat) else OutOfFuel.
Proof.
  intros Hfail Hok. unfold join_network.
  destruct (Nat.le_gt_cases fuel 30) as [Hs|Hl].
  - rewrite join_loop_idle_short by lia.
    destruct (Nat.ltb_spec (30 * S n) fuel); [lia|reflexivity].
  - replace fuel with (30 + (fuel - 30))%nat at 1 by lia.
    rewrite (join_loop_idle try_join 30) by lia.
    rewrite (join_loop_attempts try_join n 0%nat) by assumption.
    destruct (Nat.ltb_spec (30 * n) (fuel - 30)), (Nat.ltb_spec (30 * S n) fuel);
      try lia; try reflexivity.
    f_equal. f_equal. lia.
Qed.

Lemma join_network_backoff_witness :
  join_network 100 (fun k => if (k <? 2)%nat then OT_ERROR_OTHER 1 else OT_ERROR_ALREADY)
  = Returns (3%nat, 90%nat).
Proof.
  apply (join_network_backoff
           (fun k => if (k <? 2)%nat then OT_ERROR_OTHER 1 else OT_ERROR_ALREADY)
           2 100).
  - intros k Hk. destruct (Nat.ltb_spec k 2); [reflexivity|lia].
  - reflexivity.
Defined.

(** X12.  The join loop has no other exit: when no attempt succeeds it
    runs for as long as it is given. *)
Theorem join_network_never_gives_up try_join fuel :
  (forall k, joined (try_join k) = false) ->
  join_network fuel try_join = OutOfFuel.
Proof.
  intros Hfail. apply join_loop_never; [assumption|lia].
Qed.

Lemma join_network_never_gives_up_witness :
  join_network 1000 (fun _ => OT_ERROR_OTHER 1) = OutOfFuel.
Proof.
  apply (join_network_never_gives_up (fun _ => OT_ERROR_OTHER 1) 1000).
  intros k. reflexivity.
Defined.

Lemma hex_digit_range d :
  0 <= d < 16 ->
  (48 <= hex_digit d <= 57 \/ 65 <= hex_digit d <= 70)
  /\ hex_value (hex_digit d) = d.
Proof.
  intros Hd. unfold hex_value, hex_digit.
  destruct (Z.ltb_spec d 10).
  - destruct (Z.ltb_spec (48 + d) 58); lia.
  - destruct (Z.ltb_spec (55 + d) 58); lia.
Qed.

Lemma u8_digits x :
  0 <= u8 x / 16 < 16 /\ 0 <= u8 x mod 16 < 16
  /\ 16 * (u8 x / 16) + u8 x mod 16 = u8 x.
Proof.
  assert (0 <= u8 x < 256) by (unfold u8; apply Z.mod_pos_bound; lia).
  pose proof (Z.div_mod (u8 x) 16 ltac:(lia)).
  pose proof (Z.mod_pos_bound (u8 x) 16 ltac:(lia)).
  assert (0 <= u8 x / 16) by (apply Z.div_pos; lia).
  assert (u8 x / 16 < 16) by (apply Z.div_lt_upper_bound; lia).
  lia.
Qed.

Lemma fmt_02X_read x :
  16 * hex_value (hex_digit (u8 x / 16)) + hex_value (hex_digit (u8 x mod 16)) = u8 x.
Proof.
  destruct (u8_digits x) as (Hhi & Hlo & Hx).
  rewrite (proj2 (hex_digit_range _ Hhi)), (proj2 (hex_digit_range _ Hlo)).
  exact Hx.
Qed.

(** X13.  The serial number handed to [app_set_serial_number] by [main]:
    the buffer of 13 holds all twelve digits of the six bytes, none is cut
    off by [snprintf]; every digit is one of 0-9 and A-F, so upper case;
    and the bytes can be read back from the string, so that different
    serial numbers give different strings. *)
Theorem serial_number_str_format sn :
  List.length (serial_number_str sn) = 12%nat
  /\ (forall c, In c (serial_number_str sn) -> 48 <= c <= 57 \/ 65 <= c <= 70)
  /\ parse_hex_bytes (serial_number_str sn)
     = map (fun i => u8 (nth i sn 0)) [0; 1; 2; 3; 4; 5]%nat.
Proof.
  unfold serial_number_str, snprintf, fmt_02X.
  cbn [app firstn Nat.sub List.length map parse_hex_bytes].
  split; [reflexivity|]. split.
  - intros c Hc. cbn [In] in Hc.
    repeat (destruct Hc as [<-|Hc];
            [apply hex_digit_range; apply u8_digits|]).
    contradiction.
  - rewrite !fmt_02X_read. reflexivity.
Qed.

(** ** Properties of the strings of knx_iot_example.c *)

Lemma read_terminated s rest :
  Forall (fun c => c <> 0) s -> CString.read (s ++ 0 :: rest) = Some s.
Proof.
  induction 1 as [|c s Hc _ IH]; [reflexivity|].
  cbn [app CString.read]. apply Z.eqb_neq in Hc. rewrite Hc, IH. reflexivity.
Qed.

Lemma read_unterminated s :
  Forall (fun c => c <> 0) s -> CString.read s = None.
Proof.
  induction 1 as [|c s Hc _ IH]; [reflexivity|].
  cbn [CString.read]. apply Z.eqb_neq in Hc. rewrite Hc, IH. reflexivity.
Qed.

Lemma firstn_repeat_le {A} (x : A) k n :
  (k <= n)%nat -> firstn k (repeat x n) = repeat x k.
Proof.
  revert n. induction k as [|k IH]; intros n Hk; [reflexivity|].
  destruct n as [|n]; [lia|]. cbn. f_equal. apply IH. lia.
Qed.

Lemma strncpy_short s n :
  (List.length s <= n)%nat ->
  CString.strncpy s n = s ++ repeat 0 (n - List.length s).
Proof.
  intros H. unfold CString.strncpy.
  rewrite firstn_app, firstn_all2 by assumption.
  rewrite firstn_repeat_le by lia. reflexivity.
Qed.

Lemma strncpy_long s n :
  (n <= List.length s)%nat -> CString.strncpy s n = firstn n s.
Proof.
  intros H. unfold CString.strncpy.
  rewrite firstn_app. replace (n - List.length s)%nat with 0%nat by lia.
  cbn [firstn]. apply app_nil_r.
Qed.

Lemma strncpy_length s n : List.length (CString.strncpy s n) = n.
Proof.
  unfold CString.strncpy. rewrite length_firstn, length_app, repeat_length. lia.
Qed.

Lemma Forall_firstn {A} (P : A -> Prop) n l : Forall P l -> Forall P (firstn n l).
Proof.
  intros H. revert n. induction H; intros [|n]; cbn; auto.
Qed.

(** X14.  [app_set_serial_number] fills the 20 bytes of [g_serial_number];
    what they hold is a string, and then the serial number given, only if
    that has fewer than 20 characters: from 20 characters on the bytes are
    its first 20 characters with no NUL after them. *)
Theorem app_set_serial_number_terminated s :
  Forall (fun c => c <> 0) s ->
  List.length (CString.app_set_serial_number s) = 20%nat
  /\ CString.read (CString.app_set_serial_number s)
     = (if (List.length s <? 20)%nat then Some s else None)
  /\ ((20 <= List.length s)%nat -> CString.app_set_serial_number s = firstn 20 s).
Proof.
  intros Hs. unfold CString.app_set_serial_number.
  split; [apply strncpy_length|]. split.
  - destruct (Nat.ltb_spec (List.length s) 20) as [Hlt|Hge].
    + rewrite strncpy_short by lia.
      destruct (20 - List.length s)%nat as [|k] eqn:E; [lia|].
      cbn [repeat]. apply read_terminated, Hs.
    + rewrite strncpy_long by assumption.
      apply read_unterminated, Forall_firstn, Hs.
  - apply strncpy_long.
Qed.

Lemma app_set_serial_number_terminated_witness :
  CString.read (CString.app_set_serial_number [48; 48; 70; 65])
  = Some [48; 48; 70; 65].
Proof.
  apply (app_set_serial_number_terminated [48; 48; 70; 65]).
  repeat constructor; discriminate.
Defined.

Lemma toupper_idem c : CString.toupper (CString.toupper c) = CString.toupper c.
Proof.
  unfold CString.toupper.
  destruct ((97 <=? c) && (c <=? 122)) eqn:E; [|rewrite E; reflexivity].
  destruct ((97 <=? c - 32) && (c - 32 <=? 122)) eqn:E2; [|reflexivity].
  rewrite andb_true_iff, !Z.leb_le in E, E2. lia.
Qed.

Lemma toupper_nonzero c : c <> 0 -> CString.toupper c <> 0.
Proof.
  unfold CString.toupper.
  destruct (Z.leb_spec 97 c), (Z.leb_spec c 122); cbn [andb]; lia.
Qed.

Lemma app_str_to_upper_read buf :
  match CString.read buf with
  | Some s =>
      CString.app_str_to_upper buf
      = Some (map CString.toupper s ++ skipn (List.length s) buf)
  | None => CString.app_str_to_upper buf = None
  end.
Proof.
  induction buf as [|c buf IH]; [reflexivity|].
  cbn [CString.read CString.app_str_to_upper].
  destruct (c =? 0); [reflexivity|].
  destruct (CString.read buf) as [s|]; cbn [option_map]; rewrite IH; reflexivity.
Qed.

Lemma read_Forall buf s : CString.read buf = Some s -> Forall (fun c => c <> 0) s.
Proof.
  revert s. induction buf as [|c buf IH]; intros s H; [discriminate|].
  cbn [CString.read] in H. destruct (c =? 0) eqn:E.
  - inversion H. constructor.
  - destruct (CString.read buf) as [s'|]; [|discriminate].
    inversion H. constructor; [apply Z.eqb_neq, E | apply IH; reflexivity].
Qed.

Lemma read_split buf s :
  CString.read buf = Some s ->
  exists rest, buf = s ++ 0 :: rest.
Proof.
  revert s. induction buf as [|c buf IH]; intros s H; [discriminate|].
  cbn [CString.read] in H. destruct (c =? 0) eqn:E.
  - inversion H. apply Z.eqb_eq in E. subst. now exists buf.
  - destruct (CString.read buf) as [s'|]; [|discriminate].
    inversion H. destruct (IH s' eq_refl) as [rest ->]. now exists rest.
Qed.

Lemma read_None buf : CString.read buf = None <-> ~ In 0 buf.
Proof.
  induction buf as [|c buf IH]; [cbn; tauto|].
  cbn [CString.read In]. destruct (Z.eqb_spec c 0) as [->|Hc].
  - split; [discriminate|]. intros H. exfalso. apply H. now left.
  - destruct (CString.read buf); cbn [option_map].
    + split; [discriminate|]. intros H. exfalso.
      assert (Hn : ~ In 0 buf) by tauto. apply IH in Hn. discriminate.
    + split; [|reflexivity]. intros _ [H|H]; [contradiction|].
      now apply (proj1 IH).
Qed.

Lemma Forall_toupper s :
  Forall (fun c => c <> 0) s -> Forall (fun c => c <> 0) (map CString.toupper s).
Proof. induction 1; cbn; constructor; auto using toupper_nonzero. Qed.

(** X15.  [app_str_to_upper] stops at the first NUL and nowhere else: on
    bytes without a NUL it runs past their end.  Where it stops, the
    bytes up to the NUL are upper-cased one by one, nothing from the NUL
    on is touched, the length is kept, and running it again changes
    nothing. *)
Theorem app_str_to_upper_in_place buf :
  (CString.app_str_to_upper buf = None <-> ~ In 0 buf)
  /\ (forall buf',
         CString.app_str_to_upper buf = Some buf' ->
         exists s rest,
           buf = s ++ 0 :: rest
           /\ ~ In 0 s
           /\ buf' = map CString.toupper s ++ 0 :: rest
           /\ CString.read buf' = Some (map CString.toupper s)
           /\ CString.app_str_to_upper buf' = Some buf').
Proof.
  pose proof (app_str_to_upper_read buf) as Hr.
  split.
  - rewrite <- read_None. destruct (CString.read buf); rewrite Hr; split;
      intros; try discriminate; reflexivity.
  - intros buf' Hb.
    destruct (CString.read buf) as [s|] eqn:E; [|congruence].
    pose proof (read_Forall _ _ E) as Hs.
    destruct (read_split _ _ E) as [rest ->].
    rewrite Hb in Hr. inversion Hr as [Hb']. clear Hr.
    rewrite skipn_app, skipn_all, Nat.sub_diag. cbn [skipn app].
    exists s, rest. split; [reflexivity|]. split.
    { rewrite Forall_forall in Hs. intros Hin. now apply (Hs 0). }
    split; [reflexivity|].
    assert (Hread : CString.read (map CString.toupper s ++ 0 :: rest)
                    = Some (map CString.toupper s))
      by (apply read_terminated, Forall_toupper, Hs).
    split; [exact Hread|].
    pose proof (app_str_to_upper_read (map CString.toupper s ++ 0 :: rest)) as Hr.
    rewrite Hread in Hr. rewrite Hr.
    rewrite length_map, skipn_app, length_map, skipn_all2, Nat.sub_diag
      by (rewrite length_map; lia).
    cbn [skipn app]. rewrite map_map.
    f_equal. f_equal. apply map_ext. intros c. apply toupper_idem.
Qed.

Lemma app_str_to_upper_in_place_witness :
  exists s rest,
    [107; 110; 120; 0; 97] = s ++ 0 :: rest
    /\ ~ In 0 s
    /\ [75; 78; 88; 0; 97] = map CString.toupper s ++ 0 :: rest
    /\ CString.read [75; 78; 88; 0; 97] = Some (map CString.toupper s)
    /\ CString.app_str_to_upper [75; 78; 88; 0; 97] = Some [75; 78; 88; 0; 97].
Proof.
  apply (proj2 (app_str_to_upper_in_place [107; 110; 120; 0; 97])).
  reflexivity.
Defined.

(** X16.  The QR-code lines of [app_init] copy at most 19 characters of
    the serial number into an array of 20 and never write its 20th byte:
    a serial number of up to 18 characters is upper-cased in place; with
    19 characters or more the upper-casing stops inside the array only if
    the byte that was never written happens to be NUL, and runs past the
    end of the array otherwise. *)
Theorem serial_number_uppercase_cases s last :
  Forall (fun c => c <> 0) s ->
  CString.serial_number_uppercase s last
  = if (List.length s <? 19)%nat
    then Some (map CString.toupper s ++ repeat 0 (19 - List.length s) ++ [last])
    else if last =? 0 then Some (map CString.toupper (firstn 19 s) ++ [0])
         else None.
Proof.
  intros Hs. unfold CString.serial_number_uppercase.
  destruct (Nat.ltb_spec (List.length s) 19) as [Hlt|Hge].
  - rewrite strncpy_short by lia.
    destruct (19 - List.length s)%nat as [|k] eqn:E; [lia|].
    cbn [repeat]. rewrite <- app_assoc. cbn [app].
    pose proof (app_str_to_upper_read (s ++ 0 :: repeat 0 k ++ [last])) as Hr.
    rewrite (read_terminated s _ Hs) in Hr. rewrite Hr.
    rewrite skipn_app, skipn_all, Nat.sub_diag. reflexivity.
  - rewrite strncpy_long by assumption.
    pose proof (Forall_firstn _ 19 _ Hs) as Hf.
    destruct (Z.eqb_spec last 0) as [->|Hl].
    + pose proof (app_str_to_upper_read (firstn 19 s ++ [0])) as Hr.
      rewrite (read_terminated _ [] Hf) in Hr. rewrite Hr.
      rewrite skipn_app, skipn_all, Nat.sub_diag. reflexivity.
    + pose proof (app_str_to_upper_read (firstn 19 s ++ [last])) as Hr.
      rewrite read_unterminated in Hr; [exact Hr|].
      apply Forall_app. split; [exact Hf|]. constructor; [exact Hl|constructor].
Qed.

Lemma serial_number_uppercase_cases_witness :
  CString.serial_number_uppercase (repeat 49 19) 7 = None.
Proof.
  apply (serial_number_uppercase_cases (repeat 49 19) 7).
  repeat constructor; discriminate.
Defined.

Lemma toupper_digit c :
  48 <= c <= 57 \/ 65 <= c <= 70 -> CString.toupper c = c /\ c <> 0.
Proof.
  intros H. unfold CString.toupper.
  destruct (Z.leb_spec 97 c); cbn [andb]; [lia|]. lia.
Qed.

Lemma serial_number_str_shape sn :
  List.length (serial_number_str sn) = 12%nat
  /\ (forall c, In c (serial_number_str sn) -> 48 <= c <= 57 \/ 65 <= c <= 70).
Proof.
  unfold serial_number_str, snprintf, fmt_02X.
  cbn [app firstn Nat.sub List.length].
  split; [reflexivity|].
  intros c Hc. cbn [In] in Hc.
  repeat (destruct Hc as [<-|Hc];
          [apply hex_digit_range; apply u8_digits|]).
  contradiction.
Qed.

(** X17.  The serial number that [main] formats goes through
    [app_set_serial_number] and through the QR-code lines of [app_init]
    unchanged: it fits into [g_serial_number] with its NUL, and the
    upper-casing is defined, whatever the unwritten byte holds, and
    leaves it as it is. *)
Theorem serial_number_str_survives sn last :
  CString.read (CString.app_set_serial_number (serial_number_str sn))
  = Some (serial_number_str sn)
  /\ exists buf,
       CString.serial_number_uppercase (serial_number_str sn) last = Some buf
       /\ CString.read buf = Some (serial_number_str sn).
Proof.
  destruct (serial_number_str_shape sn) as [Hlen Hdig].
  assert (Hnz : Forall (fun c => c <> 0) (serial_number_str sn)).
  { apply Forall_forall. intros c Hc. apply toupper_digit, Hdig, Hc. }
  assert (Hup : map CString.toupper (serial_number_str sn) = serial_number_str sn).
  { rewrite <- (map_id (serial_number_str sn)) at 2.
    apply map_ext_in. intros c Hc. apply toupper_digit, Hdig, Hc. }
  split.
  - unfold CString.app_set_serial_number.
    rewrite strncpy_short by lia. rewrite Hlen. cbn [Nat.sub repeat].
    apply read_terminated, Hnz.
  - unfold CString.serial_number_uppercase.
    rewrite strncpy_short by lia. rewrite Hlen. cbn [Nat.sub repeat].
    rewrite <- app_assoc. cbn [app].
    pose proof (app_str_to_upper_read
                  (serial_number_str sn ++ 0 :: [0; 0; 0; 0; 0; 0; last])) as Hr.
    rewrite (read_terminated _ _ Hnz) in Hr. rewrite Hr, Hup.
    rewrite skipn_app, skipn_all, Nat.sub_diag. cbn [skipn app].
    eexists. split; [reflexivity|]. apply read_terminated, Hnz.
Qed.

(** ** Properties of the data points of knx_iot_example.c *)

Section DataPointProperties.

Import DataPoints.

Lemma streq_eq a b : streq a b = true <-> a = b.
Proof. apply String.eqb_eq. Qed.

Lemma streq_refl a : streq a a = true.
Proof. apply String.eqb_refl. Qed.

Lemma retrieve_after_set url url' value v :
  app_retrieve_bool_variable url' (app_set_bool_variable url value v)
  = if streq url' url && app_is_bool_url url then value
    else app_retrieve_bool_variable url' v.
Proof.
  unfold app_retrieve_bool_variable, app_set_bool_variable, app_is_bool_url.
  destruct (streq url URL_LED_1) eqn:E1.
  - apply streq_eq in E1. subst url. rewrite andb_true_r.
    destruct (streq url' URL_LED_1) eqn:E; [reflexivity|].
    destruct (streq url' URL_PB_1); reflexivity.
  - destruct (streq url URL_PB_1) eqn:E2.
    + apply streq_eq in E2. subst url. rewrite andb_true_r.
      destruct (streq url' URL_LED_1) eqn:E.
      * apply streq_eq in E. subst url'. reflexivity.
      * destruct (streq url' URL_PB_1); reflexivity.
    + rewrite andb_false_r. reflexivity.
Qed.

(** X18.  The variables behind the data points behave as a store keyed by
    url: reading after a write gives the value written at the url
    written, if it names a data point, and what was there before
    everywhere else; a write to any other url changes nothing; and no
    write reaches the fault variable. *)
Theorem bool_variables_are_a_store url url' value v :
  app_retrieve_bool_variable url' (app_set_bool_variable url value v)
  = (if streq url' url && app_is_bool_url url then value
     else app_retrieve_bool_variable url' v)
  /\ (app_is_bool_url url = false -> app_set_bool_variable url value v = v)
  /\ app_retrieve_fault_variable url' (app_set_bool_variable url value v)
     = app_retrieve_fault_variable url' v.
Proof.
  split; [apply retrieve_after_set|]. split.
  - unfold app_is_bool_url, app_set_bool_variable.
    destruct (streq url URL_LED_1); [discriminate|].
    destruct (streq url URL_PB_1); [discriminate|reflexivity].
  - unfold app_retrieve_fault_variable, app_set_bool_variable.
    destruct (streq url URL_LED_1), (streq url URL_PB_1), (streq url' URL_LED_1);
      reflexivity.
Qed.

Lemma bool_variables_are_a_store_witness :
  app_set_bool_variable "/p/o_9_9" true (mkVars false false false)
  = mkVars false false false.
Proof.
  apply (bool_variables_are_a_store "/p/o_9_9" "/p/o_9_9" true (mkVars false false false)).
  reflexivity.
Defined.

(** X19.  A button press toggles the variable of its url and no other,
    a second press brings all variables back, and the s-mode write goes
    out for every url, also for one that names no data point and so
    toggles nothing. *)
Theorem dev_btn_toggle_cb_toggles url a :
  (forall url',
      app_retrieve_bool_variable url' (vars (dev_btn_toggle_cb url a))
      = if streq url' url && app_is_bool_url url
        then negb (app_retrieve_bool_variable url' (vars a))
        else app_retrieve_bool_variable url' (vars a))
  /\ vars (dev_btn_toggle_cb url (dev_btn_toggle_cb url a)) = vars a
  /\ out (dev_btn_toggle_cb url (dev_btn_toggle_cb url a))
     = out a ++ [SMode 5 url "w"; SMode 5 url "w"].
Proof.
  split; [|split].
  - intros url'. unfold dev_btn_toggle_cb. cbn [vars].
    rewrite retrieve_after_set.
    destruct (streq url' url && app_is_bool_url url) eqn:E; [|reflexivity].
    apply andb_true_iff in E. destruct E as [E _]. apply streq_eq in E. subst url'.
    destruct (app_retrieve_bool_variable url (vars a)); reflexivity.
  - unfold dev_btn_toggle_cb. cbn [vars].
    rewrite retrieve_after_set.
    unfold app_is_bool_url, app_set_bool_variable, app_retrieve_bool_variable.
    rewrite streq_refl. cbn [andb].
    destruct (vars a) as [l p f]. cbn [g_LED_1 g_PB_1 g_fault_LED_1].
    destruct (streq url URL_LED_1); [destruct l; reflexivity|].
    destruct (streq url URL_PB_1); [destruct p; reflexivity|reflexivity].
  - unfold dev_btn_toggle_cb. cbn [out]. rewrite <- app_assoc. reflexivity.
Qed.

Lemma put_LED_1_find req a :
  put_LED_1 req a
  = match find (fun r => (iname r =? 1) && is_OC_REP_BOOL (rep_type r)) req with
    | Some r =>
        mkApp (mkVars (value_boolean r) (g_PB_1 (vars a)) (g_fault_LED_1 (vars a)))
          (put_cb_set a)
          (out a ++ Response OC_STATUS_CHANGED
                 :: (if put_cb_set a then [PutCallback URL_LED_1] else []))
    | None =>
        mkApp (vars a) (put_cb_set a) (out a ++ [Response OC_STATUS_BAD_REQUEST])
    end.
Proof.
  unfold put_LED_1. induction req as [|r req IH]; [reflexivity|].
  cbn [put_LED_1_loop find].
  destruct ((iname r =? 1) && is_OC_REP_BOOL (rep_type r)); [|exact IH].
  unfold do_put_cb. cbn [vars put_cb_set out].
  destruct (put_cb_set a); [|reflexivity].
  rewrite <- app_assoc. reflexivity.
Qed.

(** X20.  [put_LED_1] answers every request exactly once and acts on the
    first entry of the payload with key 1 and a boolean value, whatever
    follows it: LED_1 takes its value, the answer is CHANGED and after it
    the put callback is called if one is set.  Without such an entry the
    answer is BAD_REQUEST and no callback is called.  Nothing but LED_1
    is ever changed. *)
Theorem put_LED_1_first_boolean_entry req a :
  let a' := put_LED_1 req a in
  let found := find (fun r => (iname r =? 1) && is_OC_REP_BOOL (rep_type r)) req in
  g_LED_1 (vars a') = match found with
                      | Some r => value_boolean r
                      | None => g_LED_1 (vars a)
                      end
  /\ g_PB_1 (vars a') = g_PB_1 (vars a)
  /\ g_fault_LED_1 (vars a') = g_fault_LED_1 (vars a)
  /\ put_cb_set a' = put_cb_set a
  /\ out a'
     = out a
       ++ match found with
          | Some _ =>
              Response OC_STATUS_CHANGED
              :: (if put_cb_set a then [PutCallback URL_LED_1] else [])
          | None => [Response OC_STATUS_BAD_REQUEST]
          end.
Proof.
  cbv zeta. rewrite put_LED_1_find.
  destruct (find _ req); cbn [vars put_cb_set out g_LED_1 g_PB_1 g_fault_LED_1];
    repeat split; reflexivity.
Qed.

Lemma strncmp_eq_prefix m :
  nul_free m -> forall lit, strncmp_eq m lit = prefix m lit.
Proof.
  unfold nul_free.
  induction m as [|c m IH]; intros Hm lit; [destruct lit; reflexivity|].
  cbn [list_ascii_of_string In] in Hm.
  assert (Hc : Ascii.eqb c Ascii.zero = false).
  { apply Ascii.eqb_neq. intros ->. apply Hm. now left. }
  cbn [strncmp_eq]. destruct lit as [|d lit]; [exact Hc|].
  change (prefix (String c m) (String d lit))
    with (if Ascii.ascii_dec c d then prefix m lit else false).
  destruct (Ascii.ascii_dec c d) as [->|Hne].
  - rewrite Ascii.eqb_refl, Hc. cbn [orb]. apply IH. tauto.
  - apply Ascii.eqb_neq in Hne. rewrite Hne. reflexivity.
Qed.

Lemma prefix_trans a : forall b c,
  prefix a b = true -> prefix b c = true -> prefix a c = true.
Proof.
  induction a as [|x a IH]; intros b c Hab Hbc; [destruct c; reflexivity|].
  destruct b as [|y b]; [discriminate|].
  change (prefix (String x a) (String y b))
    with (if Ascii.ascii_dec x y then prefix a b else false) in Hab.
  destruct (Ascii.ascii_dec x y) as [->|]; [|discriminate].
  destruct c as [|z c]; [discriminate|].
  change (prefix (String y b) (String z c))
    with (if Ascii.ascii_dec y z then prefix b c else false) in Hbc.
  change (prefix (String y a) (String z c))
    with (if Ascii.ascii_dec y z then prefix a c else false).
  destruct (Ascii.ascii_dec y z); [|discriminate]. eauto.
Qed.

Lemma prefix_nul_free a : forall b, prefix a b = true -> nul_free b -> nul_free a.
Proof.
  unfold nul_free.
  induction a as [|x a IH]; intros b Hab Hb; [cbn; tauto|].
  destruct b as [|y b]; [discriminate|].
  change (prefix (String x a) (String y b))
    with (if Ascii.ascii_dec x y then prefix a b else false) in Hab.
  destruct (Ascii.ascii_dec x y) as [->|]; [|discriminate].
  cbn [list_ascii_of_string In] in *. intros [H|H]; [tauto|].
  apply (IH b Hab); tauto.
Qed.

Lemma selected_prefix m name :
  nul_free m -> selected m name = prefix m name || prefix m "*".
Proof.
  intros Hm. unfold selected. now rewrite !strncmp_eq_prefix.
Qed.

Lemma selected_mono m m' name :
  nul_free m -> prefix m' m = true ->
  selected m name = true -> selected m' name = true.
Proof.
  intros Hm Hp. rewrite (selected_prefix m name Hm).
  rewrite (selected_prefix m' name (prefix_nul_free _ _ Hp Hm)).
  rewrite !orb_true_iff. intros [H|H]; [left|right]; eapply prefix_trans; eauto.
Qed.

Lemma incl_selected {A} m m' name (l : list A) :
  (selected m name = true -> selected m' name = true) ->
  incl (if selected m name then l else []) (if selected m' name then l else []).
Proof.
  intros H. destruct (selected m name); [|intros x []].
  rewrite H by reflexivity. apply incl_refl.
Qed.

(** X21.  The metadata query of [get_LED_1] and [get_PB_1] compares only
    the characters the query value has: a value selects every field whose
    name it is a prefix of, and all fields if it is a prefix of the
    wildcard.  So a shorter value selects at least what a longer one
    does, and the empty value selects what the wildcard selects. *)
Theorem metadata_selected_by_prefix rt if_ desc serialnumber rq m :
  nul_free m ->
  (forall name, selected m name = prefix m name || prefix m "*")
  /\ (forall m', prefix m' m = true ->
        incl (metadata rt if_ desc serialnumber rq m)
             (metadata rt if_ desc serialnumber rq m'))
  /\ metadata rt if_ desc serialnumber rq ""
     = metadata rt if_ desc serialnumber rq "*".
Proof.
  intros Hm. split; [|split].
  - intros name. apply selected_prefix, Hm.
  - intros m' Hp. unfold metadata.
    repeat apply incl_app_app;
      apply incl_selected; apply selected_mono; assumption.
  - reflexivity.
Qed.

Lemma metadata_selected_by_prefix_witness :
  incl (metadata "rt" "if" "desc" "00FA" (mkRequest true (Some "de"%string) ["de"%string] (Some "00FA"%string) "/p/o_1_1" "dpt" None) "de")
       (metadata "rt" "if" "desc" "00FA" (mkRequest true (Some "de"%string) ["de"%string] (Some "00FA"%string) "/p/o_1_1" "dpt" None) "d").
Proof.
  apply (metadata_selected_by_prefix "rt" "if" "desc" "00FA"
           (mkRequest true (Some "de"%string) ["de"%string] (Some "00FA"%string) "/p/o_1_1" "dpt" None) "de").
  - unfold nul_free. cbn. intros [H|[H|[]]]; discriminate H.
  - reflexivity.
Defined.

(** X22.  What [put_LED_1] stores is what [get_LED_1] hands out: after a
    payload with a boolean entry of key 1, a GET without query encodes
    the value of the first such entry under key 1, while the same GET on
    PB_1 still encodes the value PB_1 had; neither GET changes a
    variable. *)
Theorem put_LED_1_then_get req r (g_err : bool) rq a :
  find (fun e : oc_rep => (iname e =? 1) && is_OC_REP_BOOL (rep_type e)) req = Some r ->
  accept_cbor rq = true ->
  query_m rq = None ->
  let a' := put_LED_1 req a in
  let status := if g_err then OC_STATUS_BAD_OPTION else OC_STATUS_OK in
  out (get_LED_1 g_err rq a')
  = out a' ++ [Payload [(IKey 1, RepBoolean (value_boolean r))]; Response status]
  /\ out (get_PB_1 g_err rq a')
     = out a' ++ [Payload [(IKey 1, RepBoolean (g_PB_1 (vars a)))]; Response status]
  /\ vars (get_LED_1 g_err rq a') = vars a'
  /\ vars (get_PB_1 g_err rq a') = vars a'.
Proof.
  intros Hf Hacc Hq. cbv zeta. rewrite put_LED_1_find, Hf.
  unfold get_LED_1, get_PB_1, get_data_point.
  rewrite Hacc, Hq. cbn [negb vars out g_LED_1 g_PB_1].
  destruct g_err; repeat split; reflexivity.
Qed.

Lemma put_LED_1_then_get_witness :
  out (get_LED_1 false (mkRequest true None [] (Some "00FA"%string) "/p/o_1_1" "dpt" None)
         (put_LED_1 [mkRep 1 OC_REP_INT false; mkRep 1 OC_REP_BOOL true; mkRep 1 OC_REP_BOOL false]
            (mkApp (mkVars false false false) true [])))
  = [Response OC_STATUS_CHANGED; PutCallback URL_LED_1;
     Payload [(IKey 1, RepBoolean true)]; Response OC_STATUS_OK].
Proof.
  apply (put_LED_1_then_get
           [mkRep 1 OC_REP_INT false; mkRep 1 OC_REP_BOOL true; mkRep 1 OC_REP_BOOL false]
           (mkRep 1 OC_REP_BOOL true) false
           (mkRequest true None [] (Some "00FA"%string) "/p/o_1_1" "dpt" None)
           (mkApp (mkVars false false false) true []));
    reflexivity.
Defined.

(** X23.  [get_LED_1] and [get_PB_1] answer a request once, with one
    exception: a metadata query for which the stack has no device is
    answered twice, BAD_OPTION first and OK after it.  The two handlers
    give the same answers to the same request. *)
Theorem get_answers_once_unless_device_is_null g_err rq a :
  let no_device :=
    accept_cbor rq
    && match query_m rq, device_serialnumber rq with
       | Some _, None => true
       | _, _ => false
       end in
  responses (out (get_LED_1 g_err rq a))
  = responses (out a)
    ++ (if no_device then [OC_STATUS_BAD_OPTION; OC_STATUS_OK]
        else if negb (accept_cbor rq) then [OC_STATUS_BAD_OPTION]
        else match query_m rq with
             | Some _ => [OC_STATUS_OK]
             | None => [if g_err then OC_STATUS_BAD_OPTION else OC_STATUS_OK]
             end)
  /\ responses (out (get_PB_1 g_err rq a)) = responses (out (get_LED_1 g_err rq a)).
Proof.
  cbv zeta. unfold get_LED_1, get_PB_1, get_data_point, responses.
  cbn [out]. rewrite !flat_map_app.
  destruct (accept_cbor rq), (query_m rq), (device_serialnumber rq), g_err;
    split; reflexivity.
Qed.

End DataPointProperties.

(** ** The device code on the data points *)

Lemma calls_of_device_quiet w w' l :
  log w' = log w ++ l ->
  flat_map data_point_calls l = [] ->
  calls_of_device w -> calls_of_device w'.
Proof.
  unfold calls_of_device, lssb_presses. intros -> Hl Hp.
  rewrite flat_map_app, Hl, app_nil_r, Hp, filter_app, length_app.
  replace (List.length (filter _ l)) with 0%nat; [now rewrite Nat.add_0_r|].
  clear Hp. induction l as [|e l IH]; [reflexivity|].
  cbn [flat_map] in Hl. apply app_eq_nil in Hl. destruct Hl as [He Hl].
  destruct e; try discriminate He; cbn [filter]; auto.
Qed.

Lemma calls_of_device_toggle :
  maintains calls_of_device (dev_btn_toggle_cb URL_PB_1).
Proof.
  apply maintains_modify. intros w Hp.
  unfold calls_of_device, lssb_presses in *. cbn [log emit].
  rewrite flat_map_app, filter_app, length_app, Hp. cbn.
  rewrite Nat.add_1_r. cbn [repeat].
  change (DataPoints.Call_dev_btn_toggle_cb URL_PB_1
          :: repeat (DataPoints.Call_dev_btn_toggle_cb URL_PB_1)
               (List.length (filter (fun e => match e with EvDevBtnToggle _ => true | _ => false end) (log w))))
    with (repeat (DataPoints.Call_dev_btn_toggle_cb URL_PB_1)
            (S (List.length (filter (fun e => match e with EvDevBtnToggle _ => true | _ => false end) (log w))))).
  rewrite <- Nat.add_1_r, repeat_app. reflexivity.
Qed.

Ltac calls_prim :=
  first
    [ apply calls_of_device_toggle
    | apply maintains_modify; intros w Hp;
      first
        [ apply (calls_of_device_quiet w _ []); [cbn; now rewrite app_nil_r | reflexivity | exact Hp]
        | cbn;
          repeat match goal with
                 | |- context [match ?x with _ => _ end] => destruct x
                 end;
          first
            [ exact Hp
            | eapply (calls_of_device_quiet w); [cbn; rewrite <- ?app_assoc; reflexivity | reflexivity | exact Hp]
            | apply (calls_of_device_quiet w _ []); [cbn; now rewrite app_nil_r | reflexivity | exact Hp] ] ] ].

Lemma run_button_fn_calls cfg f :
  maintains calls_of_device (run_button_fn cfg f NULL).
Proof. destruct f; cbn [run_button_fn]; maint calls_prim. Qed.








(** ** Any sequence of calls on the data points *)

Section DataPointCalls.

Import DataPoints.

Lemma do_call_fault c a :
  g_fault_LED_1 (vars (do_call a c)) = g_fault_LED_1 (vars a).
Proof.
  destruct c; cbn [do_call on_vars vars app_set_put_cb get_LED_1 get_PB_1
                   dev_btn_toggle_cb]; try reflexivity.
  - unfold app_set_bool_variable.
    destruct (streq url URL_LED_1), (streq url URL_PB_1); reflexivity.
  - unfold do_put_cb. destruct (put_cb_set a); reflexivity.
  - unfold app_set_bool_variable.
    destruct (streq url URL_LED_1), (streq url URL_PB_1); reflexivity.
  - rewrite put_LED_1_find. destruct (find _ request_payload); reflexivity.
Qed.

Lemma get_data_point_no_callback rt if_ desc value g_err rq u :
  ~ In (PutCallback u) (get_data_point rt if_ desc value g_err rq).
Proof.
  unfold get_data_point.
  destruct (accept_cbor rq), (query_m rq), (device_serialnumber rq), g_err;
    cbn; intuition discriminate.
Qed.

(** Without a callback set, a call other than [app_set_put_cb] with a
    function sets none and calls none. *)
Lemma do_call_no_callback c a :
  put_cb_set a = false ->
  c <> Call_app_set_put_cb true ->
  put_cb_set (do_call a c) = false
  /\ forall u, In (PutCallback u) (out (do_call a c)) -> In (PutCallback u) (out a).
Proof.
  intros Hcb Hc.
  destruct c; cbn [do_call on_vars vars put_cb_set out app_set_put_cb get_LED_1
                   get_PB_1 dev_btn_toggle_cb]; auto.
  - destruct cb; [congruence|]. auto.
  - unfold do_put_cb. rewrite Hcb. auto.
  - split; [exact Hcb|]. intros u Hin.
    apply in_app_or in Hin. destruct Hin as [H|[H|[]]]; [exact H|discriminate H].
  - rewrite put_LED_1_find, Hcb.
    destruct (find _ request_payload); cbn [put_cb_set out]; (split; [reflexivity|]);
      intros u Hin; apply in_app_or in Hin;
      destruct Hin as [H|[H|[]]]; (exact H || discriminate H).
  - split; [exact Hcb|]. intros u Hin.
    apply in_app_or in Hin. destruct Hin as [H|H]; [exact H|].
    exfalso. exact (get_data_point_no_callback _ _ _ _ _ _ _ H).
  - split; [exact Hcb|]. intros u Hin.
    apply in_app_or in Hin. destruct Hin as [H|H]; [exact H|].
    exfalso. exact (get_data_point_no_callback _ _ _ _ _ _ _ H).
Qed.

Lemma do_calls_fault l : forall a,
  g_fault_LED_1 (vars (do_calls l a)) = g_fault_LED_1 (vars a).
Proof.
  induction l as [|c l IH]; intros a; [reflexivity|].
  cbn [do_calls fold_left]. unfold do_calls in IH.
  rewrite IH. apply do_call_fault.
Qed.

Lemma do_calls_callback l : forall a u,
  put_cb_set a = false ->
  In (PutCallback u) (out (do_calls l a)) ->
  In (PutCallback u) (out a) \/ In (Call_app_set_put_cb true) l.
Proof.
  induction l as [|c l IH]; intros a u Hcb Hin; [left; exact Hin|].
  cbn [do_calls fold_left] in Hin. cbn [In].
  assert (Hdec : c = Call_app_set_put_cb true \/ c <> Call_app_set_put_cb true)
    by (destruct c as [| | |[|]| | | | |]; (left; reflexivity) || (right; discriminate)).
  destruct Hdec as [Hc|Hc]; [right; left; exact Hc|].
  destruct (do_call_no_callback c a Hcb Hc) as [Hcb' Hout].
  destruct (IH (do_call a c) u Hcb' Hin) as [H|H]; [left; apply Hout, H | right; right; exact H].
Qed.

(** X25.  Whatever is called on the data points after start-up, and in
    whatever order: the fault variable is never set, since no function
    writes it and [app_set_fault_variable] is empty, so that
    [app_retrieve_fault_variable] gives [false] for every url; and the
    put callback is never called unless [app_set_put_cb] was called with
    a function. *)
Theorem fault_never_set_callback_never_unset l :
  (forall url, app_retrieve_fault_variable url (vars (do_calls l startup)) = false)
  /\ (forall u, In (PutCallback u) (out (do_calls l startup)) ->
                In (Call_app_set_put_cb true) l).
Proof.
  split.
  - intros url. unfold app_retrieve_fault_variable.
    rewrite do_calls_fault. destruct (streq url URL_LED_1); reflexivity.
  - intros u Hin.
    destruct (do_calls_callback l startup u eq_refl Hin) as [[]|H]. exact H.
Qed.

Lemma fault_never_set_callback_never_unset_witness :
  In (Call_app_set_put_cb true)
     [Call_app_set_put_cb true; Call_put_LED_1 [mkRep 1 OC_REP_BOOL true]].
Proof.
  apply (proj2 (fault_never_set_callback_never_unset
                  [Call_app_set_put_cb true; Call_put_LED_1 [mkRep 1 OC_REP_BOOL true]])
           URL_LED_1).
  cbn. auto.
Defined.

End DataPointCalls.
